(** * Telegram notifier worker: the notification fan-out of [routes/notify.ts]

    A shallow embedding of [escapeMarkdownV2] (utils/misc.ts) and of the
    [notify] route handler (routes/notify.ts), followed by the properties
    of the renderer and of the dispatcher.

    Strings are JavaScript strings: finite sequences of UTF-16 code units,
    here [list N].  The regular expression of [escapeMarkdownV2] carries no
    [u] flag, so it also works code unit by code unit. *)

From Stdlib Require Import Ascii String.
From Stdlib Require Import List NArith ZArith Lia Bool Arith.
Import ListNotations.

(* ================================================================== *)
(** ** JavaScript strings *)

Module Js.

Definition jsstring := list N.

(** A source literal, code unit by code unit. *)
Fixpoint lit (s : string) : jsstring :=
  match s with
  | EmptyString => []
  | String a r => N_of_ascii a :: lit r
  end.

Definition LF : N := 10.
Definition BACKSLASH : N := 92.
Definition GT : N := 62.

(** Equality of two strings, code unit by code unit. *)
Fixpoint jsstring_eqb (a b : jsstring) : bool :=
  match a, b with
  | [], [] => true
  | x :: a', y :: b' => (x =? y)%N && jsstring_eqb a' b'
  | _, _ => false
  end.

(** [WhiteSpace] and [LineTerminator] of ECMAScript, the code units that
    [String.prototype.trim] strips. *)
Definition is_whitespace (c : N) : bool :=
  existsb (N.eqb c)
    [9; 10; 11; 12; 13; 32; 160; 5760; 8232; 8233; 8239; 8287; 12288; 65279]%N
  || ((8192 <=? c) && (c <=? 8202))%N.

Fixpoint trimStart (s : jsstring) : jsstring :=
  match s with
  | [] => []
  | c :: r => if is_whitespace c then trimStart r else s
  end.

Definition trimEnd (s : jsstring) : jsstring := rev (trimStart (rev s)).

(** [s.trim()] *)
Definition trim (s : jsstring) : jsstring := trimEnd (trimStart s).

(** [s.split(sep)] for a separator of one code unit: the pieces between the
    separators, [[""]] for the empty string. *)
Fixpoint split (sep : N) (s : jsstring) : list jsstring :=
  match s with
  | [] => [[]]
  | c :: r =>
      if N.eqb c sep then [] :: split sep r
      else match split sep r with
           | [] => [[c]]
           | p :: ps => (c :: p) :: ps
           end
  end.

(** [pieces.join(sep)] *)
Fixpoint join (sep : jsstring) (pieces : list jsstring) : jsstring :=
  match pieces with
  | [] => []
  | [p] => p
  | p :: ps => p ++ sep ++ join sep ps
  end.

(** [s.slice(0, n)] for a non-negative [n]. *)
Definition slice0 (n : nat) (s : jsstring) : jsstring := firstn n s.

(** A value interpolated into a template literal: [undefined] prints as the
    word. *)
Definition to_template (v : option jsstring) : jsstring :=
  match v with
  | Some s => s
  | None => lit "undefined"
  end.

(** Truthiness of a value that is a string or [undefined]. *)
Definition truthy (v : option jsstring) : bool :=
  match v with
  | Some (_ :: _) => true
  | _ => false
  end.

(** [v ?? d] for a value that is a string or [undefined]. *)
Definition nullish (v : option jsstring) (d : jsstring) : jsstring :=
  match v with
  | Some s => s
  | None => d
  end.

(** The value itself when it is truthy. *)
Definition truthy_value (v : option jsstring) : option jsstring :=
  if truthy v then v else None.

(** [v === s] for a value that is a string or [undefined] and a string. *)
Definition strict_eq (v : option jsstring) (s : jsstring) : bool :=
  match v with
  | Some a => jsstring_eqb a s
  | None => false
  end.

End Js.
Import Js.

(* ================================================================== *)
(** ** utils/misc.ts *)

(** The character class of the regular expression
    [/[\\_*\[\]\(\)~`>#+-=\|{}\.!]/g].  Between [#] and [\|] the class
    reads [+-=], which the regular expression grammar takes as the range
    from [+] (43) to [=] (61). *)
Definition regex_class (c : N) : bool :=
  existsb (N.eqb c) [92; 95; 42; 91; 93; 40; 41; 126; 96; 62; 35]%N
  || ((43 <=? c) && (c <=? 61))%N
  || existsb (N.eqb c) [124; 123; 125; 46; 33]%N.

(** [text.replace(/[...]/g, '\\$&')]: every match is replaced by a
    backslash followed by the match. *)
Fixpoint escapeMarkdownV2 (text : jsstring) : jsstring :=
  match text with
  | [] => []
  | c :: r =>
      if regex_class c then BACKSLASH :: c :: escapeMarkdownV2 r
      else c :: escapeMarkdownV2 r
  end.

(** A call of [escapeMarkdownV2] on a value that may be [undefined]:
    [undefined.replace] throws a TypeError, rendered as [None]. *)
Definition escapeMarkdownV2_call (v : option jsstring) : option jsstring :=
  option_map escapeMarkdownV2 v.

(** The reserved characters of the MarkdownV2 dialect, as the specification
    lists them: \ _ * [ ] ( ) ~ ` > # + - = | { } . ! *)
Definition reserved_set : list N :=
  [92; 95; 42; 91; 93; 40; 41; 126; 96; 62; 35; 43; 45; 61; 124; 123; 125;
   46; 33]%N.

Definition reserved (c : N) : bool := existsb (N.eqb c) reserved_set.

(* ================================================================== *)
(** ** routes/notify.ts: constants, payload and the message templates *)

Definition BATCH_SIZE : nat := 10.
Definition RETRIES : nat := 3.
Definition MAX_DESCRIPTION_LENGTH : nat := 500.

Inductive NotifyType :=
| ProposalCreated
| ProposalExecuted
| ProposalExecutionFailed
| ProposalClosed.

(** The string value of each member of the enum. *)
Definition NotifyType_value (t : NotifyType) : jsstring :=
  match t with
  | ProposalCreated => lit "proposal_created"
  | ProposalExecuted => lit "proposal_executed"
  | ProposalExecutionFailed => lit "proposal_execution_failed"
  | ProposalClosed => lit "proposal_closed"
  end.

(** The fields destructured from the parsed JSON body.  Each is a string or
    absent ([undefined]). *)
Record Payload := {
  type_ : option jsstring;
  apiKey : option jsstring;
  daoName : option jsstring;
  proposalTitle : option jsstring;
  proposalDescription : option jsstring;
  proposalId : option jsstring;
  daoUrl : option jsstring;
  url : option jsstring;
  winningChoice : option jsstring
}.

(** A template literal is a sequence of literal chunks and substitutions;
    a substitution remembers the payload field its value comes from. *)
Inductive field :=
| FProposalId | FUrl | FDaoName | FDaoUrl | FProposalTitle | FDescription
| FWinningChoice.

Inductive part :=
| Quasi (s : jsstring)
| Subst (f : field) (v : jsstring).

Definition part_text (p : part) : jsstring :=
  match p with
  | Quasi s => s
  | Subst _ v => v
  end.

Definition flatten (ps : list part) : jsstring :=
  List.concat (map part_text ps).

(** Evaluating the substitutions of a template may throw ([None]). *)
Notation "x <- a ;; b" :=
  (match a with Some x => b | None => None end)
  (at level 61, a at next level, right associativity).

(** [escapeMarkdownV2(sanitizedDescription).trim().split('\n').join('\n>')] *)
Definition quoted_description (sanitizedDescription : jsstring) : jsstring :=
  join [LF; GT] (split LF (trim (escapeMarkdownV2 sanitizedDescription))).

(** The chunks shared by the four templates. *)
Definition q_open : jsstring := lit "_[Proposal ".
Definition q_link : jsstring := lit "](".
Definition q_title : jsstring := lit "._" ++ [LF; LF] ++ lit ">*".
Definition q_body : jsstring := lit "*" ++ [LF; GT; LF; GT].
Definition q_outcome : jsstring := [LF; GT; LF; GT] ++ lit "Outcome: *".

(** The optional last substitution of the executed and failed templates:
    [winningChoice ? `\n>\n>Outcome: *${escapeMarkdownV2(winningChoice)}*` : ''] *)
Definition outcome_parts (winningChoice : option jsstring)
  : option (list part) :=
  if truthy winningChoice then
    choice <- escapeMarkdownV2_call winningChoice ;;
    Some [Quasi q_outcome; Subst FWinningChoice choice; Quasi (lit "*")]
  else Some [].

(** The four template literals of the conditional chain.  They differ in
    the two sentences of the first line only: [sentence1] stands between
    the link of the proposal and the name of the DAO, [sentence2] between
    the link of the DAO and the closing [\._]; the executed and the failed
    one end with [outcome_parts].  Substitutions are evaluated from left to
    right, and the first [escapeMarkdownV2] of an absent field throws. *)
Definition template (t : NotifyType) (p : Payload)
    (sanitizedDescription : jsstring) : option (list part) :=
  id <- escapeMarkdownV2_call (proposalId p) ;;
  name <- escapeMarkdownV2_call (daoName p) ;;
  title <- escapeMarkdownV2_call (proposalTitle p) ;;
  let head (sentence1 sentence2 : string) :=
    [ Quasi q_open; Subst FProposalId id;
      Quasi q_link; Subst FUrl (to_template (url p));
      Quasi (lit sentence1); Subst FDaoName name;
      Quasi q_link; Subst FDaoUrl (to_template (daoUrl p));
      Quasi (lit sentence2 ++ q_title); Subst FProposalTitle title;
      Quasi q_body;
      Subst FDescription (quoted_description sanitizedDescription) ] in
  match t with
  | ProposalCreated =>
      Some (head ") is open for voting in ["%string ")\"%string)
  | ProposalExecuted =>
      tail <- outcome_parts (winningChoice p) ;;
      Some (head ") in ["%string ")\ was passed and executed\"%string ++ tail)
  | ProposalExecutionFailed =>
      tail <- outcome_parts (winningChoice p) ;;
      Some (head ") in ["%string ")\ was passed but failed to execute\"%string ++ tail)
  | ProposalClosed =>
      Some (head ") in ["%string ")\ was rejected and closed\"%string)
  end.

(** The conditional chain that computes [text]: the template of the type
    that [type] names, the empty string for any other value. *)
Definition text_of (type : jsstring) (p : Payload)
    (sanitizedDescription : jsstring) : option jsstring :=
  if jsstring_eqb type (NotifyType_value ProposalCreated) then
    option_map flatten (template ProposalCreated p sanitizedDescription)
  else if jsstring_eqb type (NotifyType_value ProposalExecuted) then
    option_map flatten (template ProposalExecuted p sanitizedDescription)
  else if jsstring_eqb type (NotifyType_value ProposalExecutionFailed) then
    option_map flatten
      (template ProposalExecutionFailed p sanitizedDescription)
  else if jsstring_eqb type (NotifyType_value ProposalClosed) then
    option_map flatten (template ProposalClosed p sanitizedDescription)
  else Some [].

(* ================================================================== *)
(** ** Numbers at the two boundaries of an identifier *)

(** A JavaScript number is a binary64 float.  The model keeps the numbers
    whose value is an integer, exactly; [NonInteger] stands for NaN and for
    every number that the literals outside the signed decimal integers
    denote (fractions, exponents, radix prefixes, Infinity). *)
Inductive jsnumber :=
| Int (z : Z)
| NonInteger.

(** The integer a binary64 float takes for the mathematical integer [z]:
    53 significant bits, round to nearest, ties to even. *)
Definition round_to_double (z : Z) : Z :=
  let a := Z.abs z in
  let e := Z.max 0 (Z.log2 a - 52) in
  let q := (a / 2 ^ e)%Z in
  let r := (a mod 2 ^ e)%Z in
  let q' :=
    if (2 * r <? 2 ^ e)%Z then q
    else if (2 ^ e <? 2 * r)%Z then (q + 1)%Z
    else if Z.even q then q else (q + 1)%Z in
  (Z.sgn z * (q' * 2 ^ e))%Z.

Definition digit_value (c : N) : option Z :=
  if ((48 <=? c) && (c <=? 57))%N then Some (Z.of_N c - 48)%Z else None.

Fixpoint digits_value (acc : Z) (s : jsstring) : option Z :=
  match s with
  | [] => Some acc
  | c :: r => d <- digit_value c ;; digits_value (10 * acc + d) r
  end.

(** [Number(s)] on a string: surrounding white space is dropped, the empty
    string is 0, a signed run of decimal digits is the nearest float. *)
Definition Number_ (s : jsstring) : jsnumber :=
  match trim s with
  | [] => Int 0
  | c :: r =>
      let '(sign, ds) :=
        if (c =? 45)%N then ((-1)%Z, r)
        else if (c =? 43)%N then (1%Z, r)
        else (1%Z, c :: r) in
      match ds with
      | [] => NonInteger
      | _ =>
          match digits_value 0 ds with
          | Some v =>
              let f := round_to_double v in
              if (f <? 2 ^ 1024)%Z then Int (sign * f) else NonInteger
          | None => NonInteger
          end
      end
  end.

(** routes/telegram.ts writes an identifier to the store as
    [BigInt(id).toString()]: the decimal digits, a minus sign in front of a
    negative one. *)
Fixpoint digits_of (fuel : nat) (n : N) : jsstring :=
  match fuel with
  | O => []
  | S f =>
      if (n <? 10)%N then [(48 + n)%N]
      else digits_of f (n / 10)%N ++ [(48 + n mod 10)%N]
  end.

Definition BigInt_toString (z : Z) : jsstring :=
  let n := Z.to_N (Z.abs z) in
  let ds := digits_of (S (N.to_nat (N.log2 n))) n in
  if (z <? 0)%Z then 45%N :: ds else ds.

(* ================================================================== *)
(** ** The registration store (a D1 table) *)

Record RegistrationRow := {
  row_chainId : jsstring;
  row_dao : jsstring;
  row_chatId : jsstring;
  row_messageThreadId : option jsstring
}.

Definition database := list RegistrationRow.

(** The columns the [SELECT] of [notify] picks. *)
Record Destination := {
  chatId : jsstring;
  messageThreadId : option jsstring
}.

(** Prepared statements of the repository: the lookup of [notify], and
    writes as routes/telegram.ts makes them ([/add], and the loss of the
    membership in a chat). *)
Inductive statement :=
| SelectDestinations (chainId dao : jsstring)
| InsertRegistration (row : RegistrationRow)
| DeleteByChat (chat : jsstring).

Definition is_select (s : statement) : bool :=
  match s with
  | SelectDestinations _ _ => true
  | _ => false
  end.

(** [DB.prepare(..).bind(..).all()]: the table afterwards and the rows
    returned, in table order. *)
Definition db_all (s : statement) (db : database)
  : database * list Destination :=
  match s with
  | SelectDestinations c d =>
      (db,
       map (fun r => {| chatId := row_chatId r;
                        messageThreadId := row_messageThreadId r |})
         (filter (fun r => jsstring_eqb (row_chainId r) c
                           && jsstring_eqb (row_dao r) d) db))
  | InsertRegistration row => (db ++ [row], [])
  | DeleteByChat chat =>
      (filter (fun r => negb (jsstring_eqb (row_chatId r) chat)) db, [])
  end.

(* ================================================================== *)
(** ** routes/notify.ts: the dispatcher *)

Record Env := {
  NOTIFY_API_KEY : jsstring;
  BOT_TOKEN : jsstring
}.

Record Request := {
  param_chainId : option jsstring;
  param_dao : option jsstring;
  (** the result of [await request.json()]; [None] when it throws *)
  json : option Payload
}.

(** The object handed to [JSON.stringify] as the body of the request to
    [sendMessage]. *)
Record SendMessage := {
  chat_id : jsnumber;
  message_thread_id : option jsnumber;
  parse_mode : jsstring;
  text : jsstring;
  link_preview_is_disabled : bool
}.

(** How one call of [fetch] ends: a response with some status code, or a
    rejected promise. *)
Inductive fetch_result :=
| Responded (status : N)
| NetworkError.

(** What the handler does to the outside, in the order it does it.  A
    destination is named by the index of its row in the lookup result. *)
Inductive event :=
| EvJson
| EvQuery (s : statement)
| EvFetch (d : nat) (endpoint : jsstring) (body : SendMessage)
| EvLog (d : nat) (status : N)
| EvError (d : nat).

Inductive ResponseBody :=
| ErrorBody (error : jsstring)
| SuccessBody (success : bool) (count : nat).

(** The handler returns a response or throws. *)
Inductive outcome :=
| Respond (status : N) (body : ResponseBody)
| Throws.

Definition respond (status : N) (body : ResponseBody) : outcome :=
  Respond status body.

Definition respondError (status : N) (error : string) : outcome :=
  respond status (ErrorBody (lit error)).

(** One callback of [batch.map]: suspended at [await fetch(..)] with its
    loop counter [i], or returned. *)
Inductive task :=
| Awaiting (i : nat)
| Returned (b : bool).

Definition is_awaiting (t : Destination * task) : bool :=
  match snd t with
  | Awaiting _ => true
  | Returned _ => false
  end.

(** The value a callback contributes to [responses.filter(Boolean)]. *)
Definition response_of (t : Destination * task) : option bool :=
  match snd t with
  | Awaiting _ => None
  | Returned b => Some b
  end.

Fixpoint all_responses (ts : list (Destination * task))
  : option (list bool) :=
  match ts with
  | [] => Some []
  | t :: r =>
      b <- response_of t ;;
      bs <- all_responses r ;;
      Some (b :: bs)
  end.

Section Dispatcher.

(** The world the handler runs in: the [remove-markdown] package, the
    result of the [k]-th [fetch] for destination [d] as [net d k], and the
    order in which pending fetches settle ([sched t] picks among the
    requests in flight at step [t]). *)
Variable removeMarkdown : option jsstring -> jsstring.
Variable net : nat -> nat -> fetch_result.
Variable sched : nat -> nat.

Variable env : Env.

Section Batch.

(** Fixed during the fan-out: the rendered text. *)
Variable message : jsstring.

Definition endpoint : jsstring :=
  lit "https://api.telegram.org/bot" ++ BOT_TOKEN env ++ lit "/sendMessage".

Definition send_body (r : Destination) : SendMessage :=
  {| chat_id := Number_ (chatId r);
     message_thread_id :=
       if truthy (messageThreadId r)
       then option_map Number_ (messageThreadId r)
       else None;
     parse_mode := lit "MarkdownV2";
     text := message;
     link_preview_is_disabled := true |}.

(** The head of [for (let i = ..; i > 0; i--)] with counter [i]: the test,
    then the call of [fetch] that opens the body.  Leaving the loop returns
    [undefined], which [filter(Boolean)] drops like [false]. *)
Definition enter (d : nat) (r : Destination) (i : nat)
  : task * list event :=
  if 0 <? i then (Awaiting i, [EvFetch d endpoint (send_body r)])
  else (Returned false, []).

(** The rest of the loop body once the awaited [fetch] has settled.  The
    second [await], on [response.text().catch(() => '')], cannot reject and
    is part of the same step. *)
Definition resume (d : nat) (r : Destination) (i : nat)
    (res : fetch_result) : task * list event :=
  match res with
  | Responded status => (Returned true, [EvLog d status])
  | NetworkError =>
      if 1 <? i then enter d r (i - 1)
      else (Returned false, [EvError d])
  end.

(** [batch.map(async ..)] calls the callback on each destination in turn;
    each call runs up to its first [await]. *)
Fixpoint start_all (d : nat) (batch : list Destination)
  : list (Destination * task) * list event :=
  match batch with
  | [] => ([], [])
  | r :: rest =>
      let (t, ev) := enter d r RETRIES in
      let (ts, evs) := start_all (S d) rest in
      ((r, t) :: ts, ev ++ evs)
  end.

(** The [k]-th request in flight settles and its callback runs on, up to
    its next [await] or its return; [d] is the index of the head. *)
Fixpoint settle_nth (k d : nat) (ts : list (Destination * task))
  : list (Destination * task) * list event :=
  match ts with
  | [] => ([], [])
  | (r, Returned b) :: rest =>
      let (rest', ev) := settle_nth k (S d) rest in
      ((r, Returned b) :: rest', ev)
  | (r, Awaiting i) :: rest =>
      match k with
      | O =>
          let (t, ev) := resume d r i (net d (RETRIES - i)) in
          ((r, t) :: rest, ev)
      | S k' =>
          let (rest', ev) := settle_nth k' (S d) rest in
          ((r, Awaiting i) :: rest', ev)
      end
  end.

Definition in_flight (ts : list (Destination * task)) : nat :=
  length (filter is_awaiting ts).

(** [await Promise.all(..)]: requests settle one at a time, in the order
    the scheduler picks, until every callback has returned. *)
Fixpoint await_all (fuel clock d : nat) (ts : list (Destination * task))
  : option (list bool) * nat * list event :=
  match in_flight ts with
  | O => (all_responses ts, clock, [])
  | S _ =>
      match fuel with
      | O => (None, clock, [])
      | S fuel' =>
          let (ts', ev) := settle_nth (sched clock mod in_flight ts) d ts in
          let '(res, clock', evs) := await_all fuel' (S clock) d ts' in
          (res, clock', ev ++ evs)
      end
  end.

Definition promise_all_map (clock d : nat) (batch : list Destination)
  : option (list bool) * nat * list event :=
  let (ts, ev) := start_all d batch in
  let '(res, clock', evs) :=
    await_all (RETRIES * length batch) clock d ts in
  (res, clock', ev ++ evs).

(** [registrations.slice(i, j)] *)
Definition slice (i j : nat) (l : list Destination) : list Destination :=
  firstn (j - i) (skipn i l).

(** [for (let i = 0; i < registrations.length; i += BATCH_SIZE)] from
    counter [i] on, with [succeeded] so far. *)
Fixpoint batch_loop (fuel i clock succeeded : nat)
    (registrations : list Destination)
  : option nat * nat * list event :=
  if i <? length registrations then
    match fuel with
    | O => (None, clock, [])
    | S fuel' =>
        let batch := slice i (i + BATCH_SIZE) registrations in
        match promise_all_map clock i batch with
        | (Some responses, clock', ev) =>
            let '(res, clock'', evs) :=
              batch_loop fuel' (i + BATCH_SIZE) clock'
                (succeeded + length (filter (fun b => b) responses))
                registrations in
            (res, clock'', ev ++ evs)
        | (None, clock', ev) => (None, clock', ev)
        end
    end
  else (Some succeeded, clock, []).

End Batch.

(** [sanitizedDescription] as computed before the API key is checked. *)
Definition sanitize (proposalDescription : option jsstring) : jsstring :=
  let sanitizedDescription := removeMarkdown proposalDescription in
  if MAX_DESCRIPTION_LENGTH <? length sanitizedDescription
  then slice0 MAX_DESCRIPTION_LENGTH sanitizedDescription ++ lit "..."
  else sanitizedDescription.

(** The route handler.  The result is [None] only if a loop of the model
    runs out of fuel, which never happens ([notify_returns]). *)
Definition notify (request : Request) (db : database)
  : option outcome * database * list event :=
  match truthy_value (param_chainId request) with
  | None => (Some (respondError 400 "Missing `chainId`."), db, [])
  | Some chainId =>
  match truthy_value (param_dao request) with
  | None => (Some (respondError 400 "Missing `dao`."), db, [])
  | Some dao =>
  match json request with
  | None => (Some Throws, db, [])
  | Some p =>
      (* Backwards compatibility. *)
      let type := nullish (type_ p) (NotifyType_value ProposalCreated) in
      let sanitizedDescription := sanitize (proposalDescription p) in
      if negb (strict_eq (apiKey p) (NOTIFY_API_KEY env)) then
        (Some (respondError 401 "Invalid API key."), db, [EvJson])
      else
        match text_of type p sanitizedDescription with
        | None => (Some Throws, db, [EvJson])
        | Some [] =>
            (Some (respondError 400 "Invalid notification type."), db,
             [EvJson])
        | Some message =>
            let q := SelectDestinations chainId dao in
            let (db', registrations) := db_all q db in
            (* Fire webhooks in batches. *)
            let '(res, _, evs) :=
              batch_loop message (length registrations) 0 0 0
                registrations in
            (option_map
               (fun succeeded => respond 200 (SuccessBody true succeeded))
               res,
             db', [EvJson; EvQuery q] ++ evs)
        end
  end end end.

End Dispatcher.

(* ================================================================== *)
(** ** Vocabulary of the properties: escaping *)

(** Reading a MarkdownV2 text from left to right, a backslash escapes the
    code unit after it.  [unescaped esc s] flags the code units of [s] that
    are reserved characters standing unescaped; [esc] tells whether the
    code unit just before [s] was an escaping backslash. *)
Fixpoint unescaped (esc : bool) (s : jsstring) : list bool :=
  match s with
  | [] => []
  | c :: r =>
      if esc then false :: unescaped false r
      else if (c =? BACKSLASH)%N then false :: unescaped true r
      else reserved c :: unescaped false r
  end.

(** Whether [s] ends on a backslash that escapes what follows. *)
Fixpoint escaping_after (esc : bool) (s : jsstring) : bool :=
  match s with
  | [] => esc
  | c :: r =>
      if esc then escaping_after false r
      else escaping_after (c =? BACKSLASH)%N r
  end.

(** Each part of a template with the flags of its own code units, read in
    the context of the parts before it. *)
Fixpoint annotate (esc : bool) (ps : list part) : list (part * list bool) :=
  match ps with
  | [] => []
  | p :: r =>
      (p, unescaped esc (part_text p))
        :: annotate (escaping_after esc (part_text p)) r
  end.

Definition no_flag (m : list bool) : Prop := Forall (fun b => b = false) m.

(** Every flagged code unit of [v] is a [>] directly after a line feed;
    [prev] is the code unit before [v]. *)
Fixpoint only_quote_markers (prev : N) (v : jsstring) (m : list bool)
  : Prop :=
  match v, m with
  | c :: v', b :: m' =>
      (b = true -> prev = LF /\ c = GT) /\ only_quote_markers c v' m'
  | _, _ => True
  end.

(** The reading of the escaping claim that takes every substitution, the
    two links included, to be escaped. *)
Definition all_substitutions_escaped (ps : list part) : Prop :=
  Forall (fun pm =>
            match fst pm with
            | Quasi _ => True
            | Subst FDescription v => only_quote_markers GT v (snd pm)
            | Subst _ _ => no_flag (snd pm)
            end)
         (annotate false ps).

(** What the templates do: the identifier, the two names and the winning
    choice go through [escapeMarkdownV2]; the description does too, and is
    then trimmed and quoted line by line; the two links are interpolated as
    they are. *)
Definition part_as_rendered (p : Payload) (sanitizedDescription : jsstring)
    (pm : part * list bool) : Prop :=
  match fst pm with
  | Quasi _ => True
  | Subst FProposalId v =>
      Some v = option_map escapeMarkdownV2 (proposalId p) /\ no_flag (snd pm)
  | Subst FDaoName v =>
      Some v = option_map escapeMarkdownV2 (daoName p) /\ no_flag (snd pm)
  | Subst FProposalTitle v =>
      Some v = option_map escapeMarkdownV2 (proposalTitle p)
      /\ no_flag (snd pm)
  | Subst FWinningChoice v =>
      Some v = option_map escapeMarkdownV2 (winningChoice p)
      /\ no_flag (snd pm)
  | Subst FDescription v =>
      v = join [LF; GT]
            (map escapeMarkdownV2 (split LF (trim sanitizedDescription)))
      /\ only_quote_markers GT v (snd pm)
  | Subst FUrl v => v = to_template (url p)
  | Subst FDaoUrl v => v = to_template (daoUrl p)
  end.

(** A payload as a producer sends it. *)
Definition example_payload : Payload :=
  {| type_ := Some (lit "proposal_executed");
     apiKey := Some (lit "secret");
     daoName := Some (lit "My_DAO");
     proposalTitle := Some (lit "Fund the team!");
     proposalDescription := Some (lit "Pay 10 $JUNO.");
     proposalId := Some (lit "A42");
     daoUrl := Some (lit "https://daodao.zone/dao/juno1abc");
     url := Some (lit "https://daodao.zone/dao/juno1abc/proposals/A42");
     winningChoice := Some (lit "Yes") |}.

Definition example_description : jsstring := lit "Pay 10 $JUNO.".

(** The parts of the text rendered for [example_payload]. *)
Definition example_parts : list part :=
  match template ProposalExecuted example_payload example_description with
  | Some ps => ps
  | None => []
  end.

(** The substitution of the proposal link in [example_parts], with the
    flags of its code units. *)
Definition example_link : part * list bool :=
  (Subst FUrl (lit "https://daodao.zone/dao/juno1abc/proposals/A42"),
   unescaped false (lit "https://daodao.zone/dao/juno1abc/proposals/A42")).

(* ================================================================== *)
(** ** Vocabulary of the properties: truncation *)

(** [remove-markdown] on a text that holds no markup: the text itself,
    the empty string for [undefined]. *)
Definition plain_text (v : option jsstring) : jsstring :=
  match v with
  | Some s => s
  | None => []
  end.

(** A payload whose description is a space and 500 times the letter a. *)
Definition long_payload : Payload :=
  {| type_ := None;
     apiKey := Some (lit "secret");
     daoName := Some (lit "DAO");
     proposalTitle := Some (lit "Title");
     proposalDescription := Some (32%N :: repeat 97%N 500);
     proposalId := Some (lit "A");
     daoUrl := Some (lit "d");
     url := Some (lit "u");
     winningChoice := None |}.

(** The reading of the truncation claim on the rendered message: the
    description segment of the text is the first 500 code units of the
    sanitized text and three dots. *)
Definition segment_is_truncation
    (removeMarkdown : option jsstring -> jsstring) : Prop :=
  forall t p ps v,
    MAX_DESCRIPTION_LENGTH < length (removeMarkdown (proposalDescription p)) ->
    template t p (sanitize removeMarkdown (proposalDescription p)) = Some ps ->
    In (Subst FDescription v) ps ->
    v = firstn MAX_DESCRIPTION_LENGTH
          (removeMarkdown (proposalDescription p)) ++ lit "...".

(** The reading that allows for the escaping: the segment is the escaped
    truncation. *)
Definition segment_is_escaped_truncation
    (removeMarkdown : option jsstring -> jsstring) : Prop :=
  forall t p ps v,
    MAX_DESCRIPTION_LENGTH < length (removeMarkdown (proposalDescription p)) ->
    template t p (sanitize removeMarkdown (proposalDescription p)) = Some ps ->
    In (Subst FDescription v) ps ->
    v = escapeMarkdownV2
          (firstn MAX_DESCRIPTION_LENGTH
             (removeMarkdown (proposalDescription p)) ++ lit "...").

(** The parts rendered for [long_payload], whose absent type defaults to
    [proposal_created], and the description segment among them. *)
Definition long_parts : list part :=
  match template ProposalCreated long_payload
          (sanitize plain_text (proposalDescription long_payload)) with
  | Some ps => ps
  | None => []
  end.

Definition long_segment : jsstring := repeat 97%N 499 ++ lit "\.\.\.".

(* ================================================================== *)
(** ** Vocabulary of the properties: delivery *)

(** The destination an event is about. *)
Definition event_dest (e : event) : option nat :=
  match e with
  | EvFetch d _ _ => Some d
  | EvLog d _ => Some d
  | EvError d => Some d
  | EvJson | EvQuery _ => None
  end.

Definition concerns (d : nat) (e : event) : bool :=
  match event_dest e with
  | Some d' => d' =? d
  | None => false
  end.

Definition about (d : nat) (e : event) : Prop := event_dest e = Some d.

(** The events of destination [d] among [evs], in order. *)
Definition events_of (d : nat) (evs : list event) : list event :=
  filter (concerns d) evs.

Definition is_fetch (e : event) : bool :=
  match e with
  | EvFetch _ _ _ => true
  | _ => false
  end.

Definition is_query (e : event) : bool :=
  match e with
  | EvQuery _ => true
  | _ => false
  end.

Definition is_log (e : event) : bool :=
  match e with
  | EvLog _ _ => true
  | _ => false
  end.

Definition is_error (e : event) : bool :=
  match e with
  | EvError _ => true
  | _ => false
  end.

(** The number of calls of [fetch] among [evs]. *)
Definition fetch_count (evs : list event) : nat :=
  length (filter is_fetch evs).

Section DeliveryVocabulary.

Variable net : nat -> nat -> fetch_result.
Variable env : Env.
Variable message : jsstring.

(** The retry loop of one destination read on its own, from the moment
    the [fetch] made with counter [i] is in flight: what it still does
    ([future]) and what it returns ([outcome_from]). *)
Fixpoint future (d : nat) (r : Destination) (i : nat) : list event :=
  match i with
  | O => []
  | S i' =>
      match net d (RETRIES - i) with
      | Responded status => [EvLog d status]
      | NetworkError =>
          match i' with
          | O => [EvError d]
          | S _ => EvFetch d (endpoint env) (send_body message r)
                     :: future d r i'
          end
      end
  end.

Fixpoint outcome_from (d i : nat) : bool :=
  match i with
  | O => false
  | S i' =>
      match net d (RETRIES - i) with
      | Responded _ => true
      | NetworkError => outcome_from d i'
      end
  end.

(** The whole loop of destination [d]: its events and its result. *)
Definition script (d : nat) (r : Destination) : list event :=
  EvFetch d (endpoint env) (send_body message r) :: future d r RETRIES.

Definition delivered (d : nat) : bool := outcome_from d RETRIES.

(** The number of destinations among the first [n] that are delivered. *)
Definition delivered_count (n : nat) : nat :=
  length (filter delivered (seq 0 n)).

(** What is still to come from a suspended or returned callback. *)
Definition task_future (d : nat) (t : Destination * task) : list event :=
  match snd t with
  | Awaiting i => future d (fst t) i
  | Returned _ => []
  end.

Definition task_result (d : nat) (t : Destination * task) : bool :=
  match snd t with
  | Awaiting i => outcome_from d i
  | Returned b => b
  end.

Definition task_weight (t : Destination * task) : nat :=
  match snd t with
  | Awaiting i => i
  | Returned _ => 0
  end.

Definition task_wf (t : Destination * task) : Prop :=
  match snd t with
  | Awaiting i => 1 <= i
  | Returned _ => True
  end.

(** The same for the callbacks of a batch whose first destination has
    index [d0]. *)
Fixpoint futures (d0 : nat) (ts : list (Destination * task)) (d : nat)
  : list event :=
  match ts with
  | [] => []
  | t :: rest =>
      if d =? d0 then task_future d0 t else futures (S d0) rest d
  end.

Fixpoint results (d0 : nat) (ts : list (Destination * task)) : list bool :=
  match ts with
  | [] => []
  | t :: rest => task_result d0 t :: results (S d0) rest
  end.

Definition weight (ts : list (Destination * task)) : nat :=
  list_sum (map task_weight ts).

(** The first calls of [fetch] of a batch, one per destination, in the
    order of the batch. *)
Fixpoint first_fetches (d0 : nat) (batch : list Destination) : list event :=
  match batch with
  | [] => []
  | r :: rest =>
      EvFetch d0 (endpoint env) (send_body message r)
        :: first_fetches (S d0) rest
  end.

(** An event about one of the [n] destinations from index [d0] on. *)
Definition in_batch (d0 n : nat) (e : event) : Prop :=
  exists d, event_dest e = Some d /\ d0 <= d < d0 + n.

(** The events of one batch: the first call of [fetch] of each of its
    destinations, then, until every callback has returned, only events of
    these destinations; each destination's own events are those of its
    retry loop. *)
Definition is_wave (d0 : nat) (batch : list Destination)
    (w : list event) : Prop :=
  exists rest,
    w = first_fetches d0 batch ++ rest
    /\ Forall (in_batch d0 (length batch)) rest
    /\ forall j r, nth_error batch j = Some r ->
         events_of (d0 + j) w = script (d0 + j) r.

(** The batches of the loop of [notify], each with the index of its first
    destination. *)
Fixpoint batches_from (fuel i : nat) (registrations : list Destination)
  : list (nat * list Destination) :=
  match fuel with
  | O => []
  | S fuel' =>
      if i <? length registrations then
        (i, slice i (i + BATCH_SIZE) registrations)
          :: batches_from fuel' (i + BATCH_SIZE) registrations
      else []
  end.

Definition batches (registrations : list Destination)
  : list (nat * list Destination) :=
  batches_from (length registrations) 0 registrations.

End DeliveryVocabulary.

(* ================================================================== *)
(** ** Vocabulary of the properties: requests *)

(** The registrations the lookup of [notify] returns. *)
Definition lookup (chainId dao : jsstring) (db : database)
  : list Destination :=
  snd (db_all (SelectDestinations chainId dao) db).

(** A request that passes the three checks of [notify]: both path
    parameters are present, the parsed payload carries the configured key,
    and the text rendered for its type is not empty. *)
Definition accepted (removeMarkdown : option jsstring -> jsstring)
    (env : Env) (request : Request) (chainId dao message : jsstring)
  : Prop :=
  truthy_value (param_chainId request) = Some chainId
  /\ truthy_value (param_dao request) = Some dao
  /\ exists p,
      json request = Some p
      /\ strict_eq (apiKey p) (NOTIFY_API_KEY env) = true
      /\ text_of (nullish (type_ p) (NotifyType_value ProposalCreated)) p
           (sanitize removeMarkdown (proposalDescription p))
         = Some message
      /\ message <> [].

(** The type of a payload names none of the four notification types. *)
Definition invalid_type (p : Payload) : Prop :=
  forall t,
    nullish (type_ p) (NotifyType_value ProposalCreated)
    <> NotifyType_value t.

Definition response_of_notify (r : option outcome * database * list event)
  : option outcome := fst (fst r).

Definition database_after (r : option outcome * database * list event)
  : database := snd (fst r).

Definition events_of_notify (r : option outcome * database * list event)
  : list event := snd r.

(* ================================================================== *)
(** ** Concrete worlds and requests *)

Definition example_env : Env :=
  {| NOTIFY_API_KEY := lit "secret"; BOT_TOKEN := lit "123:abc" |}.

Definition example_request : Request :=
  {| param_chainId := Some (lit "osmosis-1");
     param_dao := Some (lit "dao1abc");
     json := Some example_payload |}.

(** Two registrations of the DAO, a chat and a topic of the same chat, and
    one registration of another DAO. *)
Definition example_db : database :=
  [ {| row_chainId := lit "osmosis-1"; row_dao := lit "dao1abc";
       row_chatId := lit "100"; row_messageThreadId := None |};
    {| row_chainId := lit "osmosis-1"; row_dao := lit "dao1abc";
       row_chatId := lit "100"; row_messageThreadId := Some (lit "7") |};
    {| row_chainId := lit "osmosis-1"; row_dao := lit "dao1xyz";
       row_chatId := lit "-1001234567890"; row_messageThreadId := None |} ].

Definition example_message : jsstring := flatten example_parts.

(** Every call completes with status 200. *)
Definition net_ok : nat -> nat -> fetch_result :=
  fun _ _ => Responded 200.

(** The first two calls for destination 0 fail; every other call
    completes, with status 403. *)
Definition net_flaky : nat -> nat -> fetch_result :=
  fun d k => if (d =? 0) && (k <? 2) then NetworkError else Responded 403.

(** The request in flight for the longest time settles first. *)
Definition sched_first : nat -> nat := fun _ => 0.

(** The same request with a key that is not the configured one. *)
Definition wrong_key_request : Request :=
  {| param_chainId := Some (lit "osmosis-1");
     param_dao := Some (lit "dao1abc");
     json := Some {| type_ := type_ example_payload;
                     apiKey := Some (lit "guess");
                     daoName := daoName example_payload;
                     proposalTitle := proposalTitle example_payload;
                     proposalDescription :=
                       proposalDescription example_payload;
                     proposalId := proposalId example_payload;
                     daoUrl := daoUrl example_payload;
                     url := url example_payload;
                     winningChoice := winningChoice example_payload |} |}.

(** A payload of a type that does not exist, once with the configured key
    and once with another one. *)
Definition vetoed_payload (key : jsstring) : Payload :=
  {| type_ := Some (lit "proposal_vetoed");
     apiKey := Some key;
     daoName := Some (lit "DAO");
     proposalTitle := Some (lit "Title");
     proposalDescription := Some (lit "Text");
     proposalId := Some (lit "A1");
     daoUrl := Some (lit "d");
     url := Some (lit "u");
     winningChoice := None |}.

Definition vetoed_request (key : jsstring) : Request :=
  {| param_chainId := Some (lit "osmosis-1");
     param_dao := Some (lit "dao1abc");
     json := Some (vetoed_payload key) |}.

(** 25 registrations of one DAO. *)
Definition db_of_25 : database :=
  map (fun k => {| row_chainId := lit "osmosis-1"; row_dao := lit "dao1abc";
                   row_chatId := BigInt_toString (Z.of_nat (100 + k));
                   row_messageThreadId := None |})
      (seq 0 25).

(** The kind and the destination of an event of the fan-out. *)
Definition event_summary (e : event) : string * nat :=
  match e with
  | EvFetch d _ _ => ("fetch"%string, d)
  | EvLog d _ => ("log"%string, d)
  | EvError d => ("error"%string, d)
  | EvJson => ("json"%string, 0)
  | EvQuery _ => ("query"%string, 0)
  end.

(** A wave of [n] destinations from [d0] on in which every first call
    completes and the calls settle in the order they were made. *)
Definition quiet_wave (d0 n : nat) : list (string * nat) :=
  map (fun d => ("fetch"%string, d)) (seq d0 n)
    ++ map (fun d => ("log"%string, d)) (seq d0 n).
From Stdlib Require Import Permutation.


(* ================================================================== *)
(** ** Vocabulary of the further properties: the escaper *)

(** The reading of an escaped text: a backslash is dropped and the code
    unit after it is taken as it is. *)
Fixpoint unescapeMarkdownV2 (s : jsstring) : jsstring :=
  match s with
  | [] => []
  | c :: r =>
      if (c =? BACKSLASH)%N then
        match r with
        | [] => []
        | x :: r' => x :: unescapeMarkdownV2 r'
        end
      else c :: unescapeMarkdownV2 r
  end.

(** The code units that the character class holds beyond the reserved
    ones: the comma, and the slash, the digits, the colon, the semicolon
    and the less-than sign (47 to 60). *)
Definition escaped_beyond_reserved (c : N) : bool :=
  (c =? 44)%N || ((47 <=? c) && (c <=? 60))%N.

(* ================================================================== *)
(** ** Vocabulary of the further properties: the handler *)

(** An event that reaches the store or the delivery client. *)
Definition is_effect (e : event) : bool := is_query e || is_fetch e.

(** The answers with which [notify] turns a request away. *)
Definition rejection (o : outcome) : Prop :=
  o = Respond 400 (ErrorBody (lit "Missing `chainId`."))
  \/ o = Respond 400 (ErrorBody (lit "Missing `dao`."))
  \/ o = Throws
  \/ o = Respond 401 (ErrorBody (lit "Invalid API key."))
  \/ o = Respond 400 (ErrorBody (lit "Invalid notification type.")).

(* ================================================================== *)
(** ** src/routes/notify.ts: the handler without notification types *)

Section UntypedDispatcher.

Variable removeMarkdown : option jsstring -> jsstring.
Variable net : nat -> nat -> fetch_result.
Variable sched : nat -> nat.
Variable env : Env.

Section UntypedBatch.

(** The template literal stands in the body of the request, inside the
    [try]: it is evaluated at every attempt, to the same text, or it throws
    ([None]) and the [catch] runs before [fetch] is called. *)
Variable rendered : option jsstring.

(** The loop from its head with counter [i], up to the first [await] or
    the return. *)
Fixpoint attempt_untyped (d : nat) (r : Destination) (i : nat)
  : task * list event :=
  match i with
  | O => (Returned false, [])
  | S i' =>
      match rendered with
      | Some message =>
          (Awaiting i, [EvFetch d (endpoint env) (send_body message r)])
      | None =>
          if 1 <? i then attempt_untyped d r i'
          else (Returned false, [EvError d])
      end
  end.

Definition resume_untyped (d : nat) (r : Destination) (i : nat)
    (res : fetch_result) : task * list event :=
  match res with
  | Responded status => (Returned true, [EvLog d status])
  | NetworkError =>
      if 1 <? i then attempt_untyped d r (i - 1)
      else (Returned false, [EvError d])
  end.

Fixpoint start_all_untyped (d : nat) (batch : list Destination)
  : list (Destination * task) * list event :=
  match batch with
  | [] => ([], [])
  | r :: rest =>
      let (t, ev) := attempt_untyped d r RETRIES in
      let (ts, evs) := start_all_untyped (S d) rest in
      ((r, t) :: ts, ev ++ evs)
  end.

Fixpoint settle_nth_untyped (k d : nat) (ts : list (Destination * task))
  : list (Destination * task) * list event :=
  match ts with
  | [] => ([], [])
  | (r, Returned b) :: rest =>
      let (rest', ev) := settle_nth_untyped k (S d) rest in
      ((r, Returned b) :: rest', ev)
  | (r, Awaiting i) :: rest =>
      match k with
      | O =>
          let (t, ev) := resume_untyped d r i (net d (RETRIES - i)) in
          ((r, t) :: rest, ev)
      | S k' =>
          let (rest', ev) := settle_nth_untyped k' (S d) rest in
          ((r, Awaiting i) :: rest', ev)
      end
  end.

Fixpoint await_all_untyped (fuel clock d : nat)
    (ts : list (Destination * task))
  : option (list bool) * nat * list event :=
  match in_flight ts with
  | O => (all_responses ts, clock, [])
  | S _ =>
      match fuel with
      | O => (None, clock, [])
      | S fuel' =>
          let (ts', ev) :=
            settle_nth_untyped (sched clock mod in_flight ts) d ts in
          let '(res, clock', evs) :=
            await_all_untyped fuel' (S clock) d ts' in
          (res, clock', ev ++ evs)
      end
  end.

Definition promise_all_map_untyped (clock d : nat)
    (batch : list Destination)
  : option (list bool) * nat * list event :=
  let (ts, ev) := start_all_untyped d batch in
  let '(res, clock', evs) :=
    await_all_untyped (RETRIES * length batch) clock d ts in
  (res, clock', ev ++ evs).

Fixpoint batch_loop_untyped (fuel i clock succeeded : nat)
    (registrations : list Destination)
  : option nat * nat * list event :=
  if i <? length registrations then
    match fuel with
    | O => (None, clock, [])
    | S fuel' =>
        let batch := slice i (i + BATCH_SIZE) registrations in
        match promise_all_map_untyped clock i batch with
        | (Some responses, clock', ev) =>
            let '(res, clock'', evs) :=
              batch_loop_untyped fuel' (i + BATCH_SIZE) clock'
                (succeeded + length (filter (fun b => b) responses))
                registrations in
            (res, clock'', ev ++ evs)
        | (None, clock', ev) => (None, clock', ev)
        end
    end
  else (Some succeeded, clock, []).

End UntypedBatch.

(** The route handler of this version: no type, one template, no test of
    the text before the lookup. *)
Definition notify_untyped (request : Request) (db : database)
  : option outcome * database * list event :=
  match truthy_value (param_chainId request) with
  | None => (Some (respondError 400 "Missing `chainId`."), db, [])
  | Some chainId =>
  match truthy_value (param_dao request) with
  | None => (Some (respondError 400 "Missing `dao`."), db, [])
  | Some dao =>
  match json request with
  | None => (Some Throws, db, [])
  | Some p =>
      let sanitizedDescription := sanitize removeMarkdown
                                    (proposalDescription p) in
      if negb (strict_eq (apiKey p) (NOTIFY_API_KEY env)) then
        (Some (respondError 401 "Invalid API key."), db, [EvJson])
      else
        let q := SelectDestinations chainId dao in
        let (db', registrations) := db_all q db in
        (* Fire webhooks in batches. *)
        let '(res, _, evs) :=
          batch_loop_untyped
            (option_map flatten
               (template ProposalCreated p sanitizedDescription))
            (length registrations) 0 0 0 registrations in
        (option_map
           (fun succeeded => respond 200 (SuccessBody true succeeded))
           res,
         db', [EvJson; EvQuery q] ++ evs)
  end end end.

End UntypedDispatcher.

(** The payload names the first notification type, or none. *)
Definition created_or_untyped (p : Payload) : Prop :=
  type_ p = None \/ type_ p = Some (NotifyType_value ProposalCreated).

(** The three fields that the first template escapes are present. *)
Definition escaped_fields_present (p : Payload) : Prop :=
  proposalId p <> None /\ daoName p <> None /\ proposalTitle p <> None.

(** A payload of the time before the types, with no title. *)
Definition untitled_payload : Payload :=
  {| type_ := None;
     apiKey := Some (lit "secret");
     daoName := Some (lit "DAO");
     proposalTitle := None;
     proposalDescription := Some (lit "Text");
     proposalId := Some (lit "A1");
     daoUrl := Some (lit "d");
     url := Some (lit "u");
     winningChoice := None |}.

Definition untitled_request : Request :=
  {| param_chainId := Some (lit "osmosis-1");
     param_dao := Some (lit "dao1abc");
     json := Some untitled_payload |}.

(** A request of the time before the types. *)
Definition untyped_request : Request :=
  {| param_chainId := Some (lit "osmosis-1");
     param_dao := Some (lit "dao1abc");
     json := Some long_payload |}.

(* ================================================================== *)
(** ** src/routes/telegram.ts: the webhook of the bot *)

(** [s.startsWith(p)] *)
Fixpoint startsWith (p s : jsstring) : bool :=
  match p, s with
  | [], _ => true
  | _ :: _, [] => false
  | x :: p', y :: s' => (x =? y)%N && startsWith p' s'
  end.

(** The rest of [s] after the prefix [p], when [s] starts with it. *)
Fixpoint after_prefix (p s : jsstring) : option jsstring :=
  match p, s with
  | [], _ => Some s
  | _ :: _, [] => None
  | x :: p', y :: s' => if (x =? y)%N then after_prefix p' s' else None
  end.

(** The class [[a-zA-Z0-9]]. *)
Definition alphanumeric (c : N) : bool :=
  ((97 <=? c) && (c <=? 122))%N || ((65 <=? c) && (c <=? 90))%N
  || ((48 <=? c) && (c <=? 57))%N.

(** The longest run of the class at the head of [s]: [[a-zA-Z0-9]+] takes
    all of it, nothing follows the group in the expression. *)
Fixpoint alphanumeric_run (s : jsstring) : jsstring :=
  match s with
  | [] => []
  | c :: r => if alphanumeric c then c :: alphanumeric_run r else []
  end.

Definition capture_address (s : jsstring) : option jsstring :=
  match alphanumeric_run s with
  | [] => None
  | run => Some run
  end.

(** An optional group [(?:p)?] followed by [k]: the prefix is consumed
    first and given up when what follows does not match. *)
Definition optional_prefix (p : string)
    (k : jsstring -> option jsstring) (s : jsstring) : option jsstring :=
  match after_prefix (lit p) s with
  | Some s' =>
      match k s' with
      | Some r => Some r
      | None => k s
      end
  | None => k s
  end.

(** The expression
    [/(?:https:\/\/)?(?:testnet\.)?(?:daodao\.zone\/dao\/)?([a-zA-Z0-9]+)/]
    tried at the head of [s]: the capture of its group. *)
Definition address_at (s : jsstring) : option jsstring :=
  optional_prefix "https://"
    (optional_prefix "testnet."
       (optional_prefix "daodao.zone/dao/" capture_address)) s.

(** [s.match(/.../)?.[1]]: the first position, from the left, at which the
    expression matches. *)
Fixpoint match_address (s : jsstring) : option jsstring :=
  match address_at s with
  | Some r => Some r
  | None =>
      match s with
      | [] => None
      | _ :: r => match_address r
      end
  end.

(** [text.split(' ')[1]?.trim()] *)
Definition command_argument (text : jsstring) : option jsstring :=
  option_map trim (nth_error (split 32 text) 1).

(** The types of the updates, as the file declares them: a field is
    optional where its type says so, and the two fields of an update, of
    which Telegram sends one.  Identifiers are JavaScript numbers that
    hold integers, as [BigInt(..)] requires. *)
Record TelegramUser := {
  user_id : Z;
  username : jsstring
}.

Record TelegramChat := {
  id : Z;
  type : jsstring;
  title : jsstring;
  is_forum : option bool
}.

Record TelegramChatMember := {
  user : TelegramUser;
  status : jsstring;
  can_send_messages : option bool
}.

(** [reply_to_message] is read for the user name of its sender only. *)
Record TelegramMessage := {
  message_thread_id_of : option Z;
  chat : TelegramChat;
  from : TelegramUser;
  text_of_message : option jsstring;
  reply_to_message_from : option TelegramUser
}.

Record MyChatMember := {
  member_chat : TelegramChat;
  old_chat_member : TelegramChatMember;
  new_chat_member : TelegramChatMember
}.

(** Of the two fields one is present. *)
Record TelegramWebhookData := {
  message : option TelegramMessage;
  my_chat_member : option MyChatMember
}.

Record WebhookRequest := {
  (** [request.headers.get('X-Telegram-Bot-Api-Secret-Token')] *)
  secret_token : option jsstring;
  (** the result of [await request.json()]; [None] when it throws *)
  webhook_json : option TelegramWebhookData
}.

(** The answer of [getChatAdministrators] and of the indexer. *)
Record AdministratorsReply := {
  ok : bool;
  result : list TelegramChatMember
}.

Record DaoInfo := {
  info_chainId : jsstring;
  info_url : jsstring;
  info_name : jsstring
}.

(** The body of a response of the webhook: none, or a [sendMessage] for
    Telegram to carry out, plain or in MarkdownV2 mode with the link
    preview off. *)
Inductive WebhookReply :=
| NoReply
| SendPlain (chat_id : Z) (thread : option Z) (reply_text : jsstring)
| SendMarkdown (chat_id : Z) (thread : option Z) (reply_text : jsstring).

Inductive webhook_outcome :=
| WebhookRespond (status : N) (reply : WebhookReply)
| WebhookError (status : N) (error : jsstring)
| WebhookThrows.

(** The statements that the webhook prepares. *)
Inductive webhook_statement :=
| DeleteChat (chatId : jsstring)
| SelectDaos (chatId : jsstring) (messageThreadId : option jsstring)
| SelectExisting (chainId dao chatId : jsstring)
    (messageThreadId : option jsstring)
| DeleteRegistration (dao chatId : jsstring)
    (messageThreadId : option jsstring)
| Insert (chainId dao chatId : jsstring) (messageThreadId : option jsstring).

Inductive webhook_event :=
| WJson
| WRun (s : webhook_statement)
| WAdministrators (chat : Z)
| WDaoInfo (dao : jsstring)
| WLog
| WErrorLog.

(** [messageThreadId = ?] with a bound value, or [messageThreadId IS NULL]:
    a stored [NULL] equals no bound value. *)
Definition thread_matches (bound stored : option jsstring) : bool :=
  match bound, stored with
  | Some t, Some t' => jsstring_eqb t' t
  | None, None => true
  | _, _ => false
  end.

(** [DELETE FROM registrations WHERE chatId = ?1] *)
Definition delete_chat (chatId : jsstring) (db : database) : database :=
  fst (db_all (DeleteByChat chatId) db).

(** [SELECT dao FROM registrations WHERE chatId = ?1 AND messageThreadId ..]:
    the DAOs of the rows that the statement finds, here in the order of
    the table.  The statement has no [ORDER BY]; the order in which the
    store lists them is the [listed] of the handler. *)
Definition select_daos (chatId : jsstring) (thread : option jsstring)
    (db : database) : list jsstring :=
  map row_dao
    (filter (fun r => jsstring_eqb (row_chatId r) chatId
                      && thread_matches thread (row_messageThreadId r)) db).

(** [SELECT * .. WHERE chainId = ?1 AND dao = ?2 AND chatId = ?3 AND
    messageThreadId ..], [.first()] *)
Definition select_existing (chainId dao chatId : jsstring)
    (thread : option jsstring) (db : database) : option RegistrationRow :=
  find (fun r => jsstring_eqb (row_chainId r) chainId
                 && jsstring_eqb (row_dao r) dao
                 && jsstring_eqb (row_chatId r) chatId
                 && thread_matches thread (row_messageThreadId r)) db.

(** [DELETE FROM registrations WHERE dao = ?1 AND chatId = ?2 AND
    messageThreadId ..] *)
Definition delete_registration (dao chatId : jsstring)
    (thread : option jsstring) (db : database) : database :=
  filter (fun r => negb (jsstring_eqb (row_dao r) dao
                         && jsstring_eqb (row_chatId r) chatId
                         && thread_matches thread (row_messageThreadId r)))
    db.

(** The constraint [unique_registration] of the schema.  SQLite takes two
    [NULL]s for different, so that only a row with a thread can clash. *)
Definition violates_unique (row : RegistrationRow) (db : database) : bool :=
  existsb (fun r => jsstring_eqb (row_chainId r) (row_chainId row)
                    && jsstring_eqb (row_dao r) (row_dao row)
                    && jsstring_eqb (row_chatId r) (row_chatId row)
                    && match row_messageThreadId r, row_messageThreadId row
                       with
                       | Some t, Some t' => jsstring_eqb t t'
                       | _, _ => false
                       end) db.

(** [INSERT INTO registrations (chainId, dao, chatId, messageThreadId)
    VALUES (?1, ?2, ?3, ?4)]: the new table, or [None] when the statement
    fails on the constraint. *)
Definition insert_registration (row : RegistrationRow) (db : database)
  : option database :=
  if violates_unique row db then None
  else Some (fst (db_all (InsertRegistration row) db)).

Definition BOT_USERNAME : jsstring := lit "dao_dao_notifier_bot".

Definition EN_DASH : N := 8211.

Definition ADD_COMMAND : jsstring :=
  lit "`/add@dao\_dao\_notifier\_bot DAO\_ADDRESS`".

Definition WELCOME_GROUP_MESSAGE : jsstring :=
  lit "Hello\! I'll send a message when there are new proposals in DAOs you track\. Use the following command to start tracking a DAO:"
    ++ [LF; LF] ++ ADD_COMMAND.

Definition WELCOME_FORUM_MESSAGE : jsstring :=
  lit "Hello\! I'll send a message when there are new proposals in DAOs you track\. Use the following command in any topic thread to start tracking a DAO:"
    ++ [LF; LF] ++ ADD_COMMAND.

Definition WELCOME_PRIVATE_MESSAGE : jsstring :=
  lit "Hello\! I'll send a message when there are new proposals in DAOs you track\. You can add me to group chats to track proposals with others, or just use me in private\."
    ++ [LF; LF]
    ++ lit "Use the following command to start tracking a DAO in this chat:"
    ++ [LF; LF] ++ ADD_COMMAND.

Definition HELP_MESSAGE : jsstring :=
  lit "Here's how to use me:" ++ [LF; LF]
    ++ join [LF]
         [ EN_DASH :: lit " Send `/add@dao\_dao\_notifier\_bot DAO\_ADDRESS` to start tracking a DAO\.";
           EN_DASH :: lit " Send `/remove@dao\_dao\_notifier\_bot DAO\_ADDRESS` to stop tracking a DAO\.";
           EN_DASH :: lit " Send /list@dao\_dao\_notifier\_bot to see all the DAOs you're tracking\.";
           EN_DASH :: lit " Send /help@dao\_dao\_notifier\_bot to get this message\." ].

Definition NOT_TRACKING_ANY : jsstring :=
  lit "You're not tracking any DAOs\." ++ [LF; LF]
    ++ lit "Send " ++ ADD_COMMAND ++ lit " to start tracking a DAO\.".

Definition NEED_ADDRESS : jsstring :=
  lit "Reply to this message with the DAO's address or a link to its page.".

Definition UNRECOGNIZED : jsstring :=
  lit "I don't recognize the DAO address or link provided. Please try again.".

Definition NOT_FOUND : jsstring :=
  lit "I couldn't find a DAO with that address. Try copying the URL from your browser and using that instead.".

Definition UNEXPECTED : jsstring :=
  lit "An unexpected error ocurred. Please try again or contact the team for support.".

(** [[${escapeMarkdownV2(info.value.config.name)}](${info.url})] *)
Definition dao_link (info : DaoInfo) : jsstring :=
  lit "[" ++ escapeMarkdownV2 (info_name info) ++ lit "]("
    ++ info_url info ++ lit ")".

(** The four answers to [/add] and [/remove]. *)
Definition removed_message (info : DaoInfo) (dao : jsstring) : jsstring :=
  lit "Ok, you're no longer tracking " ++ dao_link info ++ lit "\."
    ++ [LF; LF] ++ lit "Send `/add@dao\_dao\_notifier\_bot " ++ dao
    ++ lit "` to track it again\.".

Definition not_tracking_message (info : DaoInfo) (dao : jsstring)
  : jsstring :=
  lit "You're not tracking " ++ dao_link info ++ lit "\."
    ++ [LF; LF] ++ lit "Send `/add@dao\_dao\_notifier\_bot " ++ dao
    ++ lit "` to track it\.".

Definition already_message (info : DaoInfo) (dao : jsstring) : jsstring :=
  lit "You're already tracking " ++ dao_link info
    ++ lit "\! I'll notify you when there are new proposals\."
    ++ [LF; LF] ++ lit "Send `/remove@dao\_dao\_notifier\_bot " ++ dao
    ++ lit "` to stop tracking it\.".

Definition added_message (info : DaoInfo) (dao : jsstring) : jsstring :=
  lit "Got it\! I'll notify you when there are new proposals in "
    ++ dao_link info ++ lit "\."
    ++ [LF; LF] ++ lit "Send `/remove@dao\_dao\_notifier\_bot " ++ dao
    ++ lit "` to stop tracking it\.".

Definition is_private (c : TelegramChat) : bool :=
  jsstring_eqb (type c) (lit "private").

(** The choice of the welcome message, as both places make it. *)
Definition welcome (c : TelegramChat) : jsstring :=
  if is_private c then WELCOME_PRIVATE_MESSAGE
  else if match is_forum c with Some true => true | _ => false end
       then WELCOME_FORUM_MESSAGE
       else WELCOME_GROUP_MESSAGE.

Definition status_is (m : TelegramChatMember) (s : string) : bool :=
  jsstring_eqb (status m) (lit s).

(** How the [try] block ends: with a return, or with an exception at a
    moment when [chatId] and [messageThreadId] hold the given values. *)
Inductive try_result :=
| Returns (o : webhook_outcome)
| Raises (chatId : option Z) (messageThreadId : option Z).

(** No write of another request, and the order of the table. *)
Definition alone (db : database) : database := db.

Definition in_table_order (daos : list jsstring) : list jsstring := daos.

Section Webhook.

(** The world of the webhook: the secret, the structure test of
    utils/objectMatchesStructure.ts on its two structures, the answer of
    Telegram to [getChatAdministrators] ([None] when the call or the
    parsing fails), and [getDaoInfo] of utils/misc.ts, which asks the
    indexer: [getDaoInfo k dao] is the result of the call number [k] of
    the request, made for [dao]. *)
Variable WEBHOOK_SECRET : jsstring.
Variable matches_my_chat_member : TelegramWebhookData -> bool.
Variable matches_message : TelegramWebhookData -> bool.
Variable getChatAdministrators : Z -> option AdministratorsReply.
Variable getDaoInfo : nat -> jsstring -> option DaoInfo.

Definition respondPlain (chatId messageThreadId : option Z)
    (text : jsstring) : webhook_outcome * list webhook_event :=
  match chatId with
  | None => (WebhookRespond 200 NoReply, [WErrorLog])
  | Some c => (WebhookRespond 200 (SendPlain c messageThreadId text), [])
  end.

Definition respondMarkdown (chatId messageThreadId : option Z)
    (text : jsstring) : webhook_outcome * list webhook_event :=
  match chatId with
  | None => (WebhookRespond 200 NoReply, [WErrorLog])
  | Some c => (WebhookRespond 200 (SendMarkdown c messageThreadId text), [])
  end.

(** [!!admins.ok && admins.result.some(..)] *)
Definition is_admin (admins : AdministratorsReply) (sender : TelegramUser)
  : bool :=
  ok admins
  && existsb (fun admin =>
                (user_id (user admin) =? user_id sender)%Z
                && (status_is admin "administrator"
                    || status_is admin "creator"))
       (result admins).

(** A line of the answer to [/list], from the call number [call]. *)
Definition list_line (call : nat) (dao : jsstring) : jsstring :=
  match getDaoInfo call dao with
  | Some info => EN_DASH :: lit " " ++ dao_link info
  | None => EN_DASH :: lit " " ++ dao
  end.

(** [Promise.all(registrations.map(async ({ dao }) => ..))]: one call of
    [getDaoInfo] for each row, made in the order of the rows. *)
Fixpoint list_lines (call : nat) (registrations : list jsstring)
  : list jsstring :=
  match registrations with
  | [] => []
  | dao :: rest => list_line call dao :: list_lines (S call) rest
  end.

(** The membership update. *)
Definition on_my_chat_member (m : MyChatMember) (db : database)
  : try_result * database * list webhook_event :=
  let chatId := Some (id (member_chat m)) in
  if status_is (new_chat_member m) "left"
     || status_is (new_chat_member m) "kicked" then
    let s := BigInt_toString (id (member_chat m)) in
    (Returns (WebhookRespond 200 NoReply), delete_chat s db,
     [WLog; WRun (DeleteChat s)])
  else if status_is (new_chat_member m) "restricted"
          && negb (match can_send_messages (new_chat_member m) with
                   | Some true => true
                   | _ => false
                   end) then
    (Returns (WebhookRespond 200 NoReply), db, [WLog])
  else if (status_is (old_chat_member m) "left"
           || status_is (old_chat_member m) "kicked")
          && (status_is (new_chat_member m) "member"
              || status_is (new_chat_member m) "administrator"
              || status_is (new_chat_member m) "creator") then
    let (o, ev) := respondMarkdown chatId None (welcome (member_chat m)) in
    (Returns o, db, WLog :: ev)
  else (Returns (WebhookRespond 200 NoReply), db, []).

(** The table is shared with the other requests, and the handler awaits
    each of its statements without a transaction.  Two things are
    therefore not in its hands: the order in which a [SELECT] without
    [ORDER BY] lists the rows that it finds, [listed], and what other
    requests write between the [SELECT] for an existing row and the
    statement that follows it, [between].  The table that a handler is
    given is the table at its first statement. *)
Section Shared.

Variable listed : list jsstring -> list jsstring.
Variable between : database -> database.

(** [/add], [/remove] and the answer to a message of the bot, once the
    address is known. *)
Definition on_address_shared (msg : TelegramMessage) (text dao : jsstring)
    (db : database) : try_result * database * list webhook_event :=
  let chatId := Some (id (chat msg)) in
  let messageThreadId := message_thread_id_of msg in
  let chat_s := BigInt_toString (id (chat msg)) in
  let thread_s := option_map BigInt_toString (message_thread_id_of msg) in
  match getDaoInfo 0 dao with
  | Some info =>
      let existing :=
        select_existing (info_chainId info) dao chat_s thread_s db in
      let ev0 :=
        [WDaoInfo dao;
         WRun (SelectExisting (info_chainId info) dao chat_s thread_s)] in
      if startsWith (lit "/remove@") text then
        match existing with
        | Some _ =>
            let (o, ev) :=
              respondMarkdown chatId messageThreadId
                (removed_message info dao) in
            (Returns o,
             delete_registration dao chat_s thread_s (between db),
             ev0 ++ [WRun (DeleteRegistration dao chat_s thread_s)] ++ ev)
        | None =>
            let (o, ev) :=
              respondMarkdown chatId messageThreadId
                (not_tracking_message info dao) in
            (Returns o, db, ev0 ++ ev)
        end
      else
        match existing with
        | Some _ =>
            let (o, ev) :=
              respondMarkdown chatId messageThreadId
                (already_message info dao) in
            (Returns o, db, ev0 ++ ev)
        | None =>
            let row := {| row_chainId := info_chainId info;
                          row_dao := dao;
                          row_chatId := chat_s;
                          row_messageThreadId := thread_s |} in
            let ev1 :=
              ev0 ++ [WRun (Insert (info_chainId info) dao chat_s
                              thread_s)] in
            match insert_registration row (between db) with
            | Some db' =>
                let (o, ev) :=
                  respondMarkdown chatId messageThreadId
                    (added_message info dao) in
                (Returns o, db', ev1 ++ ev)
            | None => (Raises chatId messageThreadId, between db, ev1)
            end
        end
  | None =>
      let (o, ev) := respondPlain chatId messageThreadId NOT_FOUND in
      (Returns o, db, WDaoInfo dao :: ev)
  end.

(** The message update, from the commands on. *)
Definition on_command_shared (msg : TelegramMessage) (text : jsstring)
    (db : database) : try_result * database * list webhook_event :=
  let chatId := Some (id (chat msg)) in
  let messageThreadId := message_thread_id_of msg in
  let chat_s := BigInt_toString (id (chat msg)) in
  let thread_s := option_map BigInt_toString (message_thread_id_of msg) in
  if startsWith (lit "/start") text then
    let (o, ev) := respondMarkdown chatId messageThreadId
                     (welcome (chat msg)) in
    (Returns o, db, ev)
  else if startsWith (lit "/help") text then
    let (o, ev) := respondMarkdown chatId messageThreadId HELP_MESSAGE in
    (Returns o, db, ev)
  else if startsWith (lit "/list") text then
    let registrations := listed (select_daos chat_s thread_s db) in
    match registrations with
    | [] =>
        let (o, ev) :=
          respondMarkdown chatId messageThreadId NOT_TRACKING_ANY in
        (Returns o, db, WRun (SelectDaos chat_s thread_s) :: ev)
    | _ =>
        let registrationList := list_lines 0 registrations in
        let (o, ev) :=
          respondMarkdown chatId messageThreadId
            (lit "You're tracking the following DAOs:" ++ [LF; LF]
               ++ join [LF] registrationList) in
        (Returns o, db,
         WRun (SelectDaos chat_s thread_s)
           :: map WDaoInfo registrations ++ ev)
    end
  else if startsWith (lit "/add") text
          || startsWith (lit "/remove") text then
    match command_argument text with
    | Some (c :: r) => on_address_shared msg text (c :: r) db
    | _ =>
        let (o, ev) := respondPlain chatId messageThreadId NEED_ADDRESS in
        (Returns o, db, ev)
    end
  else if negb (is_private (chat msg))
          && negb (match reply_to_message_from msg with
                   | Some u => jsstring_eqb (username u) BOT_USERNAME
                   | None => false
                   end) then
    (Returns (WebhookRespond 200 NoReply), db, [])
  else
    match match_address text with
    | Some (c :: r) => on_address_shared msg text (c :: r) db
    | _ =>
        let (o, ev) := respondPlain chatId messageThreadId UNRECOGNIZED in
        (Returns o, db, ev)
    end.

(** The message update: the sender of a message in a chat that is not
    private has to be one of its administrators. *)
Definition on_message_shared (msg : TelegramMessage) (text : jsstring)
    (db : database) : try_result * database * list webhook_event :=
  if negb (is_private (chat msg)) then
    let admins :=
      match getChatAdministrators (id (chat msg)) with
      | Some reply => reply
      | None => {| ok := false; result := [] |}
      end in
    if negb (is_admin admins (from msg)) then
      (Returns (WebhookRespond 200 NoReply), db,
       [WAdministrators (id (chat msg))])
    else
      let '(res, db', ev) := on_command_shared msg text db in
      (res, db', WAdministrators (id (chat msg)) :: ev)
  else on_command_shared msg text db.

(** The [try] block. *)
Definition telegram_try_shared (data : TelegramWebhookData) (db : database)
  : try_result * database * list webhook_event :=
  if matches_my_chat_member data then
    match my_chat_member data with
    | None => (Raises None None, db, [])
    | Some m => on_my_chat_member m db
    end
  else if matches_message data then
    match message data with
    | None => (Raises None None, db, [])
    | Some msg =>
        match text_of_message msg with
        | Some (c :: r) => on_message_shared msg (c :: r) db
        | _ => (Returns (WebhookRespond 200 NoReply), db, [])
        end
    end
  else (Returns (WebhookRespond 200 NoReply), db, []).

(** The route handler. *)
Definition telegram_shared (request : WebhookRequest) (db : database)
  : webhook_outcome * database * list webhook_event :=
  if negb (strict_eq (secret_token request) WEBHOOK_SECRET) then
    (WebhookError 401 (lit "Invalid webhook secret."), db, [])
  else
    match webhook_json request with
    | None => (WebhookThrows, db, [])
    | Some data =>
        match telegram_try_shared data db with
        | (Returns o, db', ev) => (o, db', WJson :: ev)
        | (Raises chatId messageThreadId, db', ev) =>
            let (o, ev') := respondPlain chatId messageThreadId UNEXPECTED in
            (o, db', WJson :: ev ++ WErrorLog :: ev')
        end
    end.

End Shared.

(** The handler for an update that runs alone: no other request writes
    between its statements, and the rows are listed in the order of the
    table. *)
Definition on_address : TelegramMessage -> jsstring -> jsstring -> database
    -> try_result * database * list webhook_event :=
  on_address_shared alone.

Definition on_command : TelegramMessage -> jsstring -> database
    -> try_result * database * list webhook_event :=
  on_command_shared in_table_order alone.

Definition on_message : TelegramMessage -> jsstring -> database
    -> try_result * database * list webhook_event :=
  on_message_shared in_table_order alone.

Definition telegram_try : TelegramWebhookData -> database
    -> try_result * database * list webhook_event :=
  telegram_try_shared in_table_order alone.

Definition telegram : WebhookRequest -> database
    -> webhook_outcome * database * list webhook_event :=
  telegram_shared in_table_order alone.

(** The sender may give commands: the chat is private, or Telegram names
    the sender among the administrators of the chat. *)
Definition sender_allowed (msg : TelegramMessage) : bool :=
  is_private (chat msg)
  || match getChatAdministrators (id (chat msg)) with
     | Some reply => is_admin reply (from msg)
     | None => false
     end.

(** The chat and the thread that an update comes from. *)
Definition update_target (data : TelegramWebhookData)
  : option (Z * option Z) :=
  if matches_my_chat_member data then
    option_map (fun m => (id (member_chat m), None)) (my_chat_member data)
  else if matches_message data then
    option_map (fun msg => (id (chat msg), message_thread_id_of msg))
      (message data)
  else None.

(** A request with the secret that carries a message with a text. *)
Definition message_update (request : WebhookRequest)
    (msg : TelegramMessage) (text : jsstring) : Prop :=
  strict_eq (secret_token request) WEBHOOK_SECRET = true
  /\ exists data,
      webhook_json request = Some data
      /\ matches_my_chat_member data = false
      /\ matches_message data = true
      /\ message data = Some msg
      /\ text_of_message msg = Some text
      /\ text <> [].

(** A request with the secret that carries a membership update. *)
Definition membership_update (request : WebhookRequest) (m : MyChatMember)
  : Prop :=
  strict_eq (secret_token request) WEBHOOK_SECRET = true
  /\ exists data,
      webhook_json request = Some data
      /\ matches_my_chat_member data = true
      /\ my_chat_member data = Some m.

End Webhook.

(** The three components of a run of the webhook. *)
Definition webhook_response
    (run : webhook_outcome * database * list webhook_event)
  : webhook_outcome := fst (fst run).

Definition webhook_database
    (run : webhook_outcome * database * list webhook_event)
  : database := snd (fst run).

Definition webhook_events
    (run : webhook_outcome * database * list webhook_event)
  : list webhook_event := snd run.

(** The message that a response asks Telegram to send, with its chat and
    thread. *)
Definition reply_target (o : webhook_outcome) : option (Z * option Z) :=
  match o with
  | WebhookRespond _ (SendPlain c t _) => Some (c, t)
  | WebhookRespond _ (SendMarkdown c t _) => Some (c, t)
  | _ => None
  end.

(** The row that [/add] writes for a message and an answer of the
    indexer, and the destination that [notify] reads from it. *)
Definition registration_of (msg : TelegramMessage) (info : DaoInfo)
    (dao : jsstring) : RegistrationRow :=
  {| row_chainId := info_chainId info;
     row_dao := dao;
     row_chatId := BigInt_toString (id (chat msg));
     row_messageThreadId :=
       option_map BigInt_toString (message_thread_id_of msg) |}.

Definition destination_of (msg : TelegramMessage) : Destination :=
  {| chatId := BigInt_toString (id (chat msg));
     messageThreadId :=
       option_map BigInt_toString (message_thread_id_of msg) |}.

(** The rows that [/remove] of [dao] in the chat and thread of [msg]
    concerns. *)
Definition registered_here (msg : TelegramMessage) (dao : jsstring)
    (r : RegistrationRow) : bool :=
  jsstring_eqb (row_dao r) dao
  && jsstring_eqb (row_chatId r) (BigInt_toString (id (chat msg)))
  && thread_matches (option_map BigInt_toString (message_thread_id_of msg))
       (row_messageThreadId r).

(** The call of [getChatAdministrators], made for the chats that are not
    private. *)
Definition admin_check (msg : TelegramMessage) : list webhook_event :=
  if is_private (chat msg) then []
  else [WAdministrators (id (chat msg))].

(** The commands that are answered without an address. *)
Definition informational (text : jsstring) : bool :=
  startsWith (lit "/start") text || startsWith (lit "/help") text
  || startsWith (lit "/list") text.

(** What a message with the text [text] can do to the table: nothing, add
    the row of a DAO that the chat and thread did not track, or delete the
    rows of a DAO that they tracked. *)
Definition table_step (getDaoInfo : nat -> jsstring -> option DaoInfo)
    (msg : TelegramMessage) (text : jsstring) (db db' : database) : Prop :=
  db' = db
  \/ (informational text = false
      /\ startsWith (lit "/remove@") text = false
      /\ exists dao info,
          getDaoInfo 0 dao = Some info
          /\ ~ In (registration_of msg info dao) db
          /\ db' = db ++ [registration_of msg info dao])
  \/ (informational text = false
      /\ startsWith (lit "/remove@") text = true
      /\ exists dao info,
          getDaoInfo 0 dao = Some info
          /\ In (registration_of msg info dao) db
          /\ db' = filter (fun r => negb (registered_here msg dao r)) db).

(** A link to the page of a DAO, as the browser shows it. *)
Definition dao_page (secure testnet : bool) (address : jsstring)
  : jsstring :=
  (if secure then lit "https://" else [])
    ++ (if testnet then lit "testnet." else [])
    ++ lit "daodao.zone/dao/" ++ address.

(** Data of the examples: a structure test that looks for the field, a
    private chat and a forum, an indexer that knows one DAO. *)
Definition has_my_chat_member (data : TelegramWebhookData) : bool :=
  match my_chat_member data with Some _ => true | None => false end.

Definition has_message (data : TelegramWebhookData) : bool :=
  match message data with Some _ => true | None => false end.

Definition example_secret : jsstring := lit "s3cret".

Definition example_user : TelegramUser :=
  {| user_id := 7; username := lit "ada" |}.

Definition example_private_chat : TelegramChat :=
  {| id := 100; type := lit "private"; title := lit "Ada";
     is_forum := None |}.

Definition example_forum : TelegramChat :=
  {| id := (-1001234567890)%Z; type := lit "supergroup";
     title := lit "Builders"; is_forum := Some true |}.

Definition example_info : DaoInfo :=
  {| info_chainId := lit "osmosis-1";
     info_url := lit "https://daodao.zone/dao/dao1abc";
     info_name := lit "My_DAO" |}.

Definition example_indexer (call : nat) (dao : jsstring) : option DaoInfo :=
  if jsstring_eqb dao (lit "dao1abc") || jsstring_eqb dao (lit "dao1new")
  then Some example_info else None.

Definition no_administrators (chat : Z) : option AdministratorsReply :=
  None.

(** Telegram names the user of the examples as an administrator. *)
Definition example_administrators (chat : Z) : option AdministratorsReply :=
  Some {| ok := true;
          result := [{| user := example_user;
                        status := lit "administrator";
                        can_send_messages := None |}] |}.

Definition private_message (text : string) : TelegramMessage :=
  {| message_thread_id_of := None;
     chat := example_private_chat;
     from := example_user;
     text_of_message := Some (lit text);
     reply_to_message_from := None |}.

Definition forum_message (text : string) : TelegramMessage :=
  {| message_thread_id_of := Some 7%Z;
     chat := example_forum;
     from := example_user;
     text_of_message := Some (lit text);
     reply_to_message_from := None |}.

Definition update_with (msg : TelegramMessage) : WebhookRequest :=
  {| secret_token := Some example_secret;
     webhook_json := Some {| message := Some msg; my_chat_member := None |} |}.

Definition example_member (s : string) : TelegramChatMember :=
  {| user := example_user; status := lit s; can_send_messages := None |}.

Definition example_left : MyChatMember :=
  {| member_chat := example_private_chat;
     old_chat_member := example_member "member";
     new_chat_member := example_member "kicked" |}.

Definition left_update : WebhookRequest :=
  {| secret_token := Some example_secret;
     webhook_json :=
       Some {| message := None; my_chat_member := Some example_left |} |}.

(* ================================================================== *)
(** * Properties *)

(** ** The escaper *)

Lemma regex_class_le c : regex_class c = true -> (c <= 126)%N.
Proof.
  unfold regex_class. rewrite !orb_true_iff, andb_true_iff.
  intros [[H | [_ H]] | H].
  - apply existsb_exists in H as (x & Hin & Hx). apply N.eqb_eq in Hx.
    subst x. simpl in Hin. lia.
  - apply N.leb_le in H. lia.
  - apply existsb_exists in H as (x & Hin & Hx). apply N.eqb_eq in Hx.
    subst x. simpl in Hin. lia.
Qed.

Lemma reserved_in_class c : reserved c = true -> regex_class c = true.
Proof.
  unfold reserved. intros H.
  apply existsb_exists in H as (x & Hin & Hx). apply N.eqb_eq in Hx.
  subst x. simpl in Hin.
  repeat (destruct Hin as [<- | Hin]; [reflexivity |]). contradiction.
Qed.

Lemma backslash_in_class : regex_class BACKSLASH = true.
Proof. reflexivity. Qed.

Lemma whitespace_not_in_class c :
  is_whitespace c = true -> regex_class c = false.
Proof.
  unfold is_whitespace. rewrite orb_true_iff, andb_true_iff.
  intros [H | [H _]].
  - apply existsb_exists in H as (x & Hin & Hx). apply N.eqb_eq in Hx.
    subst x. simpl in Hin.
    repeat (destruct Hin as [<- | Hin]; [reflexivity |]). contradiction.
  - apply N.leb_le in H.
    destruct (regex_class c) eqn:E; [| reflexivity].
    apply regex_class_le in E. lia.
Qed.

Lemma escapeMarkdownV2_app a b :
  escapeMarkdownV2 (a ++ b) = escapeMarkdownV2 a ++ escapeMarkdownV2 b.
Proof.
  induction a as [| c a IH]; simpl; [reflexivity |].
  destruct (regex_class c); simpl; now rewrite IH.
Qed.

Lemma unescaped_escapeMarkdownV2 t :
  no_flag (unescaped false (escapeMarkdownV2 t))
  /\ escaping_after false (escapeMarkdownV2 t) = false.
Proof.
  induction t as [| c t [IHm IHe]]; simpl.
  - split; [constructor | reflexivity].
  - destruct (regex_class c) eqn:E; simpl.
    + split; [repeat constructor; exact IHm | exact IHe].
    + assert (Hb : (c =? BACKSLASH)%N = false).
      { apply N.eqb_neq. intros ->. now rewrite backslash_in_class in E. }
      assert (Hr : reserved c = false).
      { destruct (reserved c) eqn:R; [| reflexivity].
        apply reserved_in_class in R. congruence. }
      rewrite Hb, Hr. split; [constructor; [reflexivity | exact IHm] | exact IHe].
Qed.

(** ** Trimming and quoting an escaped text *)

Lemma trimStart_escapeMarkdownV2 s :
  trimStart (escapeMarkdownV2 s) = escapeMarkdownV2 (trimStart s).
Proof.
  induction s as [| c s IH]; simpl; [reflexivity |].
  destruct (is_whitespace c) eqn:W.
  - rewrite (whitespace_not_in_class _ W). simpl. now rewrite W.
  - simpl. destruct (regex_class c); simpl; [reflexivity | now rewrite W].
Qed.

Lemma trimEnd_snoc s c :
  trimEnd (s ++ [c]) = if is_whitespace c then trimEnd s else s ++ [c].
Proof.
  unfold trimEnd. rewrite rev_app_distr. simpl.
  destruct (is_whitespace c); [reflexivity |].
  simpl. now rewrite rev_involutive.
Qed.

Lemma trimEnd_escapeMarkdownV2 s :
  trimEnd (escapeMarkdownV2 s) = escapeMarkdownV2 (trimEnd s).
Proof.
  induction s as [| c s IH] using rev_ind; [reflexivity |].
  rewrite escapeMarkdownV2_app, trimEnd_snoc. simpl.
  destruct (regex_class c) eqn:E.
  - assert (W : is_whitespace c = false).
    { destruct (is_whitespace c) eqn:W; [| reflexivity].
      apply whitespace_not_in_class in W. congruence. }
    rewrite W, escapeMarkdownV2_app. simpl. rewrite E.
    replace (escapeMarkdownV2 s ++ [BACKSLASH; c])
      with ((escapeMarkdownV2 s ++ [BACKSLASH]) ++ [c])
      by now rewrite <- app_assoc.
    rewrite trimEnd_snoc, W. now rewrite <- app_assoc.
  - rewrite trimEnd_snoc. destruct (is_whitespace c); [exact IH |].
    rewrite escapeMarkdownV2_app. simpl. now rewrite E.
Qed.

Lemma trim_escapeMarkdownV2 s :
  trim (escapeMarkdownV2 s) = escapeMarkdownV2 (trim s).
Proof.
  unfold trim. now rewrite trimStart_escapeMarkdownV2, trimEnd_escapeMarkdownV2.
Qed.

Lemma split_nonempty sep s : split sep s <> [].
Proof.
  destruct s as [| c s]; simpl; [discriminate |].
  destruct (c =? sep)%N; [discriminate |]. destruct (split sep s); discriminate.
Qed.

Lemma split_escapeMarkdownV2 s :
  split LF (escapeMarkdownV2 s) = map escapeMarkdownV2 (split LF s).
Proof.
  induction s as [| c s IH]; simpl; [reflexivity |].
  destruct (c =? LF)%N eqn:E.
  - apply N.eqb_eq in E. subst c. simpl. now rewrite IH.
  - destruct (regex_class c) eqn:C; simpl; rewrite ?E, IH;
      destruct (split LF s) as [| p ps] eqn:S;
      try (now apply split_nonempty in S); simpl; now rewrite C.
Qed.

Lemma quoted_description_lines sd :
  quoted_description sd
  = join [LF; GT] (map escapeMarkdownV2 (split LF (trim sd))).
Proof.
  unfold quoted_description.
  now rewrite trim_escapeMarkdownV2, split_escapeMarkdownV2.
Qed.

(** ** Flags of a concatenation *)

Lemma unescaped_app esc a b :
  unescaped esc (a ++ b)
  = unescaped esc a ++ unescaped (escaping_after esc a) b.
Proof.
  revert esc. induction a as [| c a IH]; intros esc; simpl; [reflexivity |].
  destruct esc; simpl; [now rewrite IH |].
  destruct (c =? BACKSLASH)%N; simpl; now rewrite IH.
Qed.

Lemma escaping_after_app esc a b :
  escaping_after esc (a ++ b) = escaping_after (escaping_after esc a) b.
Proof.
  revert esc. induction a as [| c a IH]; intros esc; simpl; [reflexivity |].
  destruct esc; simpl; now rewrite IH.
Qed.

Lemma unescaped_length esc s : length (unescaped esc s) = length s.
Proof.
  revert esc. induction s as [| c s IH]; intros esc; simpl; [reflexivity |].
  destruct esc; simpl; [now rewrite IH |].
  destruct (c =? BACKSLASH)%N; simpl; now rewrite IH.
Qed.

Lemma unescaped_flatten esc ps :
  unescaped esc (flatten ps) = List.concat (map snd (annotate esc ps)).
Proof.
  revert esc. induction ps as [| p ps IH]; intros esc; simpl; [reflexivity |].
  unfold flatten in *. simpl. now rewrite unescaped_app, IH.
Qed.

Lemma only_quote_markers_no_flag prev v m :
  no_flag m -> only_quote_markers prev v m.
Proof.
  intros H. revert prev v.
  induction H as [| b m Hb _ IH]; intros prev [| c v]; simpl; auto.
  split; [intros; congruence | apply IH].
Qed.

Lemma last_cons_default (x : N) l d d' : last (x :: l) d = last (x :: l) d'.
Proof.
  revert x. induction l as [| y l IH]; intros x; [reflexivity |].
  change (last (y :: l) d = last (y :: l) d'). apply IH.
Qed.

Lemma only_quote_markers_app prev a ma b mb :
  length ma = length a ->
  only_quote_markers prev a ma ->
  only_quote_markers (last a prev) b mb ->
  only_quote_markers prev (a ++ b) (ma ++ mb).
Proof.
  revert prev ma. induction a as [| c a IH]; intros prev [| x ma] L Ha Hb;
    simpl in *; try discriminate; auto.
  destruct Ha as [Hx Ha]. split; [exact Hx |].
  apply IH; [lia | exact Ha |].
  destruct a as [| y a]; [exact Hb |].
  rewrite (last_cons_default y a c prev). exact Hb.
Qed.

Lemma join_cons2 sep (p q : jsstring) r :
  join sep (p :: q :: r) = p ++ sep ++ join sep (q :: r).
Proof. reflexivity. Qed.

Lemma quoted_lines_flags ls prev :
  ls <> [] ->
  only_quote_markers prev
    (join [LF; GT] (map escapeMarkdownV2 ls))
    (unescaped false (join [LF; GT] (map escapeMarkdownV2 ls)))
  /\ escaping_after false (join [LF; GT] (map escapeMarkdownV2 ls)) = false.
Proof.
  intros Hne. revert prev.
  induction ls as [| l ls IH]; [contradiction |]. intros prev.
  destruct (unescaped_escapeMarkdownV2 l) as [Hm He].
  destruct ls as [| l' r].
  - simpl. split; [now apply only_quote_markers_no_flag | exact He].
  - change (map escapeMarkdownV2 (l :: l' :: r))
      with (escapeMarkdownV2 l :: escapeMarkdownV2 l'
              :: map escapeMarkdownV2 r).
    rewrite join_cons2.
    change (escapeMarkdownV2 l' :: map escapeMarkdownV2 r)
      with (map escapeMarkdownV2 (l' :: r)).
    destruct (IH ltac:(discriminate) GT) as [IHm IHe].
    rewrite unescaped_app, escaping_after_app, He. split.
    + apply only_quote_markers_app.
      * apply unescaped_length.
      * now apply only_quote_markers_no_flag.
      * simpl. split; [intros; discriminate |].
        split; [intros _; split; reflexivity |]. exact IHm.
    + simpl. exact IHe.
Qed.

Lemma quoted_description_flags sd prev :
  only_quote_markers prev (quoted_description sd)
    (unescaped false (quoted_description sd))
  /\ escaping_after false (quoted_description sd) = false.
Proof.
  rewrite quoted_description_lines.
  apply quoted_lines_flags, split_nonempty.
Qed.

(** ** The templates *)

Lemma jsstring_eqb_eq a b : jsstring_eqb a b = true <-> a = b.
Proof.
  revert b. induction a as [| x a IH]; intros [| y b]; simpl;
    try (split; [discriminate | congruence]); [tauto |].
  rewrite andb_true_iff, N.eqb_eq, IH. split; [intros []|intros [=]]; subst; auto.
Qed.

Lemma reset_q_open e : escaping_after e q_open = false.
Proof. destruct e; reflexivity. Qed.

Lemma reset_q_body e : escaping_after e q_body = false.
Proof. destruct e; reflexivity. Qed.

Lemma reset_q_outcome e : escaping_after e q_outcome = false.
Proof. destruct e; reflexivity. Qed.

Lemma reset_sentence1 e :
  escaping_after e (lit ") is open for voting in [") = false
  /\ escaping_after e (lit ") in [") = false.
Proof. destruct e; split; reflexivity. Qed.

Lemma reset_sentence2 e :
  escaping_after e (lit ")\" ++ q_title) = false
  /\ escaping_after e (lit ")\ was passed and executed\" ++ q_title) = false
  /\ escaping_after e
       (lit ")\ was passed but failed to execute\" ++ q_title) = false
  /\ escaping_after e (lit ")\ was rejected and closed\" ++ q_title) = false.
Proof. destruct e; repeat split; reflexivity. Qed.

Lemma escaped_no_flag t : no_flag (unescaped false (escapeMarkdownV2 t)).
Proof. apply unescaped_escapeMarkdownV2. Qed.

Lemma escaped_closed t : escaping_after false (escapeMarkdownV2 t) = false.
Proof. apply unescaped_escapeMarkdownV2. Qed.

Ltac reset_states :=
  repeat first
    [ rewrite reset_q_open | rewrite reset_q_body | rewrite reset_q_outcome
    | rewrite (proj1 (reset_sentence1 _))
    | rewrite (proj2 (reset_sentence1 _))
    | rewrite (proj1 (reset_sentence2 _))
    | rewrite (proj1 (proj2 (reset_sentence2 _)))
    | rewrite (proj1 (proj2 (proj2 (reset_sentence2 _))))
    | rewrite (proj2 (proj2 (proj2 (reset_sentence2 _))))
    | rewrite escaped_closed
    | rewrite (proj2 (quoted_description_flags _ GT)) ].

Ltac rendered_part :=
  lazymatch goal with
  | |- part_as_rendered _ _ (Quasi _, _) => exact I
  | |- part_as_rendered _ _ (Subst FUrl _, _) => reflexivity
  | |- part_as_rendered _ _ (Subst FDaoUrl _, _) => reflexivity
  | |- part_as_rendered _ _ (Subst FDescription _, _) =>
      split; [apply quoted_description_lines
             | apply quoted_description_flags]
  | |- part_as_rendered _ _ (Subst _ _, _) =>
      split;
      [ cbn [fst];
        repeat match goal with
               | H : ?l = Some _ |- context [?l] => rewrite H
               end;
        reflexivity
      | apply escaped_no_flag ]
  end.

Ltac rendered_parts :=
  repeat (apply Forall_cons; [rendered_part |]); apply Forall_nil.

Lemma outcome_parts_rendered p sd tail e :
  outcome_parts (winningChoice p) = Some tail ->
  Forall (part_as_rendered p sd) (annotate e tail).
Proof.
  unfold outcome_parts. destruct (truthy (winningChoice p)).
  - destruct (winningChoice p) as [w |] eqn:W; simpl; [| discriminate].
    intros [= <-]. cbn [annotate part_text]. reset_states.
    rendered_parts.
  - intros [= <-]. constructor.
Qed.

Lemma annotate_app e a b :
  annotate e (a ++ b)
  = annotate e a ++ annotate (escaping_after e (flatten a)) b.
Proof.
  revert e. induction a as [| x a IH]; intros e; [reflexivity |].
  simpl. rewrite IH. unfold flatten. simpl.
  now rewrite escaping_after_app.
Qed.

Lemma Some_eq {A} (x y : A) : Some x = Some y -> y = x.
Proof. congruence. Qed.

Lemma template_rendered t p sd ps :
  template t p sd = Some ps ->
  Forall (part_as_rendered p sd) (annotate false ps).
Proof.
  unfold template.
  destruct (proposalId p) as [id |] eqn:Hid; [| discriminate].
  destruct (daoName p) as [name |] eqn:Hname; [| discriminate].
  destruct (proposalTitle p) as [title |] eqn:Htitle; [| discriminate].
  cbn [escapeMarkdownV2_call option_map].
  destruct t; cbv zeta;
    try (destruct (outcome_parts (winningChoice p)) as [tail |] eqn:T;
         [| discriminate]);
    intros H; apply Some_eq in H; subst ps;
    rewrite ?annotate_app; rewrite ?Forall_app; repeat split;
    try (eapply outcome_parts_rendered; eassumption);
    cbn [annotate part_text]; reset_states; rendered_parts.
Qed.

Lemma text_of_template type p sd txt :
  text_of type p sd = Some txt -> txt <> [] ->
  exists t ps,
    type = NotifyType_value t /\ template t p sd = Some ps
    /\ txt = flatten ps.
Proof.
  assert (K : forall t, type = NotifyType_value t ->
                option_map flatten (template t p sd) = Some txt ->
                exists t ps,
                  type = NotifyType_value t /\ template t p sd = Some ps
                  /\ txt = flatten ps).
  { intros t Ht H. destruct (template t p sd) as [ps |] eqn:T;
      [| discriminate].
    exists t, ps. simpl in H. repeat split; congruence. }
  unfold text_of. intros H Hne.
  destruct (jsstring_eqb type (NotifyType_value ProposalCreated)) eqn:E1;
    [apply jsstring_eqb_eq in E1; eauto |].
  destruct (jsstring_eqb type (NotifyType_value ProposalExecuted)) eqn:E2;
    [apply jsstring_eqb_eq in E2; eauto |].
  destruct (jsstring_eqb type (NotifyType_value ProposalExecutionFailed))
    eqn:E3; [apply jsstring_eqb_eq in E3; eauto |].
  destruct (jsstring_eqb type (NotifyType_value ProposalClosed)) eqn:E4;
    [apply jsstring_eqb_eq in E4; eauto |].
  congruence.
Qed.

(** C1, as amended.  In every non-empty text that [notify] renders, the
    proposal identifier, the DAO name, the title and the winning choice are
    interpolated through [escapeMarkdownV2] and hold no reserved character
    that is left unescaped; the description is escaped, trimmed and quoted
    line by line, and its only unescaped reserved characters are the quote
    markers after its line feeds; the two links are interpolated as they
    are.  The flags are those of the whole text, part by part. *)
Theorem render_escapes_fields type p sd txt :
  text_of type p sd = Some txt -> txt <> [] ->
  exists t ps,
    type = NotifyType_value t /\ template t p sd = Some ps
    /\ txt = flatten ps
    /\ unescaped false txt = List.concat (map snd (annotate false ps))
    /\ Forall (part_as_rendered p sd) (annotate false ps).
Proof.
  intros H Hne.
  destruct (text_of_template _ _ _ _ H Hne) as (t & ps & Ht & Hps & Htxt).
  exists t, ps. repeat split; try assumption.
  - subst txt. apply unescaped_flatten.
  - eapply template_rendered; eassumption.
Qed.

Lemma render_escapes_fields_witness :
  exists txt,
    text_of (lit "proposal_executed") example_payload example_description
    = Some txt
    /\ txt <> []
    /\ exists t ps,
        lit "proposal_executed" = NotifyType_value t
        /\ template t example_payload example_description = Some ps
        /\ txt = flatten ps
        /\ unescaped false txt = List.concat (map snd (annotate false ps))
        /\ Forall (part_as_rendered example_payload example_description)
             (annotate false ps).
Proof.
  eexists. split; [vm_compute; reflexivity |]. split; [discriminate |].
  apply (render_escapes_fields (lit "proposal_executed") example_payload
           example_description);
    [vm_compute; reflexivity | discriminate].
Defined.

Lemma example_parts_rendered :
  template ProposalExecuted example_payload example_description
  = Some example_parts
  /\ text_of (lit "proposal_executed") example_payload example_description
     = Some (flatten example_parts).
Proof. split; vm_compute; reflexivity. Qed.

Lemma example_link_in_parts : In example_link (annotate false example_parts).
Proof. vm_compute. do 3 right. left. reflexivity. Qed.

Lemma example_link_flagged : In true (snd example_link).
Proof. vm_compute. tauto. Qed.

(** C1, as stated, fails: the link of the proposal is interpolated as it
    is, so the dots of its host name reach the text unescaped. *)
Lemma links_not_escaped :
  ~ (forall t p sd ps,
        template t p sd = Some ps -> all_substitutions_escaped ps).
Proof.
  intros C.
  pose proof (C _ _ _ _ (proj1 example_parts_rendered)) as H.
  pose proof (proj1 (Forall_forall _ _) H example_link
                example_link_in_parts) as K.
  change (no_flag (snd example_link)) in K.
  pose proof (proj1 (Forall_forall _ _) K true example_link_flagged) as F.
  discriminate F.
Qed.

(** ** Truncation of the description *)

Lemma outcome_parts_description w tail v :
  outcome_parts w = Some tail -> ~ In (Subst FDescription v) tail.
Proof.
  unfold outcome_parts. destruct (truthy w).
  - destruct (escapeMarkdownV2_call w); [| discriminate].
    intros [= <-] [H | [H | [H | []]]]; discriminate.
  - intros [= <-] [].
Qed.

Lemma template_description t p sd ps v :
  template t p sd = Some ps ->
  In (Subst FDescription v) ps -> v = quoted_description sd.
Proof.
  unfold template.
  destruct (escapeMarkdownV2_call (proposalId p)); [| discriminate].
  destruct (escapeMarkdownV2_call (daoName p)); [| discriminate].
  destruct (escapeMarkdownV2_call (proposalTitle p)); [| discriminate].
  destruct t; cbv zeta;
    try (destruct (outcome_parts (winningChoice p)) as [tail |] eqn:T;
         [| discriminate]);
    intros H; apply Some_eq in H; subst ps; intros Hin;
    try (apply in_app_or in Hin as [Hin | Hin];
         [| now apply (outcome_parts_description _ _ v T) in Hin]);
    simpl in Hin;
    repeat (destruct Hin as [Hin | Hin]; [try discriminate; congruence |]);
    contradiction.
Qed.

Lemma sanitize_long removeMarkdown d :
  MAX_DESCRIPTION_LENGTH < length (removeMarkdown d) ->
  sanitize removeMarkdown d
  = firstn MAX_DESCRIPTION_LENGTH (removeMarkdown d) ++ lit "...".
Proof.
  intros H. unfold sanitize, slice0.
  now rewrite (proj2 (Nat.ltb_lt _ _) H).
Qed.

Lemma sanitize_short removeMarkdown d :
  length (removeMarkdown d) <= MAX_DESCRIPTION_LENGTH ->
  sanitize removeMarkdown d = removeMarkdown d.
Proof.
  intros H. unfold sanitize.
  now rewrite (proj2 (Nat.ltb_ge _ _) H).
Qed.

(** C7, as amended.  The description handed to the escaper is the first
    500 code units of the sanitized text followed by three dots when the
    sanitized text is longer than 500, and the sanitized text itself
    otherwise; it depends on the raw input only through the sanitized
    text.  The segment of the rendered message is that description
    escaped (the three dots become three escaped dots), then trimmed and
    quoted line by line. *)
Theorem description_truncated removeMarkdown t p ps v :
  template t p (sanitize removeMarkdown (proposalDescription p)) = Some ps ->
  In (Subst FDescription v) ps ->
  let s := removeMarkdown (proposalDescription p) in
  let sd := sanitize removeMarkdown (proposalDescription p) in
  v = join [LF; GT] (split LF (trim (escapeMarkdownV2 sd)))
  /\ (MAX_DESCRIPTION_LENGTH < length s ->
      sd = firstn 500 s ++ lit "..."
      /\ length sd = 503
      /\ escapeMarkdownV2 sd
         = escapeMarkdownV2 (firstn 500 s) ++ lit "\.\.\.")
  /\ (length s <= MAX_DESCRIPTION_LENGTH -> sd = s).
Proof.
  intros T Hin s sd. split; [| split].
  - exact (template_description _ _ _ _ _ T Hin).
  - intros L. subst sd s. rewrite (sanitize_long _ _ L).
    split; [reflexivity |]. split.
    + rewrite length_app, firstn_length_le; [reflexivity |].
      unfold MAX_DESCRIPTION_LENGTH in *. lia.
    + now rewrite escapeMarkdownV2_app.
  - apply sanitize_short.
Qed.

Lemma long_parts_rendered :
  template ProposalCreated long_payload
    (sanitize plain_text (proposalDescription long_payload))
  = Some long_parts.
Proof. vm_compute. reflexivity. Qed.

Lemma long_segment_in_parts : In (Subst FDescription long_segment) long_parts.
Proof. vm_compute. do 11 right. left. reflexivity. Qed.

Lemma long_payload_is_long :
  MAX_DESCRIPTION_LENGTH
  < length (plain_text (proposalDescription long_payload)).
Proof. apply Nat.ltb_lt. vm_compute. reflexivity. Qed.

Lemma description_truncated_witness :
  template ProposalCreated long_payload
    (sanitize plain_text (proposalDescription long_payload))
  = Some long_parts
  /\ In (Subst FDescription long_segment) long_parts
  /\ long_segment
     = join [LF; GT]
         (split LF
            (trim (escapeMarkdownV2
                     (sanitize plain_text
                        (proposalDescription long_payload)))))
  /\ sanitize plain_text (proposalDescription long_payload)
     = firstn 500 (plain_text (proposalDescription long_payload))
         ++ lit "...".
Proof.
  assert (H1 : template ProposalCreated long_payload
                 (sanitize plain_text (proposalDescription long_payload))
               = Some long_parts)
    by (vm_compute; reflexivity).
  assert (H2 : In (Subst FDescription long_segment) long_parts)
    by (vm_compute; do 11 right; left; reflexivity).
  split; [exact H1 |]. split; [exact H2 |].
  destruct (description_truncated plain_text ProposalCreated long_payload
              long_parts long_segment H1 H2)
    as (Hv & Hlong & _).
  split; [exact Hv |].
  apply Hlong. apply Nat.ltb_lt. vm_compute. reflexivity.
Defined.

(** C7, as stated, fails on the rendered message.  For a sanitized text
    made of a space and 500 letters, the description segment is 499
    letters and three escaped dots: it is neither the truncated text (500
    code units and three dots) nor its escaped form, since the leading
    space is trimmed after the truncation. *)
Lemma segment_not_truncation :
  ~ segment_is_truncation plain_text
  /\ ~ segment_is_escaped_truncation plain_text.
Proof.
  split; intros C;
    pose proof (C ProposalCreated long_payload long_parts long_segment
                  long_payload_is_long long_parts_rendered
                  long_segment_in_parts) as E;
    apply (f_equal (@length N)) in E; vm_compute in E; discriminate E.
Qed.

(* ================================================================== *)
(** ** One batch: callbacks that settle in any order *)

Section Delivery.

Variable net : nat -> nat -> fetch_result.
Variable sched : nat -> nat.
Variable env : Env.
Variable message : jsstring.

Local Abbreviation future := (future net env message).
Local Abbreviation outcome_from := (outcome_from net).
Local Abbreviation task_future := (task_future net env message).
Local Abbreviation task_result := (task_result net).
Local Abbreviation futures := (futures net env message).
Local Abbreviation results := (results net).
Local Abbreviation script := (script net env message).
Local Abbreviation delivered := (delivered net).
Local Abbreviation first_fetches := (first_fetches env message).
Local Abbreviation resume := (resume env message).
Local Abbreviation settle_nth := (settle_nth net env message).
Local Abbreviation await_all := (await_all net sched env message).
Local Abbreviation start_all := (start_all env message).
Local Abbreviation promise_all_map := (promise_all_map net sched env message).
Local Abbreviation batch_loop := (batch_loop net sched env message).
Local Abbreviation is_wave := (is_wave net env message).

Lemma events_of_app d a b :
  events_of d (a ++ b) = events_of d a ++ events_of d b.
Proof. apply filter_app. Qed.

Lemma events_of_about d ev : Forall (about d) ev -> events_of d ev = ev.
Proof.
  induction 1 as [| e ev He _ IH]; [reflexivity |].
  unfold events_of in *. simpl. unfold concerns at 1. rewrite He, Nat.eqb_refl.
  now rewrite IH.
Qed.

Lemma events_of_other d d' ev :
  Forall (about d') ev -> d <> d' -> events_of d ev = [].
Proof.
  intros H Hne. induction H as [| e ev He _ IH]; [reflexivity |].
  unfold events_of in *. simpl. unfold concerns at 1. rewrite He.
  destruct (Nat.eqb_spec d' d); [congruence | exact IH].
Qed.

Lemma events_of_outside d d0 n ev :
  Forall (in_batch d0 n) ev -> d < d0 \/ d0 + n <= d -> events_of d ev = [].
Proof.
  intros H Hd. induction H as [| e ev (x & Hx & Hr) _ IH]; [reflexivity |].
  unfold events_of in *. simpl. unfold concerns at 1. rewrite Hx.
  destruct (Nat.eqb_spec x d); [lia | exact IH].
Qed.

Lemma about_in_batch d d0 n ev :
  d0 <= d < d0 + n -> Forall (about d) ev -> Forall (in_batch d0 n) ev.
Proof.
  intros Hd H. eapply Forall_impl; [| exact H].
  intros e He. exists d. split; assumption.
Qed.

Lemma in_batch_widen d0 n ev :
  Forall (in_batch (S d0) n) ev -> Forall (in_batch d0 (S n)) ev.
Proof.
  apply Forall_impl. intros e (d & Hd & Hr). exists d. split; [exact Hd | lia].
Qed.

(** One step of one callback. *)
Lemma resume_spec d r i :
  1 <= i ->
  forall t ev, resume d r i (net d (RETRIES - i)) = (t, ev) ->
    ev ++ task_future d (r, t) = future d r i
    /\ task_result d (r, t) = outcome_from d i
    /\ task_weight (r, t) < i
    /\ task_wf (r, t)
    /\ Forall (about d) ev.
Proof.
  intros Hi t ev. destruct i as [| i']; [lia |].
  unfold resume, task_future, task_result, task_weight, task_wf.
  cbn [future outcome_from snd fst].
  destruct (net d (RETRIES - S i')) as [status |].
  - intros [= <- <-]. cbn. repeat split; [lia | repeat constructor].
  - destruct i' as [| i''].
    + cbn. intros [= <- <-]. cbn. repeat split; [lia | repeat constructor].
    + cbn. intros [= <- <-]. cbn [snd fst app].
      repeat split; [lia | lia | repeat constructor].
Qed.

Lemma weight_cons t ts : weight (t :: ts) = task_weight t + weight ts.
Proof. reflexivity. Qed.

(** One scheduling step of a batch. *)
Lemma settle_nth_spec ts : forall k d0 ts' ev,
  Forall task_wf ts ->
  settle_nth k d0 ts = (ts', ev) ->
  map fst ts' = map fst ts
  /\ results d0 ts' = results d0 ts
  /\ Forall task_wf ts'
  /\ Forall (in_batch d0 (length ts)) ev
  /\ (forall d, events_of d ev ++ futures d0 ts' d = futures d0 ts d)
  /\ weight ts' <= weight ts
  /\ (k < in_flight ts -> weight ts' < weight ts).
Proof.
  induction ts as [| [r t] rest IH]; intros k d0 ts' ev Hwf.
  - intros [= <- <-]. repeat split; auto; unfold in_flight; simpl; lia.
  - inversion Hwf as [| ? ? Hwt Hwr]; subst.
    cbn [settle_nth]. destruct t as [i | b].
    + destruct k as [| k'].
      * destruct (resume d0 r i (net d0 (RETRIES - i))) as [t' ev'] eqn:R.
        intros [= <- <-].
        destruct (resume_spec d0 r i Hwt t' ev' R)
          as (Hf & Hr & Hw & Hwf' & Hab).
        repeat split.
        -- cbn [results]. now rewrite Hr.
        -- constructor; assumption.
        -- eapply about_in_batch; [| exact Hab]. simpl. lia.
        -- intros d. cbn [futures]. destruct (Nat.eqb_spec d d0) as [-> |].
           ++ now rewrite (events_of_about _ _ Hab).
           ++ now rewrite (events_of_other _ _ _ Hab n).
        -- rewrite !weight_cons.
           change (task_weight (r, Awaiting i)) with i. lia.
        -- intros _. rewrite !weight_cons.
           change (task_weight (r, Awaiting i)) with i. lia.
      * destruct (settle_nth k' (S d0) rest) as [rest' ev'] eqn:St.
        intros [= <- <-].
        destruct (IH _ _ _ _ Hwr St) as (Hm & Hr & Hwf' & Hb & Hf & Hw & Hlt).
        repeat split.
        -- cbn [map]. now rewrite Hm.
        -- cbn [results]. now rewrite Hr.
        -- constructor; assumption.
        -- now apply in_batch_widen.
        -- intros d. cbn [futures]. destruct (Nat.eqb_spec d d0) as [-> |].
           ++ rewrite (events_of_outside d0 (S d0) (length rest) ev' Hb);
                [reflexivity | lia].
           ++ apply Hf.
        -- rewrite !weight_cons. lia.
        -- unfold in_flight. cbn [filter is_awaiting snd length].
           intros Hk. rewrite !weight_cons.
           unfold in_flight in Hlt. lia.
    + destruct (settle_nth k (S d0) rest) as [rest' ev'] eqn:St.
      intros [= <- <-].
      destruct (IH _ _ _ _ Hwr St) as (Hm & Hr & Hwf' & Hb & Hf & Hw & Hlt).
      repeat split.
      * cbn [map]. now rewrite Hm.
      * cbn [results]. now rewrite Hr.
      * constructor; assumption.
      * now apply in_batch_widen.
      * intros d. cbn [futures]. destruct (Nat.eqb_spec d d0) as [-> |].
        -- rewrite (events_of_outside d0 (S d0) (length rest) ev' Hb);
             [reflexivity | lia].
        -- apply Hf.
      * rewrite !weight_cons. lia.
      * unfold in_flight. cbn [filter is_awaiting snd length].
        intros Hk. rewrite !weight_cons.
        unfold in_flight in Hlt. lia.
Qed.

Lemma all_returned ts : forall d0,
  in_flight ts = 0 ->
  all_responses ts = Some (results d0 ts)
  /\ forall d, futures d0 ts d = [].
Proof.
  induction ts as [| [r t] rest IH]; intros d0 H.
  - split; reflexivity.
  - unfold in_flight in H. cbn [filter is_awaiting snd] in H.
    destruct t as [i | b]; [discriminate |].
    destruct (IH (S d0) H) as [Ha Hf]. split.
    + cbn [all_responses response_of snd results]. rewrite Ha. reflexivity.
    + intros d. cbn [futures]. destruct (d =? d0); [reflexivity | apply Hf].
Qed.

Lemma in_flight_weight ts :
  Forall task_wf ts -> 0 < in_flight ts -> 0 < weight ts.
Proof.
  induction 1 as [| [r t] rest Ht _ IH]; unfold in_flight; simpl; [lia |].
  rewrite weight_cons. destruct t as [i | b]; simpl.
  - unfold task_wf in Ht. simpl in Ht. unfold task_weight. simpl. lia.
  - intros H. apply IH in H. lia.
Qed.

(** Awaiting a batch: every callback returns, whatever the order in which
    the requests settle, and each destination's events are its own. *)
Lemma await_all_spec fuel : forall clock d0 ts,
  Forall task_wf ts ->
  weight ts <= fuel ->
  exists clock' evs,
    await_all fuel clock d0 ts = (Some (results d0 ts), clock', evs)
    /\ Forall (in_batch d0 (length ts)) evs
    /\ forall d, events_of d evs = futures d0 ts d.
Proof.
  induction fuel as [| fuel IH]; intros clock d0 ts Hwf Hw.
  - destruct (in_flight ts) eqn:F.
    + destruct (all_returned ts d0 F) as [Ha Hf].
      exists clock, []. cbn [await_all]. rewrite F, Ha.
      split; [reflexivity |]. split; [constructor |].
      intros d. now rewrite Hf.
    + pose proof (in_flight_weight ts Hwf ltac:(lia)). lia.
  - cbn [await_all]. destruct (in_flight ts) eqn:F.
    + destruct (all_returned ts d0 F) as [Ha Hf].
      exists clock, []. rewrite Ha.
      split; [reflexivity |]. split; [constructor |].
      intros d. now rewrite Hf.
    + destruct (settle_nth (sched clock mod S n) d0 ts) as [ts' ev] eqn:St.
      destruct (settle_nth_spec ts _ _ _ _ Hwf St)
        as (Hm & Hr & Hwf' & Hb & Hf & _ & Hlt).
      assert (Hk : sched clock mod S n < in_flight ts).
      { rewrite F. apply Nat.mod_upper_bound. lia. }
      specialize (Hlt Hk).
      destruct (IH (S clock) d0 ts' Hwf' ltac:(lia))
        as (clock' & evs & Ha & Hb' & Hf').
      rewrite Ha. exists clock', (ev ++ evs).
      assert (Hlen : length ts' = length ts).
      { rewrite <- (length_map fst ts'), Hm. apply length_map. }
      repeat split.
      * now rewrite Hr.
      * apply Forall_app. split; [exact Hb | now rewrite <- Hlen].
      * intros d. rewrite events_of_app, Hf'. apply Hf.
Qed.

Lemma start_all_spec batch : forall d0,
  start_all d0 batch
  = (map (fun r => (r, Awaiting RETRIES)) batch, first_fetches d0 batch).
Proof.
  induction batch as [| r rest IH]; intros d0; [reflexivity |].
  cbn [start_all]. rewrite IH. reflexivity.
Qed.

Lemma started_wf batch :
  Forall task_wf (map (fun r => (r, Awaiting RETRIES)) batch).
Proof.
  induction batch; constructor; [unfold task_wf, RETRIES; simpl; lia | auto].
Qed.

Lemma started_weight batch :
  weight (map (fun r => (r, Awaiting RETRIES)) batch)
  = RETRIES * length batch.
Proof.
  induction batch as [| r rest IH]; [reflexivity |].
  cbn [map]. rewrite weight_cons, IH. unfold task_weight. simpl. lia.
Qed.

Lemma started_results batch : forall d0,
  results d0 (map (fun r => (r, Awaiting RETRIES)) batch)
  = map delivered (seq d0 (length batch)).
Proof.
  induction batch as [| r rest IH]; intros d0; [reflexivity |].
  cbn [map results length seq]. now rewrite IH.
Qed.

Lemma started_futures batch : forall d0 j r,
  nth_error batch j = Some r ->
  futures d0 (map (fun r => (r, Awaiting RETRIES)) batch) (d0 + j)
  = future (d0 + j) r RETRIES.
Proof.
  induction batch as [| x rest IH]; intros d0 j r H.
  - destruct j; discriminate.
  - cbn [map futures]. destruct j as [| j].
    + injection H as ->. rewrite Nat.add_0_r, Nat.eqb_refl. reflexivity.
    + destruct (Nat.eqb_spec (d0 + S j) d0); [lia |].
      replace (d0 + S j) with (S d0 + j) by lia. now apply IH.
Qed.

Lemma first_fetches_in_batch batch : forall d0,
  Forall (in_batch d0 (length batch)) (first_fetches d0 batch).
Proof.
  induction batch as [| r rest IH]; intros d0; [constructor |].
  cbn [first_fetches length]. constructor.
  - exists d0. split; [reflexivity | lia].
  - apply in_batch_widen, IH.
Qed.

Lemma first_fetches_events batch : forall d0 j r,
  nth_error batch j = Some r ->
  events_of (d0 + j) (first_fetches d0 batch)
  = [EvFetch (d0 + j) (endpoint env) (send_body message r)].
Proof.
  induction batch as [| x rest IH]; intros d0 j r H.
  - destruct j; discriminate.
  - cbn [first_fetches]. unfold events_of. cbn [filter].
    unfold concerns at 1. cbn [event_dest]. destruct j as [| j].
    + injection H as ->. rewrite Nat.add_0_r, Nat.eqb_refl. f_equal.
      apply (events_of_outside d0 (S d0) (length rest)).
      * apply first_fetches_in_batch.
      * lia.
    + destruct (Nat.eqb_spec d0 (d0 + S j)); [lia |].
      replace (d0 + S j) with (S d0 + j) by lia. now apply IH.
Qed.

(** [Promise.all] over one batch. *)
Lemma promise_all_map_spec clock d0 batch :
  exists clock' w,
    promise_all_map clock d0 batch
    = (Some (map delivered (seq d0 (length batch))), clock', w)
    /\ is_wave d0 batch w
    /\ Forall (in_batch d0 (length batch)) w.
Proof.
  unfold promise_all_map. rewrite start_all_spec.
  destruct (await_all_spec (RETRIES * length batch) clock d0
              (map (fun r => (r, Awaiting RETRIES)) batch)
              (started_wf batch))
    as (clock' & evs & Ha & Hb & Hf).
  { now rewrite started_weight. }
  rewrite Ha, started_results. rewrite length_map in Hb.
  exists clock', (first_fetches d0 batch ++ evs). split; [reflexivity |].
  split.
  - exists evs. repeat split; [exact Hb |].
    intros j r Hj. rewrite events_of_app, Hf.
    rewrite (first_fetches_events batch d0 j r Hj).
    now rewrite (started_futures batch d0 j r Hj).
  - apply Forall_app. split; [apply first_fetches_in_batch | exact Hb].
Qed.

(* ================================================================== *)
(** ** The loop over the batches *)

Lemma slice_length i (regs : list Destination) :
  length (slice i (i + BATCH_SIZE) regs)
  = Nat.min BATCH_SIZE (length regs - i).
Proof.
  unfold slice. rewrite length_firstn, length_skipn.
  replace (i + BATCH_SIZE - i) with BATCH_SIZE by lia. reflexivity.
Qed.

Lemma slice_nth_error i j (regs : list Destination) :
  j < BATCH_SIZE ->
  nth_error (slice i (i + BATCH_SIZE) regs) j = nth_error regs (i + j).
Proof.
  intros Hj. unfold slice.
  replace (i + BATCH_SIZE - i) with BATCH_SIZE by lia.
  rewrite nth_error_firstn.
  destruct (Nat.ltb_spec j BATCH_SIZE); [| lia].
  apply nth_error_skipn.
Qed.

Lemma in_batch_mono d0 n d0' n' ev :
  (forall d, d0' <= d < d0' + n' -> d0 <= d < d0 + n) ->
  Forall (in_batch d0' n') ev -> Forall (in_batch d0 n) ev.
Proof.
  intros H. apply Forall_impl. intros e (d & Hd & Hr).
  exists d. split; [exact Hd | now apply H].
Qed.

Lemma filter_map_true (f : nat -> bool) l :
  length (filter (fun b : bool => b) (map f l)) = length (filter f l).
Proof.
  induction l as [| x l IH]; [reflexivity |].
  simpl. destruct (f x); simpl; now rewrite IH.
Qed.

Lemma seq_batch i n :
  i < n ->
  seq i (n - i)
  = seq i (Nat.min BATCH_SIZE (n - i))
      ++ seq (i + BATCH_SIZE) (n - (i + BATCH_SIZE)).
Proof.
  intros H. destruct (Nat.le_gt_cases BATCH_SIZE (n - i)) as [L | L].
  - rewrite Nat.min_l by exact L.
    replace (n - i) with (BATCH_SIZE + (n - (i + BATCH_SIZE))) at 1 by lia.
    apply seq_app.
  - rewrite Nat.min_r by lia.
    replace (n - (i + BATCH_SIZE)) with 0 by lia.
    simpl. now rewrite app_nil_r.
Qed.

(** The loop delivers batch after batch: its events are the waves of the
    batches one after the other, its result counts the destinations that
    are delivered, and each destination's events are those of its own
    retry loop. *)
Lemma batch_loop_spec regs fuel : forall i clock succeeded,
  length regs <= i + fuel ->
  exists clock' ws,
    batch_loop fuel i clock succeeded regs
    = (Some (succeeded
             + length (filter delivered (seq i (length regs - i)))),
       clock', List.concat ws)
    /\ Forall2 (fun b w => is_wave (fst b) (snd b) w)
         (batches_from fuel i regs) ws
    /\ Forall (in_batch i (length regs - i)) (List.concat ws)
    /\ forall d r, i <= d -> nth_error regs d = Some r ->
         events_of d (List.concat ws) = script d r.
Proof.
  induction fuel as [| fuel IH]; intros i clock succeeded Hfuel.
  - cbn [batch_loop batches_from].
    destruct (Nat.ltb_spec i (length regs)) as [L | L]; [lia |].
    exists clock, []. replace (length regs - i) with 0 by lia.
    cbn. rewrite Nat.add_0_r. repeat split; try constructor.
    intros d r Hd Hr.
    assert (d < length regs) by (apply nth_error_Some; congruence). lia.
  - cbn [batch_loop batches_from].
    destruct (Nat.ltb_spec i (length regs)) as [L | L].
    + destruct (promise_all_map_spec clock i
                  (slice i (i + BATCH_SIZE) regs))
        as (clock1 & w & Hp & Hw & Hb).
      rewrite Hp.
      destruct (IH (i + BATCH_SIZE) clock1
                  (succeeded
                   + length (filter (fun b : bool => b)
                               (map delivered
                                  (seq i (length
                                     (slice i (i + BATCH_SIZE) regs))))))
                  ltac:(unfold BATCH_SIZE; lia))
        as (clock2 & ws & Hl & Hws & Hbs & Hev).
      rewrite Hl. exists clock2, (w :: ws).
      rewrite slice_length in *. cbn [List.concat].
      split; [| split; [| split]].
      * rewrite filter_map_true, (seq_batch i (length regs) L).
        rewrite filter_app, length_app, Nat.add_assoc. reflexivity.
      * constructor; assumption.
      * apply Forall_app. split.
        -- eapply in_batch_mono; [| exact Hb]. unfold BATCH_SIZE. lia.
        -- eapply in_batch_mono; [| exact Hbs]. unfold BATCH_SIZE. lia.
      * intros d r Hd Hr. rewrite events_of_app.
        destruct (Nat.lt_ge_cases d (i + BATCH_SIZE)) as [Hlt | Hge].
        -- rewrite (events_of_outside d _ _ _ Hbs) by (unfold BATCH_SIZE in *; lia).
           rewrite app_nil_r.
           destruct Hw as (rest & Hwe & _ & Hs).
           replace d with (i + (d - i)) by lia. apply Hs.
           rewrite slice_nth_error by (unfold BATCH_SIZE in *; lia).
           now replace (i + (d - i)) with d by lia.
        -- rewrite (events_of_outside d _ _ _ Hb) by (unfold BATCH_SIZE in *; lia).
           now apply Hev.
    + exists clock, []. replace (length regs - i) with 0 by lia.
      cbn. rewrite Nat.add_0_r. repeat split; try constructor.
      intros d r Hd Hr.
    assert (d < length regs) by (apply nth_error_Some; congruence). lia.
Qed.

(* ================================================================== *)
(** ** The retry loop of one destination *)

Lemma script_cases d r :
  match net d 0, net d 1, net d 2 with
  | Responded s, _, _ =>
      script d r = [EvFetch d (endpoint env) (send_body message r);
                    EvLog d s]
      /\ delivered d = true
  | NetworkError, Responded s, _ =>
      script d r = [EvFetch d (endpoint env) (send_body message r);
                    EvFetch d (endpoint env) (send_body message r);
                    EvLog d s]
      /\ delivered d = true
  | NetworkError, NetworkError, Responded s =>
      script d r = [EvFetch d (endpoint env) (send_body message r);
                    EvFetch d (endpoint env) (send_body message r);
                    EvFetch d (endpoint env) (send_body message r);
                    EvLog d s]
      /\ delivered d = true
  | NetworkError, NetworkError, NetworkError =>
      script d r = [EvFetch d (endpoint env) (send_body message r);
                    EvFetch d (endpoint env) (send_body message r);
                    EvFetch d (endpoint env) (send_body message r);
                    EvError d]
      /\ delivered d = false
  end.
Proof.
  unfold script, delivered, RETRIES.
  cbn [future outcome_from]. unfold RETRIES. cbn [Nat.sub].
  destruct (net d 0), (net d 1), (net d 2); split; reflexivity.
Qed.

Lemma script_fetch_count d r :
  1 <= fetch_count (script d r) <= RETRIES.
Proof.
  pose proof (script_cases d r) as H. unfold RETRIES.
  destruct (net d 0), (net d 1), (net d 2); destruct H as [-> _];
    cbn; lia.
Qed.

Lemma script_logged d r :
  existsb is_log (script d r) = delivered d.
Proof.
  pose proof (script_cases d r) as H.
  destruct (net d 0), (net d 1), (net d 2); destruct H as [-> ->];
    reflexivity.
Qed.

(** The loop stops at the first call that completes. *)
Lemma script_first_success d r k status :
  k < RETRIES ->
  (forall j, j < k -> net d j = NetworkError) ->
  net d k = Responded status ->
  fetch_count (script d r) = S k
  /\ last (script d r) EvJson = EvLog d status
  /\ delivered d = true.
Proof.
  intros Hk Hfail Hok. pose proof (script_cases d r) as H.
  unfold RETRIES in Hk.
  destruct k as [| [| [| k]]]; [| | | lia].
  - rewrite Hok in H. destruct H as [-> ->]. repeat split.
  - rewrite (Hfail 0 ltac:(lia)), Hok in H. destruct H as [-> ->].
    repeat split.
  - rewrite (Hfail 0 ltac:(lia)), (Hfail 1 ltac:(lia)), Hok in H.
    destruct H as [-> ->]. repeat split.
Qed.

(** After three failed calls the loop gives up. *)
Lemma script_all_failed d r :
  (forall k, k < RETRIES -> net d k = NetworkError) ->
  fetch_count (script d r) = RETRIES
  /\ last (script d r) EvJson = EvError d
  /\ delivered d = false.
Proof.
  intros Hfail. pose proof (script_cases d r) as H. unfold RETRIES in *.
  rewrite (Hfail 0 ltac:(lia)), (Hfail 1 ltac:(lia)), (Hfail 2 ltac:(lia))
    in H.
  destruct H as [-> ->]. repeat split.
Qed.

(** A second call is made only after a failed first one. *)
Lemma script_retry d r :
  2 <= fetch_count (script d r) <-> net d 0 = NetworkError.
Proof.
  pose proof (script_cases d r) as H.
  destruct (net d 0), (net d 1), (net d 2); destruct H as [-> _];
    cbn; split; intros; try reflexivity; try discriminate; lia.
Qed.

End Delivery.

(* ================================================================== *)
(** ** The partition into batches *)

Lemma batches_from_nth_error regs fuel : forall i k,
  length regs <= i + fuel ->
  nth_error (batches_from fuel i regs) k
  = if i + k * BATCH_SIZE <? length regs
    then Some (i + k * BATCH_SIZE,
               firstn BATCH_SIZE (skipn (i + k * BATCH_SIZE) regs))
    else None.
Proof.
  induction fuel as [| fuel IH]; intros i k Hfuel; cbn [batches_from].
  - destruct (Nat.ltb_spec (i + k * BATCH_SIZE) (length regs)); [lia |].
    now destruct k.
  - destruct (Nat.ltb_spec i (length regs)) as [L | L].
    + destruct k as [| k].
      * cbn [nth_error Nat.mul]. rewrite Nat.add_0_r.
        destruct (Nat.ltb_spec i (length regs)); [| lia].
        unfold slice. now replace (i + BATCH_SIZE - i) with BATCH_SIZE by lia.
      * cbn [nth_error]. rewrite IH by (unfold BATCH_SIZE; lia).
        replace (i + BATCH_SIZE + k * BATCH_SIZE) with (i + S k * BATCH_SIZE)
          by lia.
        reflexivity.
    + destruct (Nat.ltb_spec (i + k * BATCH_SIZE) (length regs)); [lia |].
      now destruct k.
Qed.

Lemma batches_from_concat regs fuel : forall i,
  length regs <= i + fuel ->
  List.concat (map snd (batches_from fuel i regs)) = skipn i regs.
Proof.
  induction fuel as [| fuel IH]; intros i Hfuel; cbn [batches_from].
  - simpl. symmetry. apply skipn_all2. lia.
  - destruct (Nat.ltb_spec i (length regs)) as [L | L].
    + cbn [map snd List.concat]. rewrite IH by (unfold BATCH_SIZE; lia).
      unfold slice. replace (i + BATCH_SIZE - i) with BATCH_SIZE by lia.
      rewrite Nat.add_comm, <- skipn_skipn. apply firstn_skipn.
    + simpl. symmetry. apply skipn_all2. lia.
Qed.

Lemma batches_from_sizes regs fuel : forall i,
  Forall (fun b => 1 <= length (snd b) <= BATCH_SIZE)
    (batches_from fuel i regs).
Proof.
  induction fuel as [| fuel IH]; intros i; cbn [batches_from];
    [constructor |].
  destruct (Nat.ltb_spec i (length regs)) as [L | L]; [| constructor].
  constructor; [| apply IH].
  cbn [snd]. rewrite slice_length. unfold BATCH_SIZE. lia.
Qed.

Lemma batches_of_25 (regs : list Destination) :
  length regs = 25 ->
  map (fun b => (fst b, length (snd b))) (batches regs)
  = [(0, 10); (10, 10); (20, 5)].
Proof.
  intros H.
  assert (E : batches regs
              = [(0, slice 0 (0 + BATCH_SIZE) regs);
                 (10, slice 10 (10 + BATCH_SIZE) regs);
                 (20, slice 20 (20 + BATCH_SIZE) regs)]).
  { apply nth_error_ext. intros k. unfold batches.
    rewrite batches_from_nth_error by lia. rewrite H. unfold slice.
    destruct k as [| [| [| k]]]; try reflexivity.
    destruct (Nat.ltb_spec (0 + S (S (S k)) * BATCH_SIZE) 25) as [L | L];
      [unfold BATCH_SIZE in L; lia | now destruct k]. }
  rewrite E. cbn [map fst snd]. rewrite !slice_length, H. reflexivity.
Qed.

(* ================================================================== *)
(** ** The handler *)

Section Notify.

Variable removeMarkdown : option jsstring -> jsstring.
Variable net : nat -> nat -> fetch_result.
Variable sched : nat -> nat.
Variable env : Env.

Local Abbreviation notify := (notify removeMarkdown net sched env).
Local Abbreviation accepted := (accepted removeMarkdown env).

Lemma db_all_select c d db :
  db_all (SelectDestinations c d) db = (db, lookup c d db).
Proof. reflexivity. Qed.

(** A request that passes the checks is answered after the fan-out. *)
Lemma notify_accepted request db chainId dao message :
  accepted request chainId dao message ->
  exists ws,
    notify request db
    = (Some (respond 200
               (SuccessBody true
                  (delivered_count net (length (lookup chainId dao db))))),
       db,
       [EvJson; EvQuery (SelectDestinations chainId dao)] ++ List.concat ws)
    /\ Forall2 (fun b w => is_wave net env message (fst b) (snd b) w)
         (batches (lookup chainId dao db)) ws
    /\ Forall (in_batch 0 (length (lookup chainId dao db))) (List.concat ws)
    /\ forall d r, nth_error (lookup chainId dao db) d = Some r ->
         events_of d (List.concat ws) = script net env message d r.
Proof.
  intros (Hc & Hd & p & Hj & Hk & Ht & Hne).
  destruct (batch_loop_spec net sched env message (lookup chainId dao db)
              (length (lookup chainId dao db)) 0 0 0 ltac:(lia))
    as (clock' & ws & Hl & Hws & Hb & Hev).
  exists ws. unfold notify. rewrite Hc, Hd, Hj, Hk, Ht. cbn [negb].
  destruct message as [| c0 m0]; [congruence |].
  rewrite db_all_select, Hl. rewrite Nat.sub_0_r in *.
  cbn [option_map]. repeat split; try assumption.
  intros d r Hr. apply Hev; [lia | exact Hr].
Qed.

Lemma events_of_notify_prefix d q evs :
  events_of d ([EvJson; EvQuery q] ++ evs) = events_of d evs.
Proof. reflexivity. Qed.

Lemma fetch_count_prefix q evs :
  fetch_count ([EvJson; EvQuery q] ++ evs) = fetch_count evs.
Proof. reflexivity. Qed.

Lemma invalid_type_text p sd :
  invalid_type p ->
  text_of (nullish (type_ p) (NotifyType_value ProposalCreated)) p sd
  = Some [].
Proof.
  intros H. unfold text_of.
  repeat match goal with
         | |- context [jsstring_eqb ?a (NotifyType_value ?t)] =>
             let E := fresh "E" in
             destruct (jsstring_eqb a (NotifyType_value t)) eqn:E;
             [apply jsstring_eqb_eq in E; now apply H in E |]
         end.
  reflexivity.
Qed.

(** Every request is either turned away before the lookup or accepted. *)
Lemma notify_rejected_or_accepted request db :
  (exists chainId dao message, accepted request chainId dao message)
  \/ (exists o evs,
        notify request db = (Some o, db, evs)
        /\ (evs = [] \/ evs = [EvJson])).
Proof.
  unfold accepted, notify.
  destruct (truthy_value (param_chainId request)) as [c |];
    [| right; eauto].
  destruct (truthy_value (param_dao request)) as [d |]; [| right; eauto].
  destruct (json request) as [p |]; [| right; eauto].
  destruct (strict_eq (apiKey p) (NOTIFY_API_KEY env)) eqn:K;
    [| right; cbn [negb]; eauto].
  cbn [negb].
  destruct (text_of (nullish (type_ p) (NotifyType_value ProposalCreated)) p
              (sanitize removeMarkdown (proposalDescription p)))
    as [[| c0 m] |] eqn:T; [right; eauto | | right; eauto].
  left. exists c, d, (c0 :: m). repeat split.
  exists p. repeat split; try assumption. discriminate.
Qed.

(** The handler always returns. *)
Lemma notify_returns request db :
  response_of_notify (notify request db) <> None.
Proof.
  destruct (notify_rejected_or_accepted request db)
    as [(c & d & m & Ha) | (o & evs & -> & _)]; [| discriminate].
  destruct (notify_accepted request db c d m Ha) as (ws & -> & _).
  discriminate.
Qed.

(** ** Counting calls of [fetch] destination by destination *)

Lemma list_sum_cons x l : list_sum (x :: l) = x + list_sum l.
Proof. reflexivity. Qed.

Lemma list_sum_zero {A} (l : list A) : list_sum (map (fun _ => 0) l) = 0.
Proof.
  induction l as [| x l IH]; [reflexivity |].
  cbn [map]. now rewrite list_sum_cons, IH.
Qed.

Lemma list_sum_map_add (f g : nat -> nat) l :
  list_sum (map (fun d => f d + g d) l)
  = list_sum (map f l) + list_sum (map g l).
Proof.
  induction l as [| x l IH]; [reflexivity |].
  cbn [map]. rewrite !list_sum_cons, IH. lia.
Qed.

Lemma list_sum_indicator d0 start n :
  list_sum (map (fun d => if d0 =? d then 1 else 0) (seq start n))
  = if (start <=? d0) && (d0 <? start + n) then 1 else 0.
Proof.
  revert start. induction n as [| n IH]; intros start.
  - simpl. destruct (Nat.leb_spec start d0), (Nat.ltb_spec d0 (start + 0));
      simpl; lia.
  - cbn [seq map]. rewrite list_sum_cons, IH.
    destruct (Nat.eqb_spec d0 start), (Nat.leb_spec (S start) d0),
      (Nat.ltb_spec d0 (S start + n)), (Nat.leb_spec start d0),
      (Nat.ltb_spec d0 (start + S n)); simpl; lia.
Qed.

Lemma fetch_count_cons e evs :
  fetch_count (e :: evs) = (if is_fetch e then 1 else 0) + fetch_count evs.
Proof. unfold fetch_count. simpl. now destruct (is_fetch e). Qed.

Lemma fetch_count_by_destination n evs :
  Forall (in_batch 0 n) evs ->
  fetch_count evs
  = list_sum (map (fun d => fetch_count (events_of d evs)) (seq 0 n)).
Proof.
  induction 1 as [| e evs (d0 & Hd & Hr) _ IH].
  - symmetry. apply (list_sum_zero (seq 0 n)).
  - rewrite fetch_count_cons, IH.
    rewrite (map_ext
               (fun d => fetch_count (events_of d (e :: evs)))
               (fun d => (if d0 =? d then if is_fetch e then 1 else 0 else 0)
                         + fetch_count (events_of d evs))).
    + rewrite list_sum_map_add. f_equal.
      destruct (is_fetch e).
      * rewrite list_sum_indicator.
        destruct (Nat.leb_spec 0 d0), (Nat.ltb_spec d0 (0 + n)); simpl; lia.
      * rewrite (map_ext _ (fun _ => 0)); [now rewrite list_sum_zero |].
        intros d. now destruct (d0 =? d).
    + intros d. unfold events_of. cbn [filter]. unfold concerns at 1.
      rewrite Hd. destruct (d0 =? d).
      * apply fetch_count_cons.
      * reflexivity.
Qed.

Lemma list_sum_ones (l : list nat) (f : nat -> nat) :
  (forall d, In d l -> f d = 1) -> list_sum (map f l) = length l.
Proof.
  induction l as [| x l IH]; intros H; [reflexivity |].
  cbn [map length]. rewrite list_sum_cons, IH, (H x).
  - reflexivity.
  - now left.
  - intros d Hd. apply H. now right.
Qed.

(** ** The claims on the dispatcher *)

Lemma delivered_count_logged message regs evs :
  (forall d r, nth_error regs d = Some r ->
     events_of d evs = script net env message d r) ->
  length (filter (fun d => existsb is_log (events_of d evs))
            (seq 0 (length regs)))
  = delivered_count net (length regs).
Proof.
  intros H. unfold delivered_count. f_equal. apply filter_ext_in.
  intros d Hd. apply in_seq in Hd.
  destruct (nth_error regs d) as [r |] eqn:E.
  - rewrite (H d r E). apply script_logged.
  - apply nth_error_None in E. lia.
Qed.




(** C3.  For every destination the events of the fan-out are those of its
    own retry loop, whatever happens to the other destinations: between 1
    and 3 calls of [fetch]; the calls stop at the first one that completes,
    and the destination is then counted; after three failed calls the
    failure is logged and the destination is not counted.  The count of
    the response is the number of destinations whose loop succeeded, and
    when every first call completes [fetch] is called once per
    registration. *)
Theorem retry_budget request db chainId dao message :
  accepted request chainId dao message ->
  let regs := lookup chainId dao db in
  let evs := events_of_notify (notify request db) in
  (forall d dest, nth_error regs d = Some dest ->
     events_of d evs = script net env message d dest
     /\ 1 <= fetch_count (events_of d evs) <= RETRIES
     /\ (forall k status,
           k < RETRIES ->
           (forall j, j < k -> net d j = NetworkError) ->
           net d k = Responded status ->
           fetch_count (events_of d evs) = S k
           /\ last (events_of d evs) EvJson = EvLog d status
           /\ delivered net d = true)
     /\ ((forall k, k < RETRIES -> net d k = NetworkError) ->
         fetch_count (events_of d evs) = RETRIES
         /\ last (events_of d evs) EvJson = EvError d
         /\ delivered net d = false))
  /\ response_of_notify (notify request db)
     = Some (Respond 200
               (SuccessBody true
                  (length (filter (delivered net) (seq 0 (length regs))))))
  /\ ((forall d, d < length regs -> exists status,
         net d 0 = Responded status) ->
      fetch_count evs = length regs
      /\ length (filter (delivered net) (seq 0 (length regs)))
         = length regs).
Proof.
  intros Ha regs evs. subst regs evs.
  destruct (notify_accepted request db chainId dao message Ha)
    as (ws & -> & Hws & Hb & Hev).
  cbn [response_of_notify events_of_notify fst snd].
  split; [| split; [reflexivity |]].
  - intros d dest Hd. rewrite events_of_notify_prefix, (Hev d dest Hd).
    split; [reflexivity |]. split; [apply script_fetch_count |]. split.
    + intros k status. apply script_first_success.
    + apply script_all_failed.
  - intros Hok. rewrite fetch_count_prefix. split.
    + rewrite (fetch_count_by_destination _ _ Hb).
      rewrite list_sum_ones, length_seq; [reflexivity |].
      intros d Hin. apply in_seq in Hin.
      destruct (nth_error (lookup chainId dao db) d) as [dest |] eqn:E.
      * rewrite (Hev d dest E).
        destruct (Hok d ltac:(lia)) as [status Hs].
        apply (script_first_success net env message d dest 0 status);
          [unfold RETRIES; lia | intros j Hj; lia | exact Hs].
      * apply nth_error_None in E. lia.
    + rewrite forallb_filter_id; [apply length_seq |].
      apply forallb_forall.
      intros d Hin. apply in_seq in Hin.
      destruct (Hok d ltac:(lia)) as [status Hs].
      unfold delivered, RETRIES. cbn [outcome_from].
      unfold RETRIES. cbn [Nat.sub]. now rewrite Hs.
Qed.

(** C4.  The events of the fan-out are, after the parse and the lookup,
    the waves of the batches in turn.  The batches are the registrations
    in the order of the lookup, cut into consecutive runs of 10, the last
    one possibly shorter.  A wave starts with one call of [fetch] for each
    destination of its batch, made before any of them settles; it holds
    events of these destinations only, and the whole retry loop of each of
    them, so that a batch is done before the next one starts.  For 25
    registrations there are three waves, of 10, 10 and 5 destinations. *)
Theorem fan_out_in_batches request db chainId dao message :
  accepted request chainId dao message ->
  let regs := lookup chainId dao db in
  exists ws,
    events_of_notify (notify request db)
    = [EvJson; EvQuery (SelectDestinations chainId dao)] ++ List.concat ws
    /\ Forall2 (fun b w => is_wave net env message (fst b) (snd b) w)
         (batches regs) ws
    /\ List.concat (map snd (batches regs)) = regs
    /\ (forall k,
          nth_error (batches regs) k
          = if k * BATCH_SIZE <? length regs
            then Some (k * BATCH_SIZE,
                       firstn BATCH_SIZE (skipn (k * BATCH_SIZE) regs))
            else None)
    /\ Forall (fun b => 1 <= length (snd b) <= BATCH_SIZE) (batches regs)
    /\ (length regs = 25 ->
        map (fun b => (fst b, length (snd b))) (batches regs)
        = [(0, 10); (10, 10); (20, 5)]).
Proof.
  intros Ha regs. subst regs.
  destruct (notify_accepted request db chainId dao message Ha)
    as (ws & -> & Hws & Hb & Hev).
  exists ws. cbn [events_of_notify snd].
  split; [reflexivity |]. split; [exact Hws |]. split; [| split; [| split]].
  - unfold batches. rewrite batches_from_concat by lia. reflexivity.
  - intros k. unfold batches. rewrite batches_from_nth_error by lia.
    reflexivity.
  - apply batches_from_sizes.
  - apply batches_of_25.
Qed.

(** C9.  A call of [fetch] that completes ends the loop of its destination
    with success, whatever the status code of the response; only a failed
    call is followed by another one; a destination is left out of the
    count only when all three calls failed.  The count is therefore the
    number of destinations with a completed exchange. *)
Theorem completed_exchange_counts request db chainId dao message :
  accepted request chainId dao message ->
  let regs := lookup chainId dao db in
  let evs := events_of_notify (notify request db) in
  (forall d dest, nth_error regs d = Some dest ->
     (forall status, net d 0 = Responded status ->
        events_of d evs
        = [EvFetch d (endpoint env) (send_body message dest); EvLog d status]
        /\ delivered net d = true)
     /\ (2 <= fetch_count (events_of d evs) <-> net d 0 = NetworkError)
     /\ existsb is_log (events_of d evs) = delivered net d
     /\ (delivered net d = false <->
         forall k, k < RETRIES -> net d k = NetworkError))
  /\ response_of_notify (notify request db)
     = Some (Respond 200
               (SuccessBody true
                  (length (filter (fun d => existsb is_log (events_of d evs))
                             (seq 0 (length regs)))))).
Proof.
  intros Ha regs evs. subst regs evs.
  destruct (notify_accepted request db chainId dao message Ha)
    as (ws & -> & Hws & Hb & Hev).
  cbn [response_of_notify events_of_notify fst snd]. split.
  - intros d dest Hd. rewrite events_of_notify_prefix, (Hev d dest Hd).
    split; [| split; [apply script_retry | split; [apply script_logged |]]].
    + intros status Hs.
      pose proof (script_cases net env message d dest) as H.
      rewrite Hs in H. exact H.
    + pose proof (script_cases net env message d dest) as H. split.
      * intros Hf k Hk. unfold RETRIES in Hk.
        destruct (net d 0) eqn:E0, (net d 1) eqn:E1, (net d 2) eqn:E2;
          destruct H as [_ H]; try congruence.
        destruct k as [| [| [| k]]]; [| | | lia]; assumption.
      * intros Hf. unfold RETRIES in Hf.
        rewrite (Hf 0 ltac:(lia)), (Hf 1 ltac:(lia)), (Hf 2 ltac:(lia)) in H.
        apply H.
  - rewrite (delivered_count_logged message); [reflexivity |].
    intros d r Hr. rewrite events_of_notify_prefix. now apply Hev.
Qed.

(** C6.  With both path parameters present and a parsed payload whose key
    is not the configured one, the answer is 401 [Invalid API key.]; the
    payload has been parsed, the store has not been queried, and no call
    of [fetch] is made, whatever the table holds. *)
Theorem invalid_key_rejected request db chainId dao p :
  truthy_value (param_chainId request) = Some chainId ->
  truthy_value (param_dao request) = Some dao ->
  json request = Some p ->
  strict_eq (apiKey p) (NOTIFY_API_KEY env) = false ->
  notify request db
  = (Some (Respond 401 (ErrorBody (lit "Invalid API key."))), db, [EvJson]).
Proof.
  intros Hc Hd Hj Hk. unfold notify. rewrite Hc, Hd, Hj, Hk. reflexivity.
Qed.

(** C5, as amended.  A request whose type, after the default, names none
    of the four notification types never reaches the lookup or a call of
    [fetch], and leaves the table as it is; when its path parameters are
    present and its key is the configured one, the answer is 400
    [Invalid notification type.]. *)
Theorem invalid_type_rejected request db p :
  json request = Some p ->
  invalid_type p ->
  Forall (fun e => is_query e = false /\ is_fetch e = false)
    (events_of_notify (notify request db))
  /\ database_after (notify request db) = db
  /\ (forall chainId dao,
        truthy_value (param_chainId request) = Some chainId ->
        truthy_value (param_dao request) = Some dao ->
        strict_eq (apiKey p) (NOTIFY_API_KEY env) = true ->
        response_of_notify (notify request db)
        = Some (Respond 400 (ErrorBody (lit "Invalid notification type.")))).
Proof.
  intros Hj Hi. unfold notify. rewrite Hj.
  rewrite (invalid_type_text p _ Hi).
  destruct (truthy_value (param_chainId request)) as [c |];
    [| repeat split; [constructor | discriminate]].
  destruct (truthy_value (param_dao request)) as [d |];
    [| repeat split; [constructor | discriminate]].
  destruct (strict_eq (apiKey p) (NOTIFY_API_KEY env)); cbn [negb].
  - repeat split; repeat constructor.
  - repeat split; repeat constructor. discriminate.
Qed.

(** C8.  Whatever the request and whatever the outcome of the calls of
    [fetch], the table after [notify] is the table before it, and the only
    statement sent to the store is the [SELECT] of the lookup. *)
Theorem store_read_only request db :
  database_after (notify request db) = db
  /\ Forall (fun e => forall s, e = EvQuery s -> is_select s = true)
       (events_of_notify (notify request db)).
Proof.
  destruct (notify_rejected_or_accepted request db)
    as [(c & d & m & Ha) | (o & evs & -> & Hevs)].
  - destruct (notify_accepted request db c d m Ha) as (ws & -> & _ & Hb & _).
    cbn [database_after events_of_notify fst snd]. split; [reflexivity |].
    apply Forall_app. split.
    + repeat constructor; intros s [=]. now subst s.
    + eapply Forall_impl; [| exact Hb].
      intros e (x & Hx & _) s ->. discriminate.
  - cbn [database_after events_of_notify fst snd]. split; [reflexivity |].
    destruct Hevs as [-> | ->]; repeat constructor. intros s [=].
Qed.

End Notify.

(* ================================================================== *)
(** ** Identifiers: from the stored string to the number sent *)

Lemma whitespace_cases c :
  is_whitespace c = true ->
  (9 <= c <= 13 \/ c = 32 \/ 160 <= c)%N.
Proof.
  unfold is_whitespace. rewrite orb_true_iff, andb_true_iff.
  intros [H | [H _]].
  - apply existsb_exists in H as (x & Hin & Hx). apply N.eqb_eq in Hx.
    subst x. simpl in Hin. lia.
  - apply N.leb_le in H. lia.
Qed.

Lemma decimal_unit_not_whitespace c :
  (c = 45 \/ 48 <= c <= 57)%N -> is_whitespace c = false.
Proof.
  intros H. destruct (is_whitespace c) eqn:E; [| reflexivity].
  apply whitespace_cases in E. lia.
Qed.

Lemma trim_no_whitespace s :
  Forall (fun c => is_whitespace c = false) s -> trim s = s.
Proof.
  intros H.
  assert (K : forall l, Forall (fun c => is_whitespace c = false) l ->
                trimStart l = l).
  { intros l Hl. destruct Hl as [| c l Hc _]; [reflexivity |].
    simpl. now rewrite Hc. }
  unfold trim, trimEnd. rewrite (K s H), K.
  - apply rev_involutive.
  - now apply Forall_rev.
Qed.

Lemma digits_of_units fuel : forall n,
  Forall (fun c => (48 <= c <= 57)%N) (digits_of fuel n).
Proof.
  induction fuel as [| fuel IH]; intros n; cbn [digits_of]; [constructor |].
  destruct (N.ltb_spec n 10).
  - clear IH. constructor; [cbv beta; lia | constructor].
  - apply Forall_app. split; [apply IH |]. clear IH.
    assert (Hm : (n mod 10 < 10)%N) by (apply N.mod_upper_bound; lia).
    revert Hm. generalize (n mod 10)%N. intros m Hm.
    constructor; [cbv beta; lia | constructor].
Qed.

Lemma digits_value_app a : forall acc c,
  digits_value acc (a ++ [c])
  = match digits_value acc a with
    | Some v => match digit_value c with
                | Some d => Some (10 * v + d)%Z
                | None => None
                end
    | None => None
    end.
Proof.
  induction a as [| x a IH]; intros acc c; simpl.
  - now destruct (digit_value c).
  - destruct (digit_value x); [apply IH | reflexivity].
Qed.

Lemma digit_value_of n :
  (n < 10)%N -> digit_value (48 + n) = Some (Z.of_N n).
Proof.
  intros H. unfold digit_value.
  destruct (N.leb_spec 48 (48 + n)); [| lia].
  destruct (N.leb_spec (48 + n) 57); [| lia].
  cbn [andb]. f_equal. lia.
Qed.

Lemma log2_tenth n :
  (10 <= n)%N -> (N.log2 (n / 10) < N.log2 n)%N.
Proof.
  intros H.
  assert (H1 : (n / 10 <= n / 2)%N).
  { apply N.div_le_compat_l. lia. }
  assert (H2 : (0 < n / 2)%N).
  { apply N.div_str_pos. lia. }
  assert (H3 : (2 * (n / 2) <= n)%N).
  { apply N.Div0.mul_div_le. }
  pose proof (N.log2_le_mono _ _ H1) as L1.
  pose proof (N.log2_le_mono _ _ H3) as L2.
  rewrite (N.log2_double _ H2) in L2. lia.
Qed.

Lemma digits_of_value fuel : forall n,
  N.to_nat (N.log2 n) < fuel ->
  digits_value 0 (digits_of fuel n) = Some (Z.of_N n).
Proof.
  induction fuel as [| fuel IH]; intros n Hf; [lia |].
  cbn [digits_of]. destruct (N.ltb_spec n 10) as [L | L].
  - cbn [digits_value]. rewrite (digit_value_of n L). f_equal; lia.
  - rewrite digits_value_app, IH.
    + rewrite digit_value_of by (apply N.mod_upper_bound; lia).
      f_equal. rewrite (N.div_mod n 10) at 3 by lia. lia.
    + pose proof (log2_tenth n L). lia.
Qed.

Lemma round_to_double_exact v :
  (0 <= v <= 2 ^ 53)%Z -> round_to_double v = v.
Proof.
  intros [H0 H1].
  destruct (Z.eq_dec v (2 ^ 53)) as [-> | Hne]; [vm_compute; reflexivity |].
  assert (E : Z.max 0 (Z.log2 (Z.abs v) - 52) = 0%Z).
  { rewrite Z.abs_eq by exact H0.
    destruct (Z.eq_dec v 0) as [-> | Hv]; [reflexivity |].
    assert (Z.log2 v < 53)%Z by (apply Z.log2_lt_pow2; lia). lia. }
  unfold round_to_double. rewrite E. rewrite Z.abs_eq by exact H0.
  change (2 ^ 0)%Z with 1%Z. rewrite Z.div_1_r, Z.mod_1_r.
  cbn [Z.mul Z.ltb Z.compare]. rewrite Z.mul_1_r.
  destruct (Z.eq_dec v 0) as [-> | Hv]; [reflexivity |].
  rewrite Z.sgn_pos by lia. lia.
Qed.

Lemma Number_of_digits (sign : bool) ds v :
  ds <> [] ->
  Forall (fun c => (48 <= c <= 57)%N) ds ->
  digits_value 0 ds = Some v ->
  (0 <= v <= 2 ^ 53)%Z ->
  Number_ (if sign then 45%N :: ds else ds)
  = Int (if sign then (- v)%Z else v).
Proof.
  intros Hne Hd Hv Hr.
  assert (Hw : Forall (fun c => is_whitespace c = false) ds).
  { eapply Forall_impl; [| exact Hd]. intros c Hc.
    apply decimal_unit_not_whitespace. now right. }
  assert (Hlt : (round_to_double v <? 2 ^ 1024)%Z = true).
  { rewrite (round_to_double_exact v Hr). apply Z.ltb_lt.
    apply Z.le_lt_trans with (2 ^ 53)%Z; [lia |].
    apply Z.pow_lt_mono_r; lia. }
  destruct ds as [| c r]; [congruence |].
  destruct sign; unfold Number_.
  - rewrite trim_no_whitespace by (constructor; [reflexivity | exact Hw]).
    cbn [N.eqb Pos.eqb]. rewrite Hv, Hlt, (round_to_double_exact v Hr).
    f_equal; lia.
  - rewrite trim_no_whitespace by exact Hw.
    inversion Hd as [| ? ? Hc _]; subst.
    destruct (N.eqb_spec c 45); [lia |]. destruct (N.eqb_spec c 43); [lia |].
    rewrite Hv, Hlt, (round_to_double_exact v Hr). f_equal; lia.
Qed.

(** C10, as amended.  For every identifier of absolute value at most 2^53,
    the number that [Number] makes of the string the store holds for it is
    the identifier itself: so are the [chat_id] and, when there is a
    thread, the [message_thread_id] of the body sent; with no thread the
    field is left out. *)
Theorem identifier_preserved message chat thread :
  (Z.abs chat <= 2 ^ 53)%Z ->
  (forall t, thread = Some t -> (Z.abs t <= 2 ^ 53)%Z) ->
  let dest := {| chatId := BigInt_toString chat;
                 messageThreadId := option_map BigInt_toString thread |} in
  Number_ (BigInt_toString chat) = Int chat
  /\ chat_id (send_body message dest) = Int chat
  /\ message_thread_id (send_body message dest) = option_map Int thread.
Proof.
  assert (K : forall z, (Z.abs z <= 2 ^ 53)%Z ->
                Number_ (BigInt_toString z) = Int z
                /\ truthy (Some (BigInt_toString z)) = true).
  { intros z Hz. unfold BigInt_toString.
    set (n := Z.to_N (Z.abs z)).
    set (ds := digits_of (S (N.to_nat (N.log2 n))) n).
    assert (Hds : digits_value 0 ds = Some (Z.abs z)).
    { unfold ds. rewrite digits_of_value by lia. f_equal. unfold n. lia. }
    assert (Hne : ds <> []).
    { unfold ds. cbn [digits_of]. destruct (n <? 10)%N; [discriminate |].
      intros E. apply app_eq_nil in E as [_ E]. discriminate. }
    pose proof (Number_of_digits (z <? 0)%Z ds (Z.abs z) Hne
                  (digits_of_units _ _) Hds ltac:(lia)) as HN.
    destruct (Z.ltb_spec z 0).
    - split; [rewrite HN; f_equal; lia | reflexivity].
    - split; [rewrite HN; f_equal; lia |].
      destruct ds; [congruence | reflexivity]. }
  intros Hc Ht dest. subst dest. unfold send_body.
  cbn [chatId messageThreadId chat_id message_thread_id].
  destruct (K chat Hc) as [Hn _]. rewrite Hn.
  split; [reflexivity |]. split; [reflexivity |].
  destruct thread as [t |]; [| reflexivity].
  cbn [option_map]. destruct (K t (Ht t eq_refl)) as [Hnt Htt].
  now rewrite Htt, Hnt.
Qed.

(* ================================================================== *)
(** ** The claims at concrete requests *)

Ltac example_is_accepted :=
  split; [reflexivity |]; split; [reflexivity |];
  exists example_payload;
  split; [reflexivity |]; split; [reflexivity |];
  split; [vm_compute; reflexivity | vm_compute; discriminate].



Lemma retry_budget_witness :
  accepted plain_text example_env example_request
    (lit "osmosis-1") (lit "dao1abc") example_message
  /\ events_of 0
       (events_of_notify
          (notify plain_text net_flaky sched_first example_env
             example_request example_db))
     = script net_flaky example_env example_message 0
         {| chatId := lit "100"; messageThreadId := None |}
  /\ fetch_count
       (events_of 0
          (events_of_notify
             (notify plain_text net_flaky sched_first example_env
                example_request example_db)))
     = 3.
Proof.
  assert (H : accepted plain_text example_env example_request
                (lit "osmosis-1") (lit "dao1abc") example_message)
    by example_is_accepted.
  split; [exact H |].
  destruct (retry_budget plain_text net_flaky sched_first example_env
              example_request example_db (lit "osmosis-1") (lit "dao1abc")
              example_message H)
    as (Hd & _).
  destruct (Hd 0 {| chatId := lit "100"; messageThreadId := None |}
              eq_refl)
    as (Hs & _ & Hfirst & _).
  split; [exact Hs |].
  apply (Hfirst 2 403%N).
  - unfold RETRIES. lia.
  - intros [| [| j]] Hj; [reflexivity | reflexivity | lia].
  - reflexivity.
Defined.

Lemma fan_out_in_batches_witness :
  accepted plain_text example_env example_request
    (lit "osmosis-1") (lit "dao1abc") example_message
  /\ exists ws,
      events_of_notify
        (notify plain_text net_flaky sched_first example_env
           example_request example_db)
      = [EvJson;
         EvQuery (SelectDestinations (lit "osmosis-1") (lit "dao1abc"))]
          ++ List.concat ws
      /\ Forall2
           (fun b w =>
              is_wave net_flaky example_env example_message
                (fst b) (snd b) w)
           (batches (lookup (lit "osmosis-1") (lit "dao1abc") example_db))
           ws.
Proof.
  assert (H : accepted plain_text example_env example_request
                (lit "osmosis-1") (lit "dao1abc") example_message)
    by example_is_accepted.
  split; [exact H |].
  destruct (fan_out_in_batches plain_text net_flaky sched_first example_env
              example_request example_db (lit "osmosis-1") (lit "dao1abc")
              example_message H)
    as (ws & He & Hw & _).
  exists ws. split; [exact He | exact Hw].
Defined.

Lemma completed_exchange_counts_witness :
  accepted plain_text example_env example_request
    (lit "osmosis-1") (lit "dao1abc") example_message
  /\ events_of 1
       (events_of_notify
          (notify plain_text net_flaky sched_first example_env
             example_request example_db))
     = [EvFetch 1 (endpoint example_env)
          (send_body example_message
             {| chatId := lit "100"; messageThreadId := Some (lit "7") |});
        EvLog 1 403]
  /\ delivered net_flaky 1 = true.
Proof.
  assert (H : accepted plain_text example_env example_request
                (lit "osmosis-1") (lit "dao1abc") example_message)
    by example_is_accepted.
  split; [exact H |].
  destruct (completed_exchange_counts plain_text net_flaky sched_first
              example_env example_request example_db
              (lit "osmosis-1") (lit "dao1abc") example_message H)
    as (Hd & _).
  destruct (Hd 1 {| chatId := lit "100";
                    messageThreadId := Some (lit "7") |} eq_refl)
    as (Hfirst & _).
  exact (Hfirst 403%N eq_refl).
Defined.

Lemma invalid_key_rejected_witness :
  strict_eq (Some (lit "guess")) (NOTIFY_API_KEY example_env) = false
  /\ lookup (lit "osmosis-1") (lit "dao1abc") example_db <> []
  /\ notify plain_text net_ok sched_first example_env wrong_key_request
       example_db
     = (Some (Respond 401 (ErrorBody (lit "Invalid API key."))),
        example_db, [EvJson]).
Proof.
  split; [reflexivity |]. split; [discriminate |].
  refine (invalid_key_rejected plain_text net_ok sched_first example_env
            wrong_key_request example_db
            (lit "osmosis-1") (lit "dao1abc") _ _ _ eq_refl _);
    reflexivity.
Defined.

Lemma vetoed_is_invalid key : invalid_type (vetoed_payload key).
Proof. intros t. destruct t; vm_compute; discriminate. Qed.

Lemma invalid_type_rejected_witness :
  invalid_type (vetoed_payload (lit "secret"))
  /\ notify plain_text net_ok sched_first example_env
       (vetoed_request (lit "secret")) example_db
     = (Some (Respond 400 (ErrorBody (lit "Invalid notification type."))),
        example_db, [EvJson])
  /\ response_of_notify
       (notify plain_text net_ok sched_first example_env
          (vetoed_request (lit "secret")) example_db)
     = Some (Respond 400 (ErrorBody (lit "Invalid notification type."))).
Proof.
  assert (Hi : invalid_type (vetoed_payload (lit "secret"))).
  { intros t. destruct t; vm_compute; discriminate. }
  split; [exact Hi |]. split; [vm_compute; reflexivity |].
  destruct (invalid_type_rejected plain_text net_ok sched_first example_env
              (vetoed_request (lit "secret")) example_db
              (vetoed_payload (lit "secret")) eq_refl Hi)
    as (_ & _ & Hr).
  exact (Hr (lit "osmosis-1") (lit "dao1abc") eq_refl eq_refl eq_refl).
Defined.

(** C5, as stated, fails: a request of a type that does not exist is
    answered 401, not 400, when its key is not the configured one. *)
Lemma invalid_type_with_wrong_key :
  invalid_type (vetoed_payload (lit "guess"))
  /\ json (vetoed_request (lit "guess")) = Some (vetoed_payload (lit "guess"))
  /\ notify plain_text net_ok sched_first example_env
       (vetoed_request (lit "guess")) example_db
     = (Some (Respond 401 (ErrorBody (lit "Invalid API key."))),
        example_db, [EvJson])
  /\ response_of_notify
       (notify plain_text net_ok sched_first example_env
          (vetoed_request (lit "guess")) example_db)
     <> Some (Respond 400 (ErrorBody (lit "Invalid notification type."))).
Proof.
  split; [apply vetoed_is_invalid |]. split; [reflexivity |].
  split; [vm_compute; reflexivity |]. vm_compute. discriminate.
Qed.

Lemma identifier_preserved_witness :
  (Z.abs (-1001234567890) <= 2 ^ 53)%Z
  /\ Number_ (BigInt_toString (-1001234567890)) = Int (-1001234567890)
  /\ message_thread_id
       (send_body example_message
          {| chatId := BigInt_toString (-1001234567890);
             messageThreadId := option_map BigInt_toString (Some 7%Z) |})
     = Some (Int 7).
Proof.
  assert (H : (Z.abs (-1001234567890) <= 2 ^ 53)%Z)
    by (apply Z.leb_le; vm_compute; reflexivity).
  split; [exact H |].
  destruct (identifier_preserved example_message (-1001234567890) (Some 7%Z)
              H)
    as (Hn & _ & Ht).
  - intros t [= <-]. apply Z.leb_le. vm_compute. reflexivity.
  - split; [exact Hn | exact Ht].
Defined.

(** C10, as stated, fails: 2^53 + 1 lies in the signed 64-bit range, and
    the number made of its stored string is 2^53. *)
Lemma identifier_rounded :
  (- 2 ^ 63 <= 9007199254740993 < 2 ^ 63)%Z
  /\ BigInt_toString 9007199254740993 = lit "9007199254740993"
  /\ Number_ (lit "9007199254740993") = Int 9007199254740992
  /\ chat_id
       (send_body example_message
          {| chatId := BigInt_toString 9007199254740993;
             messageThreadId := None |})
     <> Int 9007199254740993.
Proof.
  split; [lia |]. split; [vm_compute; reflexivity |].
  split; [vm_compute; reflexivity |]. vm_compute. discriminate.
Qed.

(** ** Two runs spelled out *)

(** The text rendered for [example_payload]: the digits are escaped too,
    since the range [+-=] of the character class holds them. *)
Example example_message_text :
  example_message
  = lit "_[Proposal A\4\2](https://daodao.zone/dao/juno1abc/proposals/A42)"
      ++ lit " in [My\_DAO](https://daodao.zone/dao/juno1abc)"
      ++ lit "\ was passed and executed\._" ++ [LF; LF]
      ++ lit ">*Fund the team\!*" ++ [LF]
      ++ lit ">" ++ [LF]
      ++ lit ">Pay \1\0 $JUNO\." ++ [LF]
      ++ lit ">" ++ [LF]
      ++ lit ">Outcome: *Yes*".
Proof. vm_compute. reflexivity. Qed.

(** 25 registrations, every call completing at once: three waves of 10, 10
    and 5 destinations, 25 calls of [fetch], count 25. *)
Example run_of_25 :
  let r := notify plain_text net_ok sched_first example_env example_request
             db_of_25 in
  response_of_notify r = Some (Respond 200 (SuccessBody true 25))
  /\ database_after r = db_of_25
  /\ map event_summary (events_of_notify r)
     = [("json"%string, 0); ("query"%string, 0)]
         ++ quiet_wave 0 10 ++ quiet_wave 10 10 ++ quiet_wave 20 5
  /\ fetch_count (events_of_notify r) = 25.
Proof. vm_compute. repeat split; reflexivity. Qed.

(** The same fan-out when no call ever completes: each destination is
    tried three times, the answer is still a success, with count 0. *)
Example run_without_network :
  let r := notify plain_text (fun _ _ => NetworkError) sched_first
             example_env example_request example_db in
  response_of_notify r = Some (Respond 200 (SuccessBody true 0))
  /\ database_after r = example_db
  /\ map event_summary (events_of_notify r)
     = [("json", 0); ("query", 0); ("fetch", 0); ("fetch", 1);
        ("fetch", 0); ("fetch", 0); ("error", 0);
        ("fetch", 1); ("fetch", 1); ("error", 1)]%string.
Proof. vm_compute. repeat split; reflexivity. Qed.

(* ================================================================== *)
(** * Further properties *)

(** ** The escaper *)

(** X1.  Reading an escaped text gives the text back, so that two
    different texts are never escaped to the same text. *)
Theorem unescape_escape t :
  unescapeMarkdownV2 (escapeMarkdownV2 t) = t
  /\ forall t', escapeMarkdownV2 t = escapeMarkdownV2 t' -> t = t'.
Proof.
  assert (K : forall s, unescapeMarkdownV2 (escapeMarkdownV2 s) = s).
  { induction s as [| c s IH]; [reflexivity |].
    cbn [escapeMarkdownV2]. destruct (regex_class c) eqn:E.
    - cbn [unescapeMarkdownV2]. rewrite N.eqb_refl. now rewrite IH.
    - cbn [unescapeMarkdownV2].
      destruct (N.eqb_spec c BACKSLASH) as [-> | _];
        [now rewrite backslash_in_class in E | now rewrite IH]. }
  split; [apply K |].
  intros t' H. rewrite <- (K t), <- (K t'). now rewrite H.
Qed.

(** X2.  Escaping never shortens a text and at most doubles it; the text
    is left as it is exactly when it holds no code unit of the character
    class. *)
Theorem escape_length t :
  length t <= length (escapeMarkdownV2 t) <= 2 * length t
  /\ (escapeMarkdownV2 t = t <-> forallb (fun c => negb (regex_class c)) t
                                = true).
Proof.
  induction t as [| c t [IHl IHe]]; [repeat split; auto |].
  cbn [escapeMarkdownV2 forallb length].
  destruct (regex_class c) eqn:E; cbn [length negb andb].
  - split; [lia |]. split; [| discriminate].
    intros H. apply (f_equal (@length N)) in H. cbn [length] in H. lia.
  - split; [lia |]. rewrite <- IHe. split; intros H; [| now rewrite H].
    now injection H.
Qed.

Lemma regex_class_characterized c :
  regex_class c = reserved c || escaped_beyond_reserved c.
Proof.
  destruct (regex_class c) eqn:E; symmetry.
  - apply orb_true_iff.
    unfold regex_class in E. rewrite !orb_true_iff, andb_true_iff in E.
    destruct E as [[H | [H1 H2]] | H].
    + left. unfold reserved. apply existsb_exists in H as (x & Hin & Hx).
      apply N.eqb_eq in Hx. subst x. simpl in Hin.
      repeat (destruct Hin as [<- | Hin]; [reflexivity |]). contradiction.
    + apply N.leb_le in H1, H2.
      destruct (reserved c) eqn:R; [now left | right].
      unfold escaped_beyond_reserved.
      assert (c <> 43 /\ c <> 45 /\ c <> 46 /\ c <> 61)%N as (A & B & C & D).
      { repeat split; intros ->; discriminate R. }
      apply orb_true_iff.
      destruct (N.eq_dec c 44) as [-> | Hc]; [now left | right].
      apply andb_true_iff. split; apply N.leb_le; lia.
    + left. unfold reserved. apply existsb_exists in H as (x & Hin & Hx).
      apply N.eqb_eq in Hx. subst x. simpl in Hin.
      repeat (destruct Hin as [<- | Hin]; [reflexivity |]). contradiction.
  - apply orb_false_iff. split.
    + destruct (reserved c) eqn:R; [| reflexivity].
      apply reserved_in_class in R. congruence.
    + destruct (escaped_beyond_reserved c) eqn:B; [| reflexivity].
      unfold escaped_beyond_reserved in B.
      unfold regex_class in E. rewrite !orb_false_iff in E.
      destruct E as [[_ E] _]. apply andb_false_iff in E.
      apply orb_true_iff in B.
      destruct B as [B | B].
      * apply N.eqb_eq in B. subst c. destruct E; discriminate.
      * apply andb_true_iff in B as [B1 B2]. apply N.leb_le in B1, B2.
        destruct E as [E | E]; apply N.leb_gt in E; lia.
Qed.

(** X3.  [escapeMarkdownV2] puts a backslash before the reserved
    characters and, because the class reads [+-=] as a range, before the
    comma, the slash, the digits, the colon, the semicolon and the
    less-than sign as well, and before no other code unit; a run of digits
    comes out twice as long. *)
Theorem escape_set c t :
  escapeMarkdownV2 (c :: t)
  = (if reserved c || escaped_beyond_reserved c
     then [BACKSLASH; c] else [c]) ++ escapeMarkdownV2 t
  /\ (Forall (fun d => (48 <= d <= 57)%N) t ->
      length (escapeMarkdownV2 t) = 2 * length t).
Proof.
  split.
  - cbn [escapeMarkdownV2]. rewrite <- regex_class_characterized.
    now destruct (regex_class c).
  - induction 1 as [| d t Hd _ IH]; [reflexivity |].
    cbn [escapeMarkdownV2].
    assert (E : regex_class d = true).
    { rewrite regex_class_characterized. apply orb_true_iff. right.
      unfold escaped_beyond_reserved. apply orb_true_iff. right.
      apply andb_true_iff. split; apply N.leb_le; lia. }
    rewrite E. cbn [length]. lia.
Qed.

(** ** The description segment *)

Lemma trimStart_length s : length (trimStart s) <= length s.
Proof.
  induction s as [| c s IH]; [reflexivity |].
  simpl. destruct (is_whitespace c); simpl; lia.
Qed.

Lemma trim_length s : length (trim s) <= length s.
Proof.
  unfold trim, trimEnd. rewrite length_rev.
  pose proof (trimStart_length (rev (trimStart s))) as H.
  rewrite length_rev in H. pose proof (trimStart_length s). lia.
Qed.

Lemma join_split_length s :
  length (join [LF; GT] (split LF s)) = length s + count_occ N.eq_dec s LF.
Proof.
  induction s as [| c s IH]; [reflexivity |].
  cbn [split count_occ]. destruct (N.eqb_spec c LF) as [-> | Hne].
  - destruct (N.eq_dec LF LF) as [_ | Hc]; [| congruence].
    pose proof (split_nonempty LF s) as Hs.
    destruct (split LF s) as [| p ps] eqn:E; [congruence |].
    rewrite join_cons2. cbn [app length] in *. lia.
  - destruct (N.eq_dec c LF) as [Hc | _]; [congruence |].
    pose proof (split_nonempty LF s) as Hs.
    destruct (split LF s) as [| p ps] eqn:E; [congruence |].
    destruct ps as [| q ps].
    + cbn [join length] in *. lia.
    + rewrite join_cons2 in *. cbn [app length] in *. lia.
Qed.

Lemma escaped_weight t :
  length (escapeMarkdownV2 t) + count_occ N.eq_dec (escapeMarkdownV2 t) LF
  <= 2 * length t.
Proof.
  induction t as [| c t IH]; [reflexivity |].
  cbn [escapeMarkdownV2]. destruct (regex_class c) eqn:E.
  - cbn [count_occ length].
    destruct (N.eq_dec BACKSLASH LF) as [H | _]; [discriminate H |].
    destruct (N.eq_dec c LF) as [-> | _]; [discriminate E | lia].
  - cbn [count_occ length]. destruct (N.eq_dec c LF); lia.
Qed.

Lemma sanitize_length removeMarkdown d :
  length (sanitize removeMarkdown d) <= MAX_DESCRIPTION_LENGTH + 3.
Proof.
  unfold sanitize, slice0.
  destruct (Nat.ltb_spec MAX_DESCRIPTION_LENGTH (length (removeMarkdown d))).
  - rewrite length_app, length_firstn.
    change (length (lit "...")) with 3. lia.
  - lia.
Qed.

(** X4.  Whatever the description of the payload, the description handed
    to the escaper has at most 503 code units and the segment of the
    rendered message at most 1006. *)
Theorem description_bounded removeMarkdown d :
  length (sanitize removeMarkdown d) <= 503
  /\ length (quoted_description (sanitize removeMarkdown d)) <= 1006.
Proof.
  pose proof (sanitize_length removeMarkdown d) as H.
  unfold MAX_DESCRIPTION_LENGTH in H. split; [exact H |].
  unfold quoted_description.
  rewrite trim_escapeMarkdownV2, join_split_length.
  pose proof (escaped_weight (trim (sanitize removeMarkdown d))).
  pose proof (trim_length (sanitize removeMarkdown d)). lia.
Qed.

Lemma split_no_separator s : Forall (fun p => ~ In LF p) (split LF s).
Proof.
  induction s as [| c s IH]; cbn [split].
  - constructor; [intros [] | constructor].
  - destruct (N.eqb_spec c LF) as [-> | Hne].
    + constructor; [intros [] | exact IH].
    + destruct (split LF s) as [| p ps]; [repeat constructor; simpl; tauto |].
      inversion IH as [| ? ? Hp Hps]; subst.
      constructor; [| exact Hps]. simpl. intros [H | H]; [congruence | tauto].
Qed.

Lemma split_app_separator p s :
  ~ In LF p -> split LF (p ++ LF :: s) = p :: split LF s.
Proof.
  induction p as [| c p IH]; intros H; [reflexivity |].
  cbn [app split]. destruct (N.eqb_spec c LF) as [-> | _];
    [exfalso; apply H; now left |].
  rewrite IH by (intros Hin; apply H; now right). reflexivity.
Qed.

Lemma split_single p : ~ In LF p -> split LF p = [p].
Proof.
  induction p as [| c p IH]; intros H; [reflexivity |].
  cbn [split]. destruct (N.eqb_spec c LF) as [-> | _];
    [exfalso; apply H; now left |].
  rewrite IH by (intros Hin; apply H; now right). reflexivity.
Qed.

Lemma split_cons_other c s :
  c <> LF ->
  split LF (c :: s)
  = match split LF s with
    | [] => [[c]]
    | p :: ps => (c :: p) :: ps
    end.
Proof.
  intros H. cbn [split]. now destruct (N.eqb_spec c LF).
Qed.

Lemma split_join_quoted ls :
  Forall (fun p => ~ In LF p) ls ->
  ls <> [] ->
  split LF (join [LF; GT] ls)
  = match ls with
    | [] => [[]]
    | l :: rest => l :: map (cons GT) rest
    end.
Proof.
  induction 1 as [| l ls Hl Hls IH]; [congruence |]. intros _.
  destruct ls as [| l' rest].
  - cbn [join map]. now apply split_single.
  - rewrite join_cons2. cbn [app].
    rewrite split_app_separator by exact Hl.
    rewrite split_cons_other by discriminate.
    pose proof (IH ltac:(discriminate)) as E.
    unfold jsstring in *. rewrite E. reflexivity.
Qed.

Lemma escape_no_separator p : ~ In LF p -> ~ In LF (escapeMarkdownV2 p).
Proof.
  induction p as [| c p IH]; intros H; [exact H |].
  cbn [escapeMarkdownV2]. destruct (regex_class c); simpl;
    intros Hin; repeat destruct Hin as [Hin | Hin];
    try discriminate Hin;
    try (apply H; now left);
    try (apply IH; [intros K; apply H; now right | exact Hin]).
Qed.

Lemma join_split s : join [LF] (split LF s) = s.
Proof.
  induction s as [| c s IH]; [reflexivity |].
  cbn [split]. pose proof (split_nonempty LF s) as Hs.
  destruct (split LF s) as [| p ps] eqn:E; [congruence |].
  destruct (N.eqb_spec c LF) as [-> | _].
  - rewrite join_cons2. cbn [app]. now rewrite IH.
  - destruct ps as [| q ps].
    + cbn [join] in *. now rewrite IH.
    + rewrite join_cons2 in *. now rewrite <- IH.
Qed.

(** X5.  The lines of the description segment are the lines of the
    trimmed description, each escaped; every line after the first starts
    with a quote marker (the first one follows the marker of the template),
    and joining the lines of a text with line feeds gives the text back. *)
Theorem description_lines sd :
  split LF (quoted_description sd)
  = match map escapeMarkdownV2 (split LF (trim sd)) with
    | [] => [[]]
    | l :: rest => l :: map (cons GT) rest
    end
  /\ length (split LF (quoted_description sd))
     = length (split LF (trim sd))
  /\ join [LF] (split LF sd) = sd.
Proof.
  assert (K : split LF (quoted_description sd)
              = match map escapeMarkdownV2 (split LF (trim sd)) with
                | [] => [[]]
                | l :: rest => l :: map (cons GT) rest
                end).
  { rewrite quoted_description_lines. apply split_join_quoted.
    - apply Forall_map. eapply Forall_impl; [| apply split_no_separator].
      intros p. apply escape_no_separator.
    - pose proof (split_nonempty LF (trim sd)).
      destruct (split LF (trim sd)); [congruence | discriminate]. }
  split; [exact K |]. split.
  - rewrite K. pose proof (split_nonempty LF (trim sd)).
    destruct (split LF (trim sd)); [congruence |].
    cbn [map length]. now rewrite !length_map.
  - apply join_split.
Qed.

(* ================================================================== *)
(** ** The handler: what reaches the store and the delivery client *)

Section NotifyFurther.

Variable removeMarkdown : option jsstring -> jsstring.
Variable net : nat -> nat -> fetch_result.
Variable sched : nat -> nat.
Variable env : Env.

Local Abbreviation notify := (notify removeMarkdown net sched env).
Local Abbreviation accepted := (accepted removeMarkdown env).

Lemma notify_rejections request db :
  (exists chainId dao message, accepted request chainId dao message)
  \/ (exists o evs,
        notify request db = (Some o, db, evs)
        /\ rejection o /\ (evs = [] \/ evs = [EvJson])).
Proof.
  unfold accepted, notify, rejection.
  destruct (truthy_value (param_chainId request)) as [c |];
    [| right; do 2 eexists; split; [reflexivity | tauto]].
  destruct (truthy_value (param_dao request)) as [d |];
    [| right; do 2 eexists; split; [reflexivity | tauto]].
  destruct (json request) as [p |];
    [| right; do 2 eexists; split; [reflexivity | tauto]].
  destruct (strict_eq (apiKey p) (NOTIFY_API_KEY env)) eqn:K; cbn [negb];
    [| right; do 2 eexists; split; [reflexivity | tauto]].
  destruct (text_of (nullish (type_ p) (NotifyType_value ProposalCreated)) p
              (sanitize removeMarkdown (proposalDescription p)))
    as [[| c0 m] |] eqn:T;
    [right; do 2 eexists; split; [reflexivity | tauto] |
    | right; do 2 eexists; split; [reflexivity | tauto]].
  left. exists c, d, (c0 :: m). repeat split.
  exists p. repeat split; try assumption. discriminate.
Qed.

(** X6.  [notify] answers 200 exactly for the requests that pass its three
    checks, and only for those does it query the store or call [fetch];
    every other request is answered with one of the four error responses,
    or the handler throws, before anything but the parse has happened. *)
Theorem effects_need_acceptance request db :
  ((exists chainId dao message, accepted request chainId dao message)
   <-> exists n, response_of_notify (notify request db)
                 = Some (Respond 200 (SuccessBody true n)))
  /\ (existsb is_effect (events_of_notify (notify request db)) = true ->
      exists chainId dao message, accepted request chainId dao message)
  /\ ((forall chainId dao message, ~ accepted request chainId dao message) ->
      exists o, response_of_notify (notify request db) = Some o
                /\ rejection o
                /\ database_after (notify request db) = db).
Proof.
  destruct (notify_rejections request db)
    as [(c & d & m & Ha) | (o & evs & E & Hr & Hevs)].
  - split; [| split].
    + split; [intros _ | intros _; eauto].
      destruct (notify_accepted removeMarkdown net sched env request db
                  c d m Ha) as (ws & -> & _).
      eexists. reflexivity.
    + eauto.
    + intros H. exfalso. exact (H c d m Ha).
  - rewrite E. cbn [response_of_notify events_of_notify database_after
                      fst snd].
    assert (Hno : forall n, Some o <> Some (Respond 200 (SuccessBody true n))).
    { intros n [= ->]. unfold rejection in Hr.
      repeat destruct Hr as [Hr | Hr]; discriminate Hr. }
    assert (Hacc : ~ exists c d m, accepted request c d m).
    { intros (c & d & m & Ha).
      destruct (notify_accepted removeMarkdown net sched env request db
                  c d m Ha) as (ws & E' & _).
      rewrite E in E'. apply (f_equal response_of_notify) in E'.
      exact (Hno _ E'). }
    split; [| split].
    + split; [intros H; now apply Hacc in H | intros [n H]; now apply Hno in H].
    + destruct Hevs as [-> | ->]; discriminate.
    + intros _. exists o. repeat split; assumption.
Qed.

Lemma script_events message d r e :
  In e (script net env message d r) ->
  e = EvFetch d (endpoint env) (send_body message r)
  \/ (exists status, e = EvLog d status) \/ e = EvError d.
Proof.
  pose proof (script_cases net env message d r) as H.
  destruct (net d 0), (net d 1), (net d 2); destruct H as [-> _];
    simpl; intros Hin;
    repeat (destruct Hin as [<- | Hin]; [eauto |]); contradiction.
Qed.

Lemma list_sum_bounds (f : nat -> nat) a b l :
  (forall d, In d l -> a <= f d <= b) ->
  a * length l <= list_sum (map f l) <= b * length l.
Proof.
  induction l as [| x l IH]; intros H; [simpl; lia |].
  cbn [map length]. rewrite list_sum_cons.
  pose proof (H x (or_introl eq_refl)).
  pose proof (IH (fun d Hd => H d (or_intror Hd))). lia.
Qed.

(** X7.  One notification makes at least one call of [fetch] per
    registration and at most three; every call goes to the [sendMessage]
    endpoint of the bot, for a destination of the lookup, with the same
    rendered text in MarkdownV2 mode and with the link preview off: the
    bodies differ in the destination only. *)
Theorem fetches_of_notification request db chainId dao message :
  accepted request chainId dao message ->
  let regs := lookup chainId dao db in
  let evs := events_of_notify (notify request db) in
  length regs <= fetch_count evs <= RETRIES * length regs
  /\ forall d url body,
       In (EvFetch d url body) evs ->
       exists dest,
         nth_error regs d = Some dest
         /\ url = lit "https://api.telegram.org/bot" ++ BOT_TOKEN env
                    ++ lit "/sendMessage"
         /\ body = {| chat_id := Number_ (chatId dest);
                      message_thread_id :=
                        if truthy (messageThreadId dest)
                        then option_map Number_ (messageThreadId dest)
                        else None;
                      parse_mode := lit "MarkdownV2";
                      text := message;
                      link_preview_is_disabled := true |}.
Proof.
  intros Ha regs evs. subst regs evs.
  destruct (notify_accepted removeMarkdown net sched env request db
              chainId dao message Ha)
    as (ws & -> & Hws & Hb & Hev).
  cbn [events_of_notify snd]. split.
  - rewrite fetch_count_prefix, (fetch_count_by_destination _ _ Hb).
    pose proof (list_sum_bounds
                  (fun d => fetch_count (events_of d (List.concat ws)))
                  1 RETRIES (seq 0 (length (lookup chainId dao db)))) as H.
    rewrite length_seq in H. rewrite Nat.mul_1_l in H. apply H.
    intros d Hd. apply in_seq in Hd.
    destruct (nth_error (lookup chainId dao db) d) as [dest |] eqn:E.
    + rewrite (Hev d dest E). apply script_fetch_count.
    + apply nth_error_None in E. lia.
  - intros d url body Hin.
    destruct Hin as [Hin | [Hin | Hin]]; try discriminate Hin.
    pose proof (proj1 (Forall_forall _ _) Hb _ Hin) as (x & Hx & Hr).
    injection Hx as <-.
    destruct (nth_error (lookup chainId dao db) d) as [dest |] eqn:E;
      [| apply nth_error_None in E; lia].
    exists dest. split; [reflexivity |].
    assert (Hin' : In (EvFetch d url body) (events_of d (List.concat ws))).
    { apply filter_In. split; [exact Hin |].
      unfold concerns. cbn [event_dest]. apply Nat.eqb_refl. }
    rewrite (Hev d dest E) in Hin'.
    apply script_events in Hin' as [H | [[s H] | H]]; try discriminate H.
    injection H as -> ->. split; reflexivity.
Qed.

End NotifyFurther.

Lemma fetches_of_notification_witness :
  accepted plain_text example_env example_request
    (lit "osmosis-1") (lit "dao1abc") example_message
  /\ 2 <= fetch_count
            (events_of_notify
               (notify plain_text net_flaky sched_first example_env
                  example_request example_db))
       <= 6.
Proof.
  assert (H : accepted plain_text example_env example_request
                (lit "osmosis-1") (lit "dao1abc") example_message)
    by example_is_accepted.
  split; [exact H |].
  exact (proj1 (fetches_of_notification plain_text net_flaky sched_first
                  example_env example_request example_db
                  (lit "osmosis-1") (lit "dao1abc") example_message H)).
Defined.

(* ================================================================== *)
(** ** Identifiers that are JavaScript numbers *)

Lemma round_to_double_abs z :
  round_to_double z = z -> round_to_double (Z.abs z) = Z.abs z.
Proof.
  unfold round_to_double. cbv zeta. rewrite Z.abs_idemp.
  set (e := Z.max 0 (Z.log2 (Z.abs z) - 52)).
  set (X := ((if (2 * (Z.abs z mod 2 ^ e) <? 2 ^ e)%Z
              then (Z.abs z / 2 ^ e)%Z
              else if (2 ^ e <? 2 * (Z.abs z mod 2 ^ e))%Z
                   then (Z.abs z / 2 ^ e + 1)%Z
                   else if Z.even (Z.abs z / 2 ^ e)
                        then (Z.abs z / 2 ^ e)%Z
                        else (Z.abs z / 2 ^ e + 1)%Z) * 2 ^ e)%Z).
  clearbody X. destruct z as [| p | p]; cbn [Z.sgn Z.abs]; lia.
Qed.

Lemma Number_of_double (sign : bool) ds v :
  ds <> [] ->
  Forall (fun c => (48 <= c <= 57)%N) ds ->
  digits_value 0 ds = Some v ->
  round_to_double v = v ->
  (v < 2 ^ 1024)%Z ->
  Number_ (if sign then 45%N :: ds else ds)
  = Int (if sign then (- v)%Z else v).
Proof.
  intros Hne Hd Hv Hr Hlt.
  assert (Hw : Forall (fun c => is_whitespace c = false) ds).
  { eapply Forall_impl; [| exact Hd]. intros c Hc.
    apply decimal_unit_not_whitespace. now right. }
  apply Z.ltb_lt in Hlt.
  destruct ds as [| c r]; [congruence |].
  destruct sign; unfold Number_.
  - rewrite trim_no_whitespace by (constructor; [reflexivity | exact Hw]).
    cbn [N.eqb Pos.eqb]. rewrite Hv, Hr, Hlt. f_equal; lia.
  - rewrite trim_no_whitespace by exact Hw.
    inversion Hd as [| ? ? Hc _]; subst.
    destruct (N.eqb_spec c 45); [lia |]. destruct (N.eqb_spec c 43); [lia |].
    rewrite Hv, Hr, Hlt. f_equal; lia.
Qed.

(** X8.  An identifier that is a JavaScript number (an integer that a
    binary64 float holds exactly, of any size) survives the way through the
    store: [Number] of the string that routes/telegram.ts writes for it,
    [BigInt(id).toString()], is the identifier again. *)
Theorem stored_identifier_round_trip z :
  round_to_double z = z ->
  (Z.abs z < 2 ^ 1024)%Z ->
  Number_ (BigInt_toString z) = Int z.
Proof.
  intros Hr Hlt. unfold BigInt_toString.
  set (n := Z.to_N (Z.abs z)).
  set (ds := digits_of (S (N.to_nat (N.log2 n))) n).
  assert (Hds : digits_value 0 ds = Some (Z.abs z)).
  { unfold ds. rewrite digits_of_value by lia. f_equal. unfold n. lia. }
  assert (Hne : ds <> []).
  { unfold ds. cbn [digits_of]. destruct (n <? 10)%N; [discriminate |].
    intros E. apply app_eq_nil in E as [_ E]. discriminate. }
  pose proof (Number_of_double (z <? 0)%Z ds (Z.abs z) Hne
                (digits_of_units _ _) Hds (round_to_double_abs z Hr) Hlt)
    as HN.
  rewrite HN. destruct (Z.ltb_spec z 0); f_equal; lia.
Qed.

Lemma stored_identifier_round_trip_witness :
  round_to_double (- 2 ^ 60) = (- 2 ^ 60)%Z
  /\ (Z.abs (- 2 ^ 60) < 2 ^ 1024)%Z
  /\ Number_ (BigInt_toString (- 2 ^ 60)) = Int (- 2 ^ 60).
Proof.
  assert (H1 : round_to_double (- 2 ^ 60) = (- 2 ^ 60)%Z)
    by (vm_compute; reflexivity).
  assert (H2 : (Z.abs (- 2 ^ 60) < 2 ^ 1024)%Z)
    by (apply Z.ltb_lt; vm_compute; reflexivity).
  split; [exact H1 |]. split; [exact H2 |].
  exact (stored_identifier_round_trip (- 2 ^ 60) H1 H2).
Defined.

(* ================================================================== *)
(** ** The handler without notification types *)

Section Untyped.

Variable removeMarkdown : option jsstring -> jsstring.
Variable net : nat -> nat -> fetch_result.
Variable sched : nat -> nat.
Variable env : Env.

Lemma attempt_untyped_some m d r i :
  attempt_untyped env (Some m) d r i = enter env m d r i.
Proof. now destruct i. Qed.

Lemma resume_untyped_some m d r i res :
  resume_untyped env (Some m) d r i res = resume env m d r i res.
Proof.
  unfold resume_untyped, resume. now rewrite attempt_untyped_some.
Qed.

Lemma start_all_untyped_some m batch : forall d,
  start_all_untyped env (Some m) d batch = start_all env m d batch.
Proof.
  induction batch as [| r rest IH]; intros d; [reflexivity |].
  cbn [start_all_untyped start_all].
  now rewrite attempt_untyped_some, IH.
Qed.

Lemma settle_nth_untyped_some m ts : forall k d,
  settle_nth_untyped net env (Some m) k d ts = settle_nth net env m k d ts.
Proof.
  induction ts as [| [r [i | b]] rest IH]; intros k d; [reflexivity | |].
  - cbn [settle_nth_untyped settle_nth]. destruct k as [| k'].
    + now rewrite resume_untyped_some.
    + now rewrite IH.
  - cbn [settle_nth_untyped settle_nth]. now rewrite IH.
Qed.

Lemma await_all_untyped_some m fuel : forall clock d ts,
  await_all_untyped net sched env (Some m) fuel clock d ts
  = await_all net sched env m fuel clock d ts.
Proof.
  induction fuel as [| fuel IH]; intros clock d ts;
    cbn [await_all_untyped await_all]; [reflexivity |].
  destruct (in_flight ts); [reflexivity |].
  rewrite settle_nth_untyped_some.
  destruct (settle_nth net env m (sched clock mod S n) d ts) as [ts' ev].
  now rewrite IH.
Qed.

Lemma batch_loop_untyped_some m regs fuel : forall i clock succeeded,
  batch_loop_untyped net sched env (Some m) fuel i clock succeeded regs
  = batch_loop net sched env m fuel i clock succeeded regs.
Proof.
  induction fuel as [| fuel IH]; intros i clock succeeded;
    cbn [batch_loop_untyped batch_loop]; [reflexivity |].
  destruct (i <? length regs); [| reflexivity].
  unfold promise_all_map_untyped, promise_all_map.
  rewrite start_all_untyped_some.
  destruct (start_all env m i (slice i (i + BATCH_SIZE) regs)) as [ts ev].
  rewrite await_all_untyped_some.
  destruct (await_all net sched env m _ clock i ts) as [[[res |] clock'] evs];
    [| reflexivity].
  now rewrite IH.
Qed.

Lemma created_text p sd :
  created_or_untyped p ->
  text_of (nullish (type_ p) (NotifyType_value ProposalCreated)) p sd
  = option_map flatten (template ProposalCreated p sd).
Proof.
  intros [H | H]; rewrite H; reflexivity.
Qed.

Lemma created_template_nonempty p sd ps :
  template ProposalCreated p sd = Some ps -> flatten ps <> [].
Proof.
  unfold template.
  destruct (escapeMarkdownV2_call (proposalId p)); [| discriminate].
  destruct (escapeMarkdownV2_call (daoName p)); [| discriminate].
  destruct (escapeMarkdownV2_call (proposalTitle p)); [| discriminate].
  intros [= <-]. discriminate.
Qed.

Lemma template_defined t p sd :
  escaped_fields_present p ->
  (t = ProposalCreated \/ t = ProposalClosed) ->
  exists ps, template t p sd = Some ps.
Proof.
  intros (H1 & H2 & H3) Ht. unfold template.
  destruct (proposalId p); [| congruence].
  destruct (daoName p); [| congruence].
  destruct (proposalTitle p); [| congruence].
  destruct Ht as [-> | ->]; eexists; reflexivity.
Qed.

(** X9.  Backwards compatibility: for a request that names the first
    notification type or none and carries the three escaped fields, the
    handler with types does exactly what the handler without types does:
    the same response, the same table, the same events in the same order.
    The two also turn away the same requests in the same way. *)
Theorem typed_handler_is_backwards_compatible request db :
  (forall p, json request = Some p ->
     strict_eq (apiKey p) (NOTIFY_API_KEY env) = true ->
     created_or_untyped p /\ escaped_fields_present p) ->
  notify removeMarkdown net sched env request db
  = notify_untyped removeMarkdown net sched env request db.
Proof.
  intros H. unfold notify, notify_untyped.
  destruct (truthy_value (param_chainId request)) as [c |]; [| reflexivity].
  destruct (truthy_value (param_dao request)) as [d |]; [| reflexivity].
  destruct (json request) as [p |]; [| reflexivity].
  destruct (strict_eq (apiKey p) (NOTIFY_API_KEY env)) eqn:K;
    [| reflexivity].
  cbn [negb]. destruct (H p eq_refl K) as [Hc Hf].
  rewrite (created_text p _ Hc).
  destruct (template_defined ProposalCreated p
              (sanitize removeMarkdown (proposalDescription p)) Hf
              (or_introl eq_refl)) as [ps Hps].
  rewrite Hps. cbn [option_map].
  pose proof (created_template_nonempty _ _ _ Hps) as Hne.
  destruct (flatten ps) as [| c0 m] eqn:E; [congruence |].
  rewrite db_all_select. now rewrite batch_loop_untyped_some.
Qed.

Lemma attempt_untyped_none d r i :
  1 <= i ->
  attempt_untyped env None d r i = (Returned false, [EvError d]).
Proof.
  induction i as [| i IH]; [lia |]. intros _.
  cbn [attempt_untyped]. destruct i as [| i]; [reflexivity |].
  cbn [Nat.ltb Nat.leb]. apply IH. lia.
Qed.

Lemma start_all_untyped_none batch : forall d,
  start_all_untyped env None d batch
  = (map (fun r => (r, Returned false)) batch,
     map EvError (seq d (length batch))).
Proof.
  induction batch as [| r rest IH]; intros d; [reflexivity |].
  cbn [start_all_untyped].
  rewrite attempt_untyped_none by (unfold RETRIES; lia).
  now rewrite IH.
Qed.

Lemma all_false_responses (batch : list Destination) :
  in_flight (map (fun r => (r, Returned false)) batch) = 0
  /\ all_responses (map (fun r => (r, Returned false)) batch)
     = Some (repeat false (length batch)).
Proof.
  induction batch as [| r rest [IH1 IH2]]; [split; reflexivity |].
  split; [exact IH1 |].
  cbn [map all_responses response_of snd]. now rewrite IH2.
Qed.

Lemma filter_repeat_false n :
  filter (fun b : bool => b) (repeat false n) = [].
Proof. induction n; [reflexivity | exact IHn]. Qed.

Lemma batch_loop_untyped_none regs fuel : forall i clock succeeded,
  length regs <= i + fuel ->
  exists clock',
    batch_loop_untyped net sched env None fuel i clock succeeded regs
    = (Some succeeded, clock', map EvError (seq i (length regs - i))).
Proof.
  induction fuel as [| fuel IH]; intros i clock succeeded Hfuel;
    cbn [batch_loop_untyped].
  - destruct (Nat.ltb_spec i (length regs)); [lia |].
    exists clock. now replace (length regs - i) with 0 by lia.
  - destruct (Nat.ltb_spec i (length regs)) as [L | L].
    + unfold promise_all_map_untyped. rewrite start_all_untyped_none.
      destruct (all_false_responses (slice i (i + BATCH_SIZE) regs))
        as [Hin Hall].
      assert (Ha : await_all_untyped net sched env None
                     (RETRIES * length (slice i (i + BATCH_SIZE) regs))
                     clock i
                     (map (fun r => (r, Returned false))
                        (slice i (i + BATCH_SIZE) regs))
                   = (Some (repeat false
                              (length (slice i (i + BATCH_SIZE) regs))),
                      clock, [])).
      { destruct (RETRIES * length (slice i (i + BATCH_SIZE) regs));
          cbn [await_all_untyped]; rewrite Hin, Hall; reflexivity. }
      rewrite Ha, filter_repeat_false. cbn [length]. rewrite Nat.add_0_r.
      destruct (IH (i + BATCH_SIZE) clock succeeded
                  ltac:(unfold BATCH_SIZE; lia))
        as (clock' & ->).
      exists clock'. rewrite app_nil_r, slice_length.
      rewrite (seq_batch i (length regs) L), map_app. reflexivity.
    + exists clock. now replace (length regs - i) with 0 by lia.
Qed.

(** X10.  In the handler without types an absent identifier, name or title
    fails every delivery before [fetch] is called: the request is still
    answered 200, with count 0, after the lookup and one logged failure per
    registration, in the order of the lookup, and no call; the handler with
    types throws on the same request, before the lookup. *)
Theorem untyped_handler_absent_field request db chainId dao p :
  truthy_value (param_chainId request) = Some chainId ->
  truthy_value (param_dao request) = Some dao ->
  json request = Some p ->
  strict_eq (apiKey p) (NOTIFY_API_KEY env) = true ->
  created_or_untyped p ->
  ~ escaped_fields_present p ->
  notify_untyped removeMarkdown net sched env request db
  = (Some (Respond 200 (SuccessBody true 0)), db,
     [EvJson; EvQuery (SelectDestinations chainId dao)]
       ++ map EvError (seq 0 (length (lookup chainId dao db))))
  /\ notify removeMarkdown net sched env request db
     = (Some Throws, db, [EvJson]).
Proof.
  intros Hc Hd Hj Hk Ht Hf.
  assert (Hn : template ProposalCreated p
                 (sanitize removeMarkdown (proposalDescription p)) = None).
  { unfold template. unfold escaped_fields_present in Hf.
    destruct (proposalId p); [| reflexivity].
    destruct (daoName p); [| reflexivity].
    destruct (proposalTitle p); [| reflexivity].
    exfalso. apply Hf. repeat split; discriminate. }
  unfold notify_untyped, notify.
  rewrite Hc, Hd, Hj, Hk. cbn [negb].
  rewrite (created_text p _ Ht), Hn. cbn [option_map].
  rewrite db_all_select.
  destruct (batch_loop_untyped_none (lookup chainId dao db)
              (length (lookup chainId dao db)) 0 0 0 ltac:(lia))
    as (clock' & E).
  rewrite E, Nat.sub_0_r. split; reflexivity.
Qed.

End Untyped.

Lemma typed_handler_is_backwards_compatible_witness :
  (forall p, json untyped_request = Some p ->
     strict_eq (apiKey p) (NOTIFY_API_KEY example_env) = true ->
     created_or_untyped p /\ escaped_fields_present p)
  /\ notify plain_text net_flaky sched_first example_env untyped_request
       example_db
     = notify_untyped plain_text net_flaky sched_first example_env
         untyped_request example_db.
Proof.
  assert (H : forall p, json untyped_request = Some p ->
                strict_eq (apiKey p) (NOTIFY_API_KEY example_env) = true ->
                created_or_untyped p /\ escaped_fields_present p).
  { intros p [= <-] _. split; [now left |]. repeat split; discriminate. }
  split; [exact H |].
  exact (typed_handler_is_backwards_compatible plain_text net_flaky
           sched_first example_env untyped_request example_db H).
Defined.

Lemma untyped_handler_absent_field_witness :
  ~ escaped_fields_present untitled_payload
  /\ notify_untyped plain_text net_ok sched_first example_env
       untitled_request example_db
     = (Some (Respond 200 (SuccessBody true 0)), example_db,
        [EvJson;
         EvQuery (SelectDestinations (lit "osmosis-1") (lit "dao1abc"));
         EvError 0; EvError 1])
  /\ notify plain_text net_ok sched_first example_env untitled_request
       example_db
     = (Some Throws, example_db, [EvJson]).
Proof.
  assert (H : ~ escaped_fields_present untitled_payload).
  { intros (_ & _ & H). now apply H. }
  split; [exact H |].
  exact (untyped_handler_absent_field plain_text net_ok sched_first
           example_env untitled_request example_db
           (lit "osmosis-1") (lit "dao1abc") untitled_payload
           eq_refl eq_refl eq_refl eq_refl (or_introl eq_refl) H).
Defined.

(* ================================================================== *)
(** ** The webhook: commands and addresses *)

(** Two prefixes of one text agree as far as both reach. *)
Lemma startsWith_exclusive p q s :
  startsWith p s = true -> startsWith q s = true ->
  startsWith p q = true \/ startsWith q p = true.
Proof.
  revert q s. induction p as [| x p IH]; intros q s Hp Hq; [now left |].
  destruct q as [| y q]; [now right |].
  destruct s as [| c s]; [discriminate |].
  cbn [startsWith] in *.
  apply andb_true_iff in Hp as [Hx Hp], Hq as [Hy Hq].
  apply N.eqb_eq in Hx, Hy. subst.
  rewrite N.eqb_refl. cbn [andb]. eauto.
Qed.

Lemma after_prefix_app p s : after_prefix p (p ++ s) = Some s.
Proof.
  induction p as [| x p IH]; [reflexivity |].
  cbn [after_prefix app]. now rewrite N.eqb_refl.
Qed.

Lemma after_prefix_eq p s s' : after_prefix p s = Some s' -> s = p ++ s'.
Proof.
  revert s. induction p as [| x p IH]; intros s H.
  - cbn in H. now apply Some_eq in H.
  - destruct s as [| c s]; [discriminate |]. cbn [after_prefix] in H.
    destruct (N.eqb_spec x c); [| discriminate]. subst.
    cbn [app]. f_equal. now apply IH.
Qed.

(** A prefix that starts with a letter does not start at another
    character. *)
Lemma after_prefix_head x p c s :
  alphanumeric x = true -> alphanumeric c = false ->
  after_prefix (x :: p) (c :: s) = None.
Proof.
  intros Hx Hc. cbn [after_prefix].
  destruct (N.eqb_spec x c); [congruence | reflexivity].
Qed.

Lemma alphanumeric_run_all s : forallb alphanumeric (alphanumeric_run s) = true.
Proof.
  induction s as [| c s IH]; [reflexivity |]. cbn [alphanumeric_run].
  destruct (alphanumeric c) eqn:E; [| reflexivity].
  cbn [forallb]. now rewrite E.
Qed.

Lemma alphanumeric_run_prefix s :
  exists rest,
    s = alphanumeric_run s ++ rest
    /\ match rest with [] => true | c :: _ => negb (alphanumeric c) end
       = true.
Proof.
  induction s as [| c s [rest [IH Hr]]]; [now exists [] |].
  cbn [alphanumeric_run].
  destruct (alphanumeric c) eqn:E.
  - exists rest. cbn [app]. split; [now f_equal | exact Hr].
  - exists (c :: s). split; [reflexivity |]. now rewrite E.
Qed.

(** The run of an address that stops at a character outside the class. *)
Lemma alphanumeric_run_app a rest :
  forallb alphanumeric a = true ->
  match rest with [] => true | c :: _ => negb (alphanumeric c) end = true ->
  alphanumeric_run (a ++ rest) = a.
Proof.
  intros Ha Hr. induction a as [| c a IH].
  - destruct rest as [| c rest]; [reflexivity |]. cbn [app alphanumeric_run].
    apply negb_true_iff in Hr. now rewrite Hr.
  - cbn [forallb] in Ha. apply andb_true_iff in Ha as [Hc Ha].
    cbn [app alphanumeric_run]. rewrite Hc. f_equal. now apply IH.
Qed.

Lemma capture_address_sound s a :
  capture_address s = Some a ->
  a <> [] /\ forallb alphanumeric a = true
  /\ exists rest,
      s = a ++ rest
      /\ match rest with [] => true | c :: _ => negb (alphanumeric c) end
         = true.
Proof.
  unfold capture_address. intros H.
  pose proof (alphanumeric_run_all s) as Hall.
  destruct (alphanumeric_run_prefix s) as [rest [Hrest Hr]].
  destruct (alphanumeric_run s) as [| c r] eqn:E; [discriminate |].
  apply Some_eq in H. subst a. repeat split; [discriminate | exact Hall |].
  now exists rest.
Qed.

Lemma capture_address_head c s :
  alphanumeric c = true -> exists a, capture_address (c :: s) = Some a.
Proof.
  intros Hc. unfold capture_address. cbn [alphanumeric_run]. rewrite Hc.
  eauto.
Qed.

Lemma capture_address_none c s :
  alphanumeric c = false -> capture_address (c :: s) = None.
Proof.
  intros Hc. unfold capture_address. cbn [alphanumeric_run]. now rewrite Hc.
Qed.

Lemma optional_prefix_total p k s a :
  k s = Some a -> exists b, optional_prefix p k s = Some b.
Proof.
  intros H. unfold optional_prefix.
  destruct (after_prefix (lit p) s) as [s' |]; [| eauto].
  destruct (k s'); eauto.
Qed.

Lemma optional_prefix_taken p k s a :
  k s = Some a -> optional_prefix p k (lit p ++ s) = Some a.
Proof.
  intros H. unfold optional_prefix. now rewrite after_prefix_app, H.
Qed.

Lemma optional_prefix_absent p k s :
  after_prefix (lit p) s = None -> optional_prefix p k s = k s.
Proof. intros H. unfold optional_prefix. now rewrite H. Qed.

Lemma address_at_head c s :
  alphanumeric c = true -> exists a, address_at (c :: s) = Some a.
Proof.
  intros Hc. destruct (capture_address_head c s Hc) as [a Ha].
  unfold address_at.
  eapply optional_prefix_total in Ha as [b Hb].
  eapply optional_prefix_total in Hb as [b' Hb'].
  eapply optional_prefix_total in Hb' as [b'' Hb''].
  eauto.
Qed.

Lemma address_at_other c s :
  alphanumeric c = false -> address_at (c :: s) = None.
Proof.
  intros Hc. unfold address_at.
  rewrite !optional_prefix_absent;
    try (apply after_prefix_head; [reflexivity | exact Hc]).
  now apply capture_address_none.
Qed.

Lemma address_at_nil : address_at [] = None.
Proof. reflexivity. Qed.

Lemma match_address_skip junk s :
  forallb (fun c => negb (alphanumeric c)) junk = true ->
  match_address (junk ++ s) = match_address s.
Proof.
  intros H. induction junk as [| c junk IH]; [reflexivity |].
  cbn [forallb] in H. apply andb_true_iff in H as [Hc H].
  apply negb_true_iff in Hc.
  cbn [app match_address]. rewrite (address_at_other _ _ Hc). auto.
Qed.

Lemma match_address_head c s :
  alphanumeric c = true ->
  match_address (c :: s) = address_at (c :: s).
Proof.
  intros Hc. destruct (address_at_head c s Hc) as [a Ha].
  cbn [match_address]. now rewrite Ha.
Qed.

(** An optional group adds its literal, or nothing, in front of what the
    rest of the expression matched. *)
Lemma optional_prefix_shape p k (Q : jsstring -> jsstring -> Prop) :
  (forall s a, k s = Some a -> Q s a) ->
  forall s a,
    optional_prefix p k s = Some a ->
    exists o s', s = o ++ s' /\ (o = [] \/ o = lit p) /\ Q s' a.
Proof.
  intros Hk s a. unfold optional_prefix.
  destruct (after_prefix (lit p) s) as [s' |] eqn:E.
  - destruct (k s') as [r |] eqn:E'.
    + intros H. apply Some_eq in H. subst r.
      exists (lit p), s'. apply after_prefix_eq in E. auto.
    + intros H. exists [], s. auto.
  - intros H. exists [], s. auto.
Qed.

Lemma address_at_shape s a :
  address_at s = Some a ->
  exists o1 o2 o3 rest,
    s = o1 ++ o2 ++ o3 ++ a ++ rest
    /\ (o1 = [] \/ o1 = lit "https://")
    /\ (o2 = [] \/ o2 = lit "testnet.")
    /\ (o3 = [] \/ o3 = lit "daodao.zone/dao/")
    /\ a <> [] /\ forallb alphanumeric a = true
    /\ match rest with [] => true | c :: _ => negb (alphanumeric c) end
       = true.
Proof.
  unfold address_at. intros H.
  eapply optional_prefix_shape in H as (o1 & s1 & -> & H1 & H);
    [| intros s0 a0 H0; exact H0].
  eapply optional_prefix_shape in H as (o2 & s2 & -> & H2 & H);
    [| intros s0 a0 H0; exact H0].
  eapply optional_prefix_shape in H as (o3 & s3 & -> & H3 & H);
    [| intros s0 a0 H0; exact H0].
  apply capture_address_sound in H as (Hn & Ha & rest & -> & Hr).
  exists o1, o2, o3, rest. repeat split; auto.
Qed.

Lemma match_address_shape text a :
  match_address text = Some a ->
  exists junk s,
    text = junk ++ s
    /\ forallb (fun c => negb (alphanumeric c)) junk = true
    /\ address_at s = Some a.
Proof.
  induction text as [| c text IH].
  - cbn. discriminate.
  - cbn [match_address].
    destruct (address_at (c :: text)) as [r |] eqn:E.
    + intros H. apply Some_eq in H. subst r. now exists [], (c :: text).
    + intros H. destruct (IH H) as (junk & s & -> & Hj & Hs).
      exists (c :: junk), s. repeat split; auto.
      cbn [forallb]. rewrite Hj.
      destruct (alphanumeric c) eqn:Hc; [| reflexivity].
      destruct (address_at_head c (junk ++ s) Hc) as [b Hb]. congruence.
Qed.

Lemma match_address_none text :
  match_address text = None
  <-> forallb (fun c => negb (alphanumeric c)) text = true.
Proof.
  induction text as [| c text IH]; [now cbn |].
  cbn [forallb]. destruct (alphanumeric c) eqn:Hc.
  - rewrite (match_address_head _ _ Hc).
    destruct (address_at_head c text Hc) as [a ->]. cbn. split; discriminate.
  - cbn [match_address]. rewrite (address_at_other _ _ Hc). exact IH.
Qed.

(** X11. The address that a message other than a command gives,
    [text.match(/(?:https:\/\/)?(?:testnet\.)?(?:daodao\.zone\/dao\/)?([a-zA-Z0-9]+)/)?.[1]]:
    the expression fails exactly on the texts without a letter or digit.
    What it captures is the whole run of letters and digits that follows,
    at the first letter or digit of the text, those of the three optional
    literals that the expression took. *)
Theorem match_address_captures (text : jsstring) :
  (match_address text = None
   <-> forallb (fun c => negb (alphanumeric c)) text = true)
  /\ (forall a, match_address text = Some a ->
        exists junk o1 o2 o3 rest,
          text = junk ++ o1 ++ o2 ++ o3 ++ a ++ rest
          /\ forallb (fun c => negb (alphanumeric c)) junk = true
          /\ (o1 = [] \/ o1 = lit "https://")
          /\ (o2 = [] \/ o2 = lit "testnet.")
          /\ (o3 = [] \/ o3 = lit "daodao.zone/dao/")
          /\ a <> [] /\ forallb alphanumeric a = true
          /\ match rest with
             | [] => true
             | c :: _ => negb (alphanumeric c)
             end = true).
Proof.
  split; [apply match_address_none |].
  intros a H. apply match_address_shape in H as (junk & s & -> & Hj & H).
  apply address_at_shape in H
    as (o1 & o2 & o3 & rest & -> & H1 & H2 & H3 & Hn & Ha & Hr).
  exists junk, o1, o2, o3, rest. repeat split; auto.
Qed.

Lemma address_at_page secure testnet address rest :
  address <> [] -> forallb alphanumeric address = true ->
  match rest with [] => true | c :: _ => negb (alphanumeric c) end = true ->
  address_at (dao_page secure testnet address ++ rest) = Some address.
Proof.
  intros Hn Ha Hr.
  assert (Hc : capture_address (address ++ rest) = Some address).
  { unfold capture_address. rewrite alphanumeric_run_app by assumption.
    destruct address; congruence. }
  assert (H3 : optional_prefix "daodao.zone/dao/" capture_address
                 (lit "daodao.zone/dao/" ++ address ++ rest)
               = Some address)
    by now apply optional_prefix_taken.
  assert (H2 : optional_prefix "testnet."
                 (optional_prefix "daodao.zone/dao/" capture_address)
                 ((if testnet then lit "testnet." else [])
                    ++ lit "daodao.zone/dao/" ++ address ++ rest)
               = Some address).
  { destruct testnet.
    - now apply optional_prefix_taken.
    - rewrite optional_prefix_absent; [exact H3 | reflexivity]. }
  unfold address_at, dao_page. rewrite <- !app_assoc.
  destruct secure.
  - now apply optional_prefix_taken.
  - rewrite optional_prefix_absent; [exact H2 |].
    destruct testnet; reflexivity.
Qed.

(** X12. A link to the page of a DAO on daodao.zone, with or without
    [https://] and [testnet.], gives the address of the DAO, when the
    address is made of letters and digits and nothing before the link is a
    letter or digit; what follows the address (the end of the text, a
    slash, a query) is dropped. *)
Theorem match_address_of_page (secure testnet : bool)
    (junk address rest : jsstring) :
  forallb (fun c => negb (alphanumeric c)) junk = true ->
  address <> [] ->
  forallb alphanumeric address = true ->
  match rest with [] => true | c :: _ => negb (alphanumeric c) end = true ->
  match_address (junk ++ dao_page secure testnet address ++ rest)
  = Some address.
Proof.
  intros Hj Hn Ha Hr. rewrite match_address_skip by exact Hj.
  pose proof (address_at_page secure testnet address rest Hn Ha Hr) as H.
  destruct (dao_page secure testnet address ++ rest) as [| c s] eqn:E.
  - rewrite address_at_nil in H. discriminate.
  - cbn [match_address]. now rewrite H.
Qed.

(* ================================================================== *)
(** ** The webhook: the table *)

Lemma jsstring_eqb_refl a : jsstring_eqb a a = true.
Proof. now apply jsstring_eqb_eq. Qed.

Lemma thread_matches_refl t : thread_matches t t = true.
Proof. destruct t; [apply jsstring_eqb_refl | reflexivity]. Qed.

Lemma thread_matches_eq bound stored :
  thread_matches bound stored = true <-> stored = bound.
Proof.
  destruct bound as [t |], stored as [t' |]; cbn [thread_matches];
    try (split; [discriminate | congruence]); [| tauto].
  rewrite jsstring_eqb_eq. split; congruence.
Qed.

(** [.first()] finds nothing exactly when the row is not in the table. *)
Lemma select_existing_none c d chat th db :
  select_existing c d chat th db = None
  <-> ~ In {| row_chainId := c; row_dao := d; row_chatId := chat;
              row_messageThreadId := th |} db.
Proof.
  unfold select_existing. split.
  - intros H Hin. apply (find_none _ _ H) in Hin. cbn in Hin.
    now rewrite !jsstring_eqb_refl, thread_matches_refl in Hin.
  - intros Hn.
    destruct (find _ db) as [r |] eqn:E; [| reflexivity].
    apply find_some in E as [Hin E].
    rewrite !andb_true_iff, !jsstring_eqb_eq, thread_matches_eq in E.
    destruct E as [[[E1 E2] E3] E4]. destruct r. cbn in *. subst.
    contradiction.
Qed.

(** The test for an existing row is at least as strict as the constraint
    of the schema: after it, the [INSERT] goes through. *)
Lemma insert_after_check c d chat th db :
  select_existing c d chat th db = None ->
  insert_registration
    {| row_chainId := c; row_dao := d; row_chatId := chat;
       row_messageThreadId := th |} db
  = Some (db ++ [{| row_chainId := c; row_dao := d; row_chatId := chat;
                    row_messageThreadId := th |}]).
Proof.
  intros H. unfold insert_registration.
  destruct (violates_unique _ db) eqn:V; [| reflexivity].
  exfalso. unfold violates_unique in V.
  apply existsb_exists in V as (r & Hin & V). cbn in V.
  unfold select_existing in H. apply (find_none _ _ H) in Hin.
  rewrite !andb_true_iff in V. destruct V as [[[V1 V2] V3] V4].
  rewrite V1, V2, V3 in Hin. cbn [andb] in Hin.
  destruct (row_messageThreadId r) as [t |], th as [t' |];
    try discriminate.
  cbn [thread_matches] in Hin. congruence.
Qed.

Lemma lookup_app c d db db' :
  lookup c d (db ++ db') = lookup c d db ++ lookup c d db'.
Proof. unfold lookup. cbn. now rewrite filter_app, map_app. Qed.

Lemma in_lookup c d db dest :
  In dest (lookup c d db)
  <-> exists r, In r db /\ row_chainId r = c /\ row_dao r = d
                /\ row_chatId r = chatId dest
                /\ row_messageThreadId r = messageThreadId dest.
Proof.
  unfold lookup. cbn. rewrite in_map_iff. split.
  - intros (r & <- & Hin). apply filter_In in Hin as [Hin E].
    rewrite andb_true_iff, !jsstring_eqb_eq in E. exists r. cbn. tauto.
  - intros (r & Hin & E1 & E2 & E3 & E4). exists r. split.
    + destruct dest. cbn in *. now subst.
    + apply filter_In. split; [exact Hin |].
      now rewrite andb_true_iff, !jsstring_eqb_eq.
Qed.

Lemma in_select_daos chat th db dao :
  In dao (select_daos chat th db)
  <-> exists r, In r db /\ row_dao r = dao /\ row_chatId r = chat
                /\ row_messageThreadId r = th.
Proof.
  unfold select_daos. rewrite in_map_iff. split.
  - intros (r & <- & Hin). apply filter_In in Hin as [Hin E].
    rewrite andb_true_iff, jsstring_eqb_eq, thread_matches_eq in E.
    exists r. tauto.
  - intros (r & Hin & E1 & E2 & E3). exists r. split; [exact E1 |].
    apply filter_In. split; [exact Hin |].
    now rewrite andb_true_iff, jsstring_eqb_eq, thread_matches_eq.
Qed.

Lemma registered_here_spec msg dao r :
  registered_here msg dao r = true
  <-> row_dao r = dao
      /\ row_chatId r = BigInt_toString (id (chat msg))
      /\ row_messageThreadId r
         = option_map BigInt_toString (message_thread_id_of msg).
Proof.
  unfold registered_here.
  rewrite !andb_true_iff, !jsstring_eqb_eq, thread_matches_eq. tauto.
Qed.

Lemma lookup_delete_chat c d s db :
  lookup c d (delete_chat s db)
  = filter (fun dest => negb (jsstring_eqb (chatId dest) s)) (lookup c d db).
Proof.
  unfold lookup, delete_chat. cbn.
  induction db as [| r db IH]; [reflexivity |]. cbn [filter].
  destruct (jsstring_eqb (row_chatId r) s) eqn:E; cbn [negb].
  - destruct (_ && _); [| exact IH]. cbn [map filter chatId].
    rewrite E. exact IH.
  - cbn [filter]. destruct (_ && _); [| exact IH]. cbn [map filter chatId].
    rewrite E. cbn [negb]. now f_equal.
Qed.

Lemma startsWith_prefix p q s :
  startsWith (p ++ q) s = true -> startsWith p s = true.
Proof.
  revert s. induction p as [| x p IH]; intros s H; [reflexivity |].
  destruct s as [| c s]; [discriminate |]. cbn [app startsWith] in *.
  apply andb_true_iff in H as [-> H]. cbn [andb]. now apply IH.
Qed.

(** The tests of the commands exclude each other. *)
Lemma command_prefixes text :
  startsWith (lit "/add") text || startsWith (lit "/remove") text = true ->
  startsWith (lit "/start") text = false
  /\ startsWith (lit "/help") text = false
  /\ startsWith (lit "/list") text = false.
Proof.
  intros H. apply orb_true_iff in H.
  repeat split;
    (match goal with
     | |- ?b = false => destruct b eqn:E; [exfalso | reflexivity]
     end;
     destruct H as [H | H];
     destruct (startsWith_exclusive _ _ _ H E) as [K | K];
     vm_compute in K; discriminate).
Qed.

Lemma add_is_not_remove text :
  startsWith (lit "/add") text = true ->
  startsWith (lit "/remove@") text = false.
Proof.
  intros H. destruct (startsWith _ text) eqn:E at 1; [| reflexivity].
  destruct (startsWith_exclusive _ _ _ H E) as [K | K];
    vm_compute in K; discriminate.
Qed.

(** The row that an [INSERT] binds. *)
Lemma violates_unique_in row db :
  violates_unique row db = true -> In row db.
Proof.
  unfold violates_unique. intros V.
  apply existsb_exists in V as (r & Hin & V).
  rewrite !andb_true_iff, !jsstring_eqb_eq in V.
  destruct V as [[[V1 V2] V3] V4].
  destruct r as [c d s [t |]], row as [c' d' s' [t' |]]; cbn in *;
    try discriminate.
  apply jsstring_eqb_eq in V4. now subst.
Qed.

Lemma violates_unique_thread row db t :
  row_messageThreadId row = Some t -> In row db ->
  violates_unique row db = true.
Proof.
  intros Ht Hin. unfold violates_unique. apply existsb_exists.
  exists row. split; [exact Hin |].
  rewrite Ht, !jsstring_eqb_refl. reflexivity.
Qed.

Lemma violates_unique_null row db :
  row_messageThreadId row = None -> violates_unique row db = false.
Proof.
  intros Ht. unfold violates_unique.
  destruct (existsb _ db) eqn:V; [| reflexivity].
  apply existsb_exists in V as (r & _ & V). rewrite Ht in V.
  rewrite !andb_true_iff in V. destruct V as [_ V].
  destruct (row_messageThreadId r); discriminate.
Qed.

(* ================================================================== *)
(** ** The webhook on a table shared with other requests *)

Section SharedFacts.

Variable WEBHOOK_SECRET : jsstring.
Variable matches_my_chat_member : TelegramWebhookData -> bool.
Variable matches_message : TelegramWebhookData -> bool.
Variable getChatAdministrators : Z -> option AdministratorsReply.
Variable getDaoInfo : nat -> jsstring -> option DaoInfo.
Variable listed : list jsstring -> list jsstring.
Variable between : database -> database.

Local Abbreviation telegram_shared :=
  (telegram_shared WEBHOOK_SECRET matches_my_chat_member matches_message
     getChatAdministrators getDaoInfo listed between).
Local Abbreviation on_message_shared :=
  (on_message_shared getChatAdministrators getDaoInfo listed between).
Local Abbreviation on_command_shared :=
  (on_command_shared getDaoInfo listed between).
Local Abbreviation on_address_shared :=
  (on_address_shared getDaoInfo between).
Local Abbreviation sender_allowed := (sender_allowed getChatAdministrators).
Local Abbreviation message_update :=
  (message_update WEBHOOK_SECRET matches_my_chat_member matches_message).
Local Abbreviation membership_update :=
  (membership_update WEBHOOK_SECRET matches_my_chat_member).

Ltac no_insert :=
  cbn [snd fst respondPlain respondMarkdown In app webhook_events];
  intuition discriminate.

Lemma on_command_address_shared msg text dao db :
  startsWith (lit "/add") text || startsWith (lit "/remove") text = true ->
  command_argument text = Some dao ->
  dao <> [] ->
  on_command_shared msg text db = on_address_shared msg text dao db.
Proof.
  intros Hc Ha Hn.
  destruct (command_prefixes text Hc) as (H1 & H2 & H3).
  unfold on_command_shared. cbv zeta. rewrite H1, H2, H3, Hc, Ha.
  destruct dao; [contradiction | reflexivity].
Qed.

(** The check of the sender, and what follows it. *)
Lemma on_message_allowed_shared msg text db res db' ev :
  sender_allowed msg = true ->
  on_command_shared msg text db = (res, db', ev) ->
  on_message_shared msg text db = (res, db', admin_check msg ++ ev).
Proof.
  unfold sender_allowed, on_message_shared, admin_check. intros Ha Hc.
  destruct (is_private (chat msg)); cbn [negb orb] in *; [exact Hc |].
  rewrite Hc. destruct (getChatAdministrators _); [| discriminate].
  now rewrite Ha.
Qed.

Lemma on_message_refused_shared msg text db :
  sender_allowed msg = false ->
  on_message_shared msg text db
  = (Returns (WebhookRespond 200 NoReply), db,
     [WAdministrators (id (chat msg))]).
Proof.
  unfold sender_allowed, on_message_shared. intros Ha.
  apply orb_false_iff in Ha as [-> Ha]. cbn [negb].
  destruct (getChatAdministrators _); now rewrite ?Ha.
Qed.

(** A request with a message reaches the check of the sender; the
    [catch] block answers what the [try] block raises. *)
Lemma telegram_message_shared request msg text db :
  message_update request msg text ->
  telegram_shared request db
  = match on_message_shared msg text db with
    | (Returns o, db', ev) => (o, db', WJson :: ev)
    | (Raises c t, db', ev) =>
        let (o, ev') := respondPlain c t UNEXPECTED in
        (o, db', WJson :: ev ++ WErrorLog :: ev')
    end.
Proof.
  intros (Hs & data & Hj & Hm & Hm' & Hmsg & Ht & Hn).
  unfold telegram_shared, telegram_try_shared.
  rewrite Hs, Hj, Hm, Hm', Hmsg, Ht.
  cbn [negb]. destruct text; [contradiction | reflexivity].
Qed.

Lemma telegram_membership_shared request m db :
  membership_update request m ->
  telegram_shared request db
  = match on_my_chat_member m db with
    | (Returns o, db', ev) => (o, db', WJson :: ev)
    | (Raises c t, db', ev) =>
        let (o, ev') := respondPlain c t UNEXPECTED in
        (o, db', WJson :: ev ++ WErrorLog :: ev')
    end.
Proof.
  intros (Hs & data & Hj & Hm & Hmem).
  unfold telegram_shared, telegram_try_shared.
  now rewrite Hs, Hj, Hm, Hmem.
Qed.

(** The [INSERT] is run after a [SELECT] that found no such row, against
    the table of its own moment. *)
Lemma on_address_inserts msg text dao db c d s th :
  In (WRun (Insert c d s th)) (snd (on_address_shared msg text dao db)) ->
  ~ In {| row_chainId := c; row_dao := d; row_chatId := s;
          row_messageThreadId := th |} db
  /\ fst (on_address_shared msg text dao db)
     = match insert_registration
               {| row_chainId := c; row_dao := d; row_chatId := s;
                  row_messageThreadId := th |} (between db)
       with
       | Some db' =>
           (Returns
              (WebhookRespond 200
                 (SendMarkdown (id (chat msg)) (message_thread_id_of msg)
                    (match getDaoInfo 0 dao with
                     | Some info => added_message info dao
                     | None => []
                     end))), db')
       | None =>
           (Raises (Some (id (chat msg))) (message_thread_id_of msg),
            between db)
       end.
Proof.
  unfold on_address_shared. cbv zeta.
  destruct (getDaoInfo 0 dao) as [info |]; [| no_insert].
  destruct (startsWith (lit "/remove@") text).
  { destruct (select_existing _ _ _ _ db); no_insert. }
  destruct (select_existing _ _ _ _ db) eqn:E; [no_insert |].
  apply select_existing_none in E.
  destruct (insert_registration _ (between db)) as [db' |] eqn:I;
    cbn [snd fst respondMarkdown In app];
    (intros [H | [H | [H | []]]]; try discriminate);
    injection H as <- <- <- <-; rewrite I; now split.
Qed.

Lemma on_command_inserts msg text db c d s th :
  In (WRun (Insert c d s th)) (snd (on_command_shared msg text db)) ->
  ~ In {| row_chainId := c; row_dao := d; row_chatId := s;
          row_messageThreadId := th |} db
  /\ exists text',
      fst (on_command_shared msg text db)
      = match insert_registration
                {| row_chainId := c; row_dao := d; row_chatId := s;
                   row_messageThreadId := th |} (between db)
        with
        | Some db' =>
            (Returns
               (WebhookRespond 200
                  (SendMarkdown (id (chat msg)) (message_thread_id_of msg)
                     text')), db')
        | None =>
            (Raises (Some (id (chat msg))) (message_thread_id_of msg),
             between db)
        end.
Proof.
  unfold on_command_shared. cbv zeta.
  destruct (startsWith (lit "/start") text); [no_insert |].
  destruct (startsWith (lit "/help") text); [no_insert |].
  destruct (startsWith (lit "/list") text).
  { destruct (listed _) as [| dao daos]; [no_insert |].
    cbn [respondMarkdown snd]. rewrite app_nil_r.
    intros [H | H]; [discriminate |].
    apply in_map_iff in H as (x & H & _). discriminate. }
  destruct (startsWith (lit "/add") text || startsWith (lit "/remove") text).
  { destruct (command_argument text) as [[| c' r] |];
      [no_insert | | no_insert].
    intros H. apply on_address_inserts in H as [Hn E].
    split; [exact Hn |]. eexists. exact E. }
  destruct (negb (is_private (chat msg)) && _); [no_insert |].
  destruct (match_address text) as [[| c' r] |];
    [no_insert | | no_insert].
  intros H. apply on_address_inserts in H as [Hn E].
  split; [exact Hn |]. eexists. exact E.
Qed.

Lemma on_message_inserts msg text db c d s th :
  In (WRun (Insert c d s th)) (snd (on_message_shared msg text db)) ->
  ~ In {| row_chainId := c; row_dao := d; row_chatId := s;
          row_messageThreadId := th |} db
  /\ exists text',
      fst (on_message_shared msg text db)
      = match insert_registration
                {| row_chainId := c; row_dao := d; row_chatId := s;
                   row_messageThreadId := th |} (between db)
        with
        | Some db' =>
            (Returns
               (WebhookRespond 200
                  (SendMarkdown (id (chat msg)) (message_thread_id_of msg)
                     text')), db')
        | None =>
            (Raises (Some (id (chat msg))) (message_thread_id_of msg),
             between db)
        end.
Proof.
  destruct (sender_allowed msg) eqn:Ha.
  - destruct (on_command_shared msg text db) as [[res db'] ev] eqn:E.
    rewrite (on_message_allowed_shared _ _ _ _ _ _ Ha E). cbn [fst snd].
    intros H. apply in_app_or in H as [H | H].
    + unfold admin_check in H. destruct (is_private _); cbn in H;
        intuition discriminate.
    + pose proof (on_command_inserts msg text db c d s th) as K.
      rewrite E in K. exact (K H).
  - rewrite (on_message_refused_shared _ _ _ Ha). no_insert.
Qed.

Lemma on_my_chat_member_inserts m db c d s th :
  ~ In (WRun (Insert c d s th)) (snd (on_my_chat_member m db))
  /\ exists o, fst (fst (on_my_chat_member m db)) = Returns o.
Proof.
  unfold on_my_chat_member. cbv zeta.
  repeat match goal with
         | |- context [if ?b then _ else _] => destruct b
         end;
    (split; [no_insert | now eexists]).
Qed.

(** X14. The [INSERT] of a registration and the [SELECT] that looks for
    the row before it are two awaited statements without a transaction.
    The [INSERT] is run only when the [SELECT] found no such row.  When
    no other request has written the row in between, it cannot fail on
    the constraint [unique_registration], and the table gains exactly the
    row.  When another request has written the row in between: a row
    with a thread makes the [INSERT] fail on the constraint, the table
    keeps what it held and the [catch] block answers with the message
    about an unexpected error; a row without a thread goes through, since
    the constraint takes [NULL]s for different. *)
Theorem insert_respects_unique (request : WebhookRequest) (db : database)
    (chainId dao chatId : jsstring) (messageThreadId : option jsstring) :
  In (WRun (Insert chainId dao chatId messageThreadId))
    (webhook_events (telegram_shared request db)) ->
  ~ In {| row_chainId := chainId; row_dao := dao; row_chatId := chatId;
          row_messageThreadId := messageThreadId |} db
  /\ (~ In {| row_chainId := chainId; row_dao := dao;
              row_chatId := chatId;
              row_messageThreadId := messageThreadId |} (between db) ->
      webhook_database (telegram_shared request db)
      = between db ++ [{| row_chainId := chainId; row_dao := dao;
                          row_chatId := chatId;
                          row_messageThreadId := messageThreadId |}])
  /\ (In {| row_chainId := chainId; row_dao := dao; row_chatId := chatId;
            row_messageThreadId := messageThreadId |} (between db) ->
      match messageThreadId with
      | Some _ =>
          webhook_database (telegram_shared request db) = between db
          /\ exists chat thread,
              webhook_response (telegram_shared request db)
              = WebhookRespond 200 (SendPlain chat thread UNEXPECTED)
      | None =>
          webhook_database (telegram_shared request db)
          = between db ++ [{| row_chainId := chainId; row_dao := dao;
                              row_chatId := chatId;
                              row_messageThreadId := None |}]
      end).
Proof.
  intros H.
  assert (K : ~ In {| row_chainId := chainId; row_dao := dao;
                      row_chatId := chatId;
                      row_messageThreadId := messageThreadId |} db
              /\ exists msg text',
                  telegram_shared request db
                  = match insert_registration
                            {| row_chainId := chainId; row_dao := dao;
                               row_chatId := chatId;
                               row_messageThreadId := messageThreadId |}
                            (between db)
                    with
                    | Some db' =>
                        (WebhookRespond 200
                           (SendMarkdown (id (chat msg))
                              (message_thread_id_of msg) text'),
                         db', snd (telegram_shared request db))
                    | None =>
                        (WebhookRespond 200
                           (SendPlain (id (chat msg))
                              (message_thread_id_of msg) UNEXPECTED),
                         between db, snd (telegram_shared request db))
                    end).
  { revert H. unfold telegram_shared, telegram_try_shared.
    destruct (negb (strict_eq _ _)); [intros [] |].
    destruct (webhook_json request) as [data |]; [| intros []].
    destruct (matches_my_chat_member data).
    { destruct (my_chat_member data) as [m |]; [| no_insert].
      destruct (on_my_chat_member_inserts m db chainId dao chatId
                  messageThreadId) as (K & o & E).
      destruct (on_my_chat_member m db) as [[res db'] ev].
      cbn [fst snd] in K, E. subst res. no_insert. }
    destruct (matches_message data); [| no_insert].
    destruct (message data) as [msg |]; [| no_insert].
    destruct (text_of_message msg) as [[| c r] |];
      [no_insert | | no_insert].
    pose proof (on_message_inserts msg (c :: r) db chainId dao chatId
                  messageThreadId) as K.
    destruct (on_message_shared msg (c :: r) db) as [[res db'] ev].
    cbn [fst snd] in K.
    assert (Hin : In (WRun (Insert chainId dao chatId messageThreadId)) ev
                  -> In (WRun (Insert chainId dao chatId messageThreadId))
                       ev) by auto.
    intros H.
    assert (Hev : In (WRun (Insert chainId dao chatId messageThreadId)) ev).
    { destruct res as [o | c' t'].
      - cbn [webhook_events snd] in H.
        destruct H as [H | H]; [discriminate | exact H].
      - destruct c'; cbn [respondPlain webhook_events snd] in H;
          (destruct H as [H | H]; [discriminate |]);
          (apply in_app_or in H as [H | H]; [exact H |]);
          exfalso; revert H; no_insert. }
    destruct (K Hev) as (Hn & text' & E). split; [exact Hn |].
    exists msg, text'.
    destruct (insert_registration _ (between db)) as [db'' |];
      injection E as -> ->; reflexivity. }
  destruct K as (Hn & msg & text' & E).
  split; [exact Hn |]. split.
  - intros Hb. rewrite E.
    assert (V : violates_unique
                  {| row_chainId := chainId; row_dao := dao;
                     row_chatId := chatId;
                     row_messageThreadId := messageThreadId |} (between db)
                = false).
    { destruct (violates_unique _ (between db)) eqn:V; [| reflexivity].
      apply violates_unique_in in V. contradiction. }
    unfold insert_registration. now rewrite V.
  - intros Hb. rewrite E. unfold insert_registration.
    destruct messageThreadId as [t |].
    + rewrite (violates_unique_thread
                 {| row_chainId := chainId; row_dao := dao;
                    row_chatId := chatId; row_messageThreadId := Some t |}
                 (between db) t eq_refl Hb).
      split; [reflexivity |]. now eexists _, _.
    + now rewrite violates_unique_null.
Qed.

Lemma list_lines_length call daos :
  length (list_lines getDaoInfo call daos) = length daos.
Proof.
  revert call. induction daos as [| dao daos IH]; intros call;
    [reflexivity |].
  cbn [list_lines length]. now rewrite IH.
Qed.

(** X23. [/list] from a sender who may give commands reads the table and
    does not change it.  The [SELECT] has no [ORDER BY]: in whatever
    order the store lists the DAOs of the rows of the chat whose thread
    is the thread of the message (the rows without a thread for a message
    outside the threads), the answer has one line for each of those rows,
    in the order of the listing, and the indexer is asked once for each
    of them, in that order; with no such row the answer says so and the
    indexer is not asked. *)
Theorem list_shows_registrations (request : WebhookRequest)
    (msg : TelegramMessage) (text : jsstring) (db : database) :
  (forall daos, Permutation (listed daos) daos) ->
  message_update request msg text ->
  sender_allowed msg = true ->
  startsWith (lit "/list") text = true ->
  telegram_shared request db
  = (WebhookRespond 200
       (SendMarkdown (id (chat msg)) (message_thread_id_of msg)
          match listed
                  (select_daos (BigInt_toString (id (chat msg)))
                     (option_map BigInt_toString (message_thread_id_of msg))
                     db)
          with
          | [] => NOT_TRACKING_ANY
          | daos =>
              lit "You're tracking the following DAOs:" ++ [LF; LF]
                ++ join [LF] (list_lines getDaoInfo 0 daos)
          end),
     db,
     WJson :: admin_check msg
       ++ WRun (SelectDaos (BigInt_toString (id (chat msg)))
                  (option_map BigInt_toString (message_thread_id_of msg)))
       :: map WDaoInfo
            (listed
               (select_daos (BigInt_toString (id (chat msg)))
                  (option_map BigInt_toString (message_thread_id_of msg))
                  db)))
  /\ length (list_lines getDaoInfo 0
               (listed
                  (select_daos (BigInt_toString (id (chat msg)))
                     (option_map BigInt_toString (message_thread_id_of msg))
                     db)))
     = length
         (filter (fun r =>
                    jsstring_eqb (row_chatId r)
                      (BigInt_toString (id (chat msg)))
                    && thread_matches
                         (option_map BigInt_toString
                            (message_thread_id_of msg))
                         (row_messageThreadId r)) db)
  /\ (forall dao,
        In dao
          (listed
             (select_daos (BigInt_toString (id (chat msg)))
                (option_map BigInt_toString (message_thread_id_of msg)) db))
        <-> exists r,
            In r db /\ row_dao r = dao
            /\ row_chatId r = BigInt_toString (id (chat msg))
            /\ row_messageThreadId r
               = option_map BigInt_toString (message_thread_id_of msg)).
Proof.
  intros Hp Hu Ha Hl. split; [| split].
  - rewrite (telegram_message_shared _ _ _ _ Hu).
    assert (E : on_command_shared msg text db
                = (Returns
                     (WebhookRespond 200
                        (SendMarkdown (id (chat msg))
                           (message_thread_id_of msg)
                           match listed
                                   (select_daos
                                      (BigInt_toString (id (chat msg)))
                                      (option_map BigInt_toString
                                         (message_thread_id_of msg)) db)
                           with
                           | [] => NOT_TRACKING_ANY
                           | daos =>
                               lit "You're tracking the following DAOs:"
                                 ++ [LF; LF]
                                 ++ join [LF]
                                      (list_lines getDaoInfo 0 daos)
                           end)),
                   db,
                   WRun (SelectDaos (BigInt_toString (id (chat msg)))
                           (option_map BigInt_toString
                              (message_thread_id_of msg)))
                     :: map WDaoInfo
                          (listed
                             (select_daos
                                (BigInt_toString (id (chat msg)))
                                (option_map BigInt_toString
                                   (message_thread_id_of msg)) db)))).
    { unfold on_command_shared. cbv zeta.
      destruct (startsWith (lit "/start") text) eqn:H1.
      { destruct (startsWith_exclusive _ _ _ H1 Hl) as [K | K];
          vm_compute in K; discriminate. }
      destruct (startsWith (lit "/help") text) eqn:H2.
      { destruct (startsWith_exclusive _ _ _ H2 Hl) as [K | K];
          vm_compute in K; discriminate. }
      rewrite Hl.
      destruct (listed _) as [| dao daos]; [reflexivity |].
      cbn [respondMarkdown]. now rewrite app_nil_r. }
    now rewrite (on_message_allowed_shared _ _ _ _ _ _ Ha E).
  - rewrite list_lines_length, (Permutation_length (Hp _)).
    unfold select_daos. apply length_map.
  - intros dao. rewrite <- in_select_daos. split; intros H.
    + exact (Permutation_in _ (Hp _) H).
    + exact (Permutation_in _ (Permutation_sym (Hp _)) H).
Qed.

(** [/add] for a DAO that the chat and thread do not track, when the
    constraint lets the [INSERT] through. *)
Lemma registers_shared request msg text dao info db :
  message_update request msg text ->
  sender_allowed msg = true ->
  startsWith (lit "/add") text || startsWith (lit "/remove") text = true ->
  startsWith (lit "/remove@") text = false ->
  command_argument text = Some dao ->
  dao <> [] ->
  getDaoInfo 0 dao = Some info ->
  ~ In (registration_of msg info dao) db ->
  violates_unique (registration_of msg info dao) (between db) = false ->
  telegram_shared request db
  = (WebhookRespond 200
       (SendMarkdown (id (chat msg)) (message_thread_id_of msg)
          (added_message info dao)),
     between db ++ [registration_of msg info dao],
     WJson :: admin_check msg
       ++ [WDaoInfo dao;
           WRun (SelectExisting (info_chainId info) dao
                   (BigInt_toString (id (chat msg)))
                   (option_map BigInt_toString (message_thread_id_of msg)));
           WRun (Insert (info_chainId info) dao
                   (BigInt_toString (id (chat msg)))
                   (option_map BigInt_toString
                      (message_thread_id_of msg)))]).
Proof.
  intros Hu Ha Hc Hr Harg Hn Hi Hout Hv.
  rewrite (telegram_message_shared _ _ _ _ Hu).
  assert (E : on_command_shared msg text db
              = (Returns
                   (WebhookRespond 200
                      (SendMarkdown (id (chat msg))
                         (message_thread_id_of msg)
                         (added_message info dao))),
                 between db ++ [registration_of msg info dao],
                 [WDaoInfo dao;
                  WRun (SelectExisting (info_chainId info) dao
                          (BigInt_toString (id (chat msg)))
                          (option_map BigInt_toString
                             (message_thread_id_of msg)));
                  WRun (Insert (info_chainId info) dao
                          (BigInt_toString (id (chat msg)))
                          (option_map BigInt_toString
                             (message_thread_id_of msg)))])).
  { rewrite (on_command_address_shared _ _ _ _ Hc Harg Hn).
    apply select_existing_none in Hout.
    unfold on_address_shared. cbv zeta. rewrite Hi, Hr, Hout.
    unfold insert_registration.
    change {| row_chainId := info_chainId info; row_dao := dao;
              row_chatId := BigInt_toString (id (chat msg));
              row_messageThreadId :=
                option_map BigInt_toString (message_thread_id_of msg) |}
      with (registration_of msg info dao).
    now rewrite Hv. }
  now rewrite (on_message_allowed_shared _ _ _ _ _ _ Ha E).
Qed.

End SharedFacts.

Section WebhookFacts.

Variable WEBHOOK_SECRET : jsstring.
Variable matches_my_chat_member : TelegramWebhookData -> bool.
Variable matches_message : TelegramWebhookData -> bool.
Variable getChatAdministrators : Z -> option AdministratorsReply.
Variable getDaoInfo : nat -> jsstring -> option DaoInfo.

Local Abbreviation telegram :=
  (telegram WEBHOOK_SECRET matches_my_chat_member matches_message
     getChatAdministrators getDaoInfo).
Local Abbreviation telegram_try :=
  (telegram_try matches_my_chat_member matches_message
     getChatAdministrators getDaoInfo).
Local Abbreviation on_message := (on_message getChatAdministrators getDaoInfo).
Local Abbreviation on_command := (on_command getDaoInfo).
Local Abbreviation on_address := (on_address getDaoInfo).
Local Abbreviation sender_allowed := (sender_allowed getChatAdministrators).
Local Abbreviation message_update :=
  (message_update WEBHOOK_SECRET matches_my_chat_member matches_message).
Local Abbreviation membership_update :=
  (membership_update WEBHOOK_SECRET matches_my_chat_member).
Local Abbreviation update_target :=
  (update_target matches_my_chat_member matches_message).
Local Abbreviation table_step := (table_step getDaoInfo).

(** An answer of the [try] block: empty, or a message to the chat and
    thread of the message. *)
Local Abbreviation regular msg reply :=
  (reply = NoReply
   \/ reply_target (WebhookRespond 200 reply)
      = Some (id (chat msg), message_thread_id_of msg)).


Lemma on_address_added msg text dao info db :
  getDaoInfo 0 dao = Some info ->
  startsWith (lit "/remove@") text = false ->
  ~ In (registration_of msg info dao) db ->
  on_address msg text dao db
  = (Returns (WebhookRespond 200
                (SendMarkdown (id (chat msg)) (message_thread_id_of msg)
                   (added_message info dao))),
     db ++ [registration_of msg info dao],
     [WDaoInfo dao;
      WRun (SelectExisting (info_chainId info) dao
              (BigInt_toString (id (chat msg)))
              (option_map BigInt_toString (message_thread_id_of msg)));
      WRun (Insert (info_chainId info) dao
              (BigInt_toString (id (chat msg)))
              (option_map BigInt_toString (message_thread_id_of msg)))]).
Proof.
  intros Hi Hr Hn. apply select_existing_none in Hn.
  unfold on_address, on_address_shared, alone. cbv zeta. rewrite Hi, Hr, Hn.
  rewrite (insert_after_check _ _ _ _ _ Hn). reflexivity.
Qed.

Lemma on_address_already msg text dao info db :
  getDaoInfo 0 dao = Some info ->
  startsWith (lit "/remove@") text = false ->
  In (registration_of msg info dao) db ->
  on_address msg text dao db
  = (Returns (WebhookRespond 200
                (SendMarkdown (id (chat msg)) (message_thread_id_of msg)
                   (already_message info dao))),
     db,
     [WDaoInfo dao;
      WRun (SelectExisting (info_chainId info) dao
              (BigInt_toString (id (chat msg)))
              (option_map BigInt_toString (message_thread_id_of msg)))]).
Proof.
  intros Hi Hr Hin.
  unfold on_address, on_address_shared, alone. cbv zeta. rewrite Hi, Hr.
  destruct (select_existing _ _ _ _ db) eqn:E; [reflexivity |].
  apply select_existing_none in E. destruct (E Hin).
Qed.

Lemma on_address_removed msg text dao info db :
  getDaoInfo 0 dao = Some info ->
  startsWith (lit "/remove@") text = true ->
  In (registration_of msg info dao) db ->
  on_address msg text dao db
  = (Returns (WebhookRespond 200
                (SendMarkdown (id (chat msg)) (message_thread_id_of msg)
                   (removed_message info dao))),
     filter (fun r => negb (registered_here msg dao r)) db,
     [WDaoInfo dao;
      WRun (SelectExisting (info_chainId info) dao
              (BigInt_toString (id (chat msg)))
              (option_map BigInt_toString (message_thread_id_of msg)));
      WRun (DeleteRegistration dao
              (BigInt_toString (id (chat msg)))
              (option_map BigInt_toString (message_thread_id_of msg)))]).
Proof.
  intros Hi Hr Hin.
  unfold on_address, on_address_shared, alone. cbv zeta. rewrite Hi, Hr.
  destruct (select_existing _ _ _ _ db) eqn:E; [reflexivity |].
  apply select_existing_none in E. destruct (E Hin).
Qed.

Lemma on_address_not_tracking msg text dao info db :
  getDaoInfo 0 dao = Some info ->
  startsWith (lit "/remove@") text = true ->
  ~ In (registration_of msg info dao) db ->
  on_address msg text dao db
  = (Returns (WebhookRespond 200
                (SendMarkdown (id (chat msg)) (message_thread_id_of msg)
                   (not_tracking_message info dao))),
     db,
     [WDaoInfo dao;
      WRun (SelectExisting (info_chainId info) dao
              (BigInt_toString (id (chat msg)))
              (option_map BigInt_toString (message_thread_id_of msg)))]).
Proof.
  intros Hi Hr Hn. apply select_existing_none in Hn.
  unfold on_address, on_address_shared, alone. cbv zeta. now rewrite Hi, Hr, Hn.
Qed.

Lemma on_address_unknown msg text dao db :
  getDaoInfo 0 dao = None ->
  on_address msg text dao db
  = (Returns (WebhookRespond 200
                (SendPlain (id (chat msg)) (message_thread_id_of msg)
                   NOT_FOUND)),
     db, [WDaoInfo dao]).
Proof.
  intros Hi. unfold on_address, on_address_shared, alone. cbv zeta. now rewrite Hi.
Qed.

Lemma on_address_shape msg text dao db :
  exists reply db' ev,
    on_address msg text dao db
    = (Returns (WebhookRespond 200 reply), db', ev)
    /\ regular msg reply
    /\ (informational text = false -> table_step msg text db db').
Proof.
  destruct (getDaoInfo 0 dao) as [info |] eqn:Hi.
  - destruct (startsWith (lit "/remove@") text) eqn:Hr;
      destruct (in_dec (fun a b : RegistrationRow =>
                          ltac:(repeat decide equality;
                                apply N.eq_dec) : {a = b} + {a <> b})
                  (registration_of msg info dao) db) as [Hin | Hn].
    + rewrite (on_address_removed _ _ _ _ _ Hi Hr Hin).
      do 3 eexists. split; [reflexivity |]. split.
      * now right.
      * intros Hq. right. right. repeat split; auto. now exists dao, info.
    + rewrite (on_address_not_tracking _ _ _ _ _ Hi Hr Hn).
      do 3 eexists. split; [reflexivity |]. split.
      * now right.
      * now left.
    + rewrite (on_address_already _ _ _ _ _ Hi Hr Hin).
      do 3 eexists. split; [reflexivity |]. split.
      * now right.
      * now left.
    + rewrite (on_address_added _ _ _ _ _ Hi Hr Hn).
      do 3 eexists. split; [reflexivity |]. split.
      * now right.
      * intros Hq. right. left. repeat split; auto. now exists dao, info.
  - rewrite (on_address_unknown _ _ _ _ Hi).
    do 3 eexists. split; [reflexivity |]. split.
    + now right.
    + now left.
Qed.

Lemma on_command_address msg text dao db :
  startsWith (lit "/add") text || startsWith (lit "/remove") text = true ->
  command_argument text = Some dao ->
  dao <> [] ->
  on_command msg text db = on_address msg text dao db.
Proof.
  exact (on_command_address_shared getDaoInfo in_table_order alone
           msg text dao db).
Qed.

Lemma on_command_shape msg text db :
  exists reply db' ev,
    on_command msg text db = (Returns (WebhookRespond 200 reply), db', ev)
    /\ regular msg reply
    /\ table_step msg text db db'.
Proof.
  unfold on_command, on_command_shared, in_table_order. cbv zeta.
  change (on_address_shared getDaoInfo alone) with on_address.
  destruct (startsWith (lit "/start") text) eqn:H1.
  { do 3 eexists. split; [reflexivity |]. split; [| now left].
    now right. }
  destruct (startsWith (lit "/help") text) eqn:H2.
  { do 3 eexists. split; [reflexivity |]. split; [| now left].
    now right. }
  destruct (startsWith (lit "/list") text) eqn:H3.
  { destruct (select_daos _ _ db) as [| dao daos].
    - do 3 eexists. split; [reflexivity |]. split; [| now left].
      now right.
    - do 3 eexists. split; [reflexivity |]. split; [| now left].
      now right. }
  assert (Hq : informational text = false)
    by (unfold informational; now rewrite H1, H2, H3).
  destruct (startsWith (lit "/add") text || startsWith (lit "/remove") text).
  { destruct (command_argument text) as [[| c r] |].
    2:{ destruct (on_address_shape msg text (c :: r) db)
          as (reply & db' & ev & E & Hreg & Hs).
        exists reply, db', ev. auto. }
    all: do 3 eexists; split; [reflexivity |]; split; [| now left];
      now right. }
  destruct (negb (is_private (chat msg)) && _).
  { do 3 eexists. split; [reflexivity |]. split; [| now left].
    now left. }
  destruct (match_address text) as [[| c r] |].
  2:{ destruct (on_address_shape msg text (c :: r) db)
        as (reply & db' & ev & E & Hreg & Hs).
      exists reply, db', ev. auto. }
  all: do 3 eexists; split; [reflexivity |]; split; [| now left];
    now right.
Qed.

(** The check of the sender, and what follows it. *)
Lemma on_message_allowed msg text db res db' ev :
  sender_allowed msg = true ->
  on_command msg text db = (res, db', ev) ->
  on_message msg text db = (res, db', admin_check msg ++ ev).
Proof.
  exact (on_message_allowed_shared getChatAdministrators getDaoInfo
           in_table_order alone msg text db res db' ev).
Qed.

Lemma on_message_refused msg text db :
  sender_allowed msg = false ->
  on_message msg text db
  = (Returns (WebhookRespond 200 NoReply), db,
     [WAdministrators (id (chat msg))]).
Proof.
  exact (on_message_refused_shared getChatAdministrators getDaoInfo
           in_table_order alone msg text db).
Qed.

Lemma on_message_shape msg text db :
  exists reply db' ev,
    on_message msg text db = (Returns (WebhookRespond 200 reply), db', ev)
    /\ regular msg reply
    /\ (db' = db \/ sender_allowed msg = true /\ table_step msg text db db').
Proof.
  destruct (sender_allowed msg) eqn:Ha.
  - destruct (on_command_shape msg text db)
      as (reply & db' & ev & E & Ht & Hs).
    exists reply, db', (admin_check msg ++ ev).
    split; [now apply on_message_allowed | auto].
  - rewrite (on_message_refused _ _ _ Ha).
    do 3 eexists. split; [reflexivity |]. split; now left.
Qed.

(** A request with a message reaches the check of the sender. *)
Lemma telegram_message request msg text db o db' ev :
  message_update request msg text ->
  on_message msg text db = (Returns o, db', ev) ->
  telegram request db = (o, db', WJson :: ev).
Proof.
  intros Hu E.
  pose proof (telegram_message_shared WEBHOOK_SECRET matches_my_chat_member
                matches_message getChatAdministrators getDaoInfo
                in_table_order alone request msg text db Hu) as K.
  change (telegram request db
          = match on_message msg text db with
            | (Returns o, db', ev) => (o, db', WJson :: ev)
            | (Raises c t, db', ev) =>
                let (o, ev') := respondPlain c t UNEXPECTED in
                (o, db', WJson :: ev ++ WErrorLog :: ev')
            end) in K.
  now rewrite E in K.
Qed.

Lemma telegram_command request msg text db o db' ev :
  message_update request msg text ->
  sender_allowed msg = true ->
  on_command msg text db = (Returns o, db', ev) ->
  telegram request db = (o, db', WJson :: admin_check msg ++ ev).
Proof.
  intros Hu Ha E. eapply telegram_message; [exact Hu |].
  now apply on_message_allowed.
Qed.

Lemma telegram_membership request m db :
  membership_update request m ->
  telegram request db
  = match on_my_chat_member m db with
    | (Returns o, db', ev) => (o, db', WJson :: ev)
    | (Raises c t, db', ev) =>
        let (o, ev') := respondPlain c t UNEXPECTED in
        (o, db', WJson :: ev ++ WErrorLog :: ev')
    end.
Proof.
  exact (telegram_membership_shared WEBHOOK_SECRET matches_my_chat_member
           matches_message getChatAdministrators getDaoInfo
           in_table_order alone request m db).
Qed.

Lemma on_my_chat_member_shape m db :
  exists reply db' ev,
    on_my_chat_member m db = (Returns (WebhookRespond 200 reply), db', ev)
    /\ (reply = NoReply
        \/ reply_target (WebhookRespond 200 reply)
           = Some (id (member_chat m), None))
    /\ (db' = db
        \/ status_is (new_chat_member m) "left"
           || status_is (new_chat_member m) "kicked" = true
           /\ db' = delete_chat (BigInt_toString (id (member_chat m))) db).
Proof.
  unfold on_my_chat_member. cbv zeta.
  destruct (status_is (new_chat_member m) "left"
            || status_is (new_chat_member m) "kicked").
  { do 3 eexists. split; [reflexivity |]. split; [now left | now right]. }
  destruct (status_is (new_chat_member m) "restricted" && _).
  { do 3 eexists. split; [reflexivity |]. split; now left. }
  destruct (_ && _).
  { do 3 eexists. split; [reflexivity |]. split; [now right | now left]. }
  do 3 eexists. split; [reflexivity |]. split; now left.
Qed.

(** The ways of a request through the handler. *)
Lemma telegram_cases request db :
  (strict_eq (secret_token request) WEBHOOK_SECRET = false
   /\ telegram request db
      = (WebhookError 401 (lit "Invalid webhook secret."), db, []))
  \/ (strict_eq (secret_token request) WEBHOOK_SECRET = true
      /\ webhook_json request = None
      /\ telegram request db = (WebhookThrows, db, []))
  \/ (strict_eq (secret_token request) WEBHOOK_SECRET = true
      /\ exists data reply db' ev,
          webhook_json request = Some data
          /\ telegram request db
             = (WebhookRespond 200 reply, db', WJson :: ev)
          /\ (reply = NoReply
              \/ exists target,
                  update_target data = Some target
                  /\ reply_target (WebhookRespond 200 reply) = Some target)
          /\ (db' = db
              \/ (exists m,
                     membership_update request m
                     /\ status_is (new_chat_member m) "left"
                        || status_is (new_chat_member m) "kicked" = true
                     /\ db' = delete_chat
                                (BigInt_toString (id (member_chat m))) db)
              \/ (exists msg text,
                     message_update request msg text
                     /\ sender_allowed msg = true
                     /\ table_step msg text db db'))).
Proof.
  destruct (strict_eq (secret_token request) WEBHOOK_SECRET) eqn:Hs.
  2:{ left. split; [reflexivity |]. unfold telegram, telegram_shared. now rewrite Hs. }
  right. destruct (webhook_json request) as [data |] eqn:Hj.
  2:{ left. repeat split. unfold telegram, telegram_shared. now rewrite Hs, Hj. }
  right. split; [reflexivity |]. exists data.
  destruct (matches_my_chat_member data) eqn:Hm.
  { destruct (my_chat_member data) as [m |] eqn:Hmem.
    - assert (Hu : membership_update request m)
        by (split; [exact Hs |]; now exists data).
      destruct (on_my_chat_member_shape m db)
        as (reply & db' & ev & E & Ht & Hd).
      exists reply, db', ev. split; [reflexivity |]. split.
      { rewrite (telegram_membership _ _ _ Hu). now rewrite E. }
      split.
      + destruct Ht as [Ht | Ht]; [now left | right]. eexists.
        split; [| exact Ht]. unfold update_target. now rewrite Hm, Hmem.
      + destruct Hd as [Hd | [Hl Hd]]; [now left |]. right. left.
        now exists m.
    - exists NoReply, db, [WErrorLog; WErrorLog].
      split; [reflexivity |]. split; [| split; now left].
      unfold telegram, telegram_shared, telegram_try_shared. now rewrite Hs, Hj, Hm, Hmem. }
  destruct (matches_message data) eqn:Hm'.
  2:{ exists NoReply, db, []. split; [reflexivity |].
      split; [| split; now left].
      unfold telegram, telegram_shared, telegram_try_shared. now rewrite Hs, Hj, Hm, Hm'. }
  destruct (message data) as [msg |] eqn:Hmsg.
  2:{ exists NoReply, db, [WErrorLog; WErrorLog].
      split; [reflexivity |]. split; [| split; now left].
      unfold telegram, telegram_shared, telegram_try_shared. now rewrite Hs, Hj, Hm, Hm', Hmsg. }
  destruct (text_of_message msg) as [text |] eqn:Ht.
  2:{ exists NoReply, db, []. split; [reflexivity |].
      split; [| split; now left].
      unfold telegram, telegram_shared, telegram_try_shared.
      now rewrite Hs, Hj, Hm, Hm', Hmsg, Ht. }
  destruct text as [| c r].
  { exists NoReply, db, []. split; [reflexivity |].
    split; [| split; now left].
    unfold telegram, telegram_shared, telegram_try_shared. now rewrite Hs, Hj, Hm, Hm', Hmsg, Ht. }
  assert (Hu : message_update request msg (c :: r)).
  { split; [exact Hs |]. exists data. repeat split; auto. discriminate. }
  destruct (on_message_shape msg (c :: r) db)
    as (reply & db' & ev & E & Hr & Hd).
  exists reply, db', ev. split; [reflexivity |].
  split; [now apply (telegram_message _ _ _ _ _ _ _ Hu) |]. split.
  - destruct Hr as [Hr | Hr]; [now left | right]. eexists.
    split; [| exact Hr]. unfold update_target. now rewrite Hm, Hm', Hmsg.
  - destruct Hd as [Hd | [Ha Hd]]; [now left |]. right. right.
    now exists msg, (c :: r).
Qed.

(** X13. The answers of the webhook.  Without the secret of the
    configuration the answer is 401 and nothing is read or written.  With
    it, every update that parses is answered with status 200, whatever
    happens in the handler; and a message that the answer asks Telegram to
    send goes to the chat of the update, and to the thread of its message. *)
Theorem webhook_answers (request : WebhookRequest) (db : database) :
  (strict_eq (secret_token request) WEBHOOK_SECRET = false ->
   telegram request db
   = (WebhookError 401 (lit "Invalid webhook secret."), db, []))
  /\ (strict_eq (secret_token request) WEBHOOK_SECRET = true ->
      webhook_json request = None ->
      telegram request db = (WebhookThrows, db, []))
  /\ (strict_eq (secret_token request) WEBHOOK_SECRET = true ->
      forall data,
        webhook_json request = Some data ->
        exists reply,
          webhook_response (telegram request db) = WebhookRespond 200 reply
          /\ forall target,
              reply_target (WebhookRespond 200 reply) = Some target ->
              update_target data = Some target).
Proof.
  destruct (telegram_cases request db)
    as [[Hs E] | [(Hs & Hj & E) | (Hs & data & reply & db' & ev & Hj & E
                                    & Ht & _)]].
  - repeat split; try congruence.
  - repeat split; try congruence.
  - repeat split; try congruence.
    intros _ data' Hj'. assert (data' = data) by congruence. subst data'.
    exists reply. rewrite E. split; [reflexivity |].
    intros target Hr. destruct Ht as [-> | (target' & Hu & Hr')].
    + discriminate.
    + congruence.
Qed.

(** X16. A registration leaves the table in two ways only: the bot has
    left its chat or was removed from it, or a sender who may give
    commands in its chat sent, in its thread, a text that starts with
    [/remove@] for its DAO, which the indexer knew and which the chat and
    thread tracked on the chain that the indexer named. *)
Theorem registrations_leave_by_command (request : WebhookRequest)
    (db : database) (r : RegistrationRow) :
  In r db ->
  ~ In r (webhook_database (telegram request db)) ->
  (exists m,
      membership_update request m
      /\ status_is (new_chat_member m) "left"
         || status_is (new_chat_member m) "kicked" = true
      /\ row_chatId r = BigInt_toString (id (member_chat m)))
  \/ (exists msg text dao info,
         message_update request msg text
         /\ sender_allowed msg = true
         /\ informational text = false
         /\ startsWith (lit "/remove@") text = true
         /\ getDaoInfo 0 dao = Some info
         /\ In (registration_of msg info dao) db
         /\ registered_here msg dao r = true).
Proof.
  intros Hin Hout.
  destruct (telegram_cases request db)
    as [[Hs E] | [(Hs & Hj & E) | (Hs & data & reply & db' & ev & Hj & E
                                    & _ & Hd)]];
    rewrite E in Hout; cbn [webhook_database fst snd] in Hout;
    try contradiction.
  destruct Hd as [-> | [(m & Hu & Hl & ->) | (msg & text & Hu & Ha & Hd)]].
  - contradiction.
  - left. exists m. repeat split; try apply Hu; [exact Hl |].
    unfold delete_chat in Hout. cbn in Hout.
    destruct (jsstring_eqb (row_chatId r)
                (BigInt_toString (id (member_chat m)))) eqn:K.
    + now apply jsstring_eqb_eq in K.
    + exfalso. apply Hout. apply filter_In. now rewrite K.
  - right. destruct Hd as [-> | [(_ & _ & dao & info & _ & _ & ->)
                                 | (Hq & Hr & dao & info & Hi & Hex & ->)]].
    + contradiction.
    + exfalso. apply Hout. apply in_or_app. now left.
    + exists msg, text, dao, info. repeat split; try apply Hu; auto.
      destruct (registered_here msg dao r) eqn:K; [reflexivity |].
      exfalso. apply Hout. apply filter_In. now rewrite K.
Qed.

(** X22. A registration enters the table in one way only: a sender who
    may give commands sent a text that is not [/start], [/help], [/list]
    or [/remove@], with the address of a DAO that the indexer knew.  The
    row then carries the chat and the thread of the message and the chain
    that the indexer named, and it is the only row added. *)
Theorem registrations_enter_by_command (request : WebhookRequest)
    (db : database) (r : RegistrationRow) :
  In r (webhook_database (telegram request db)) ->
  ~ In r db ->
  exists msg text dao info,
    message_update request msg text
    /\ sender_allowed msg = true
    /\ informational text = false
    /\ startsWith (lit "/remove@") text = false
    /\ getDaoInfo 0 dao = Some info
    /\ r = registration_of msg info dao
    /\ webhook_database (telegram request db) = db ++ [r].
Proof.
  intros Hin Hout.
  destruct (telegram_cases request db)
    as [[Hs E] | [(Hs & Hj & E) | (Hs & data & reply & db' & ev & Hj & E
                                    & _ & Hd)]];
    rewrite E in *; cbn [webhook_database fst snd] in *;
    try contradiction.
  destruct Hd as [-> | [(m & Hu & Hl & ->) | (msg & text & Hu & Ha & Hd)]].
  - contradiction.
  - unfold delete_chat in Hin. cbn in Hin. apply filter_In in Hin as [Hin _].
    contradiction.
  - destruct Hd as [-> | [(Hq & Hr & dao & info & Hi & Hex & ->)
                          | (_ & _ & dao & info & _ & _ & ->)]].
    + contradiction.
    + apply in_app_or in Hin as [Hin | [<- | []]]; [contradiction |].
      exists msg, text, dao, info. repeat split; try apply Hu; auto.
    + apply filter_In in Hin as [Hin _]. contradiction.
Qed.

(** X17. When the bot has left a chat or was removed from it, the answer
    is an empty 200 and the table loses the rows of that chat, in all its
    threads, and no other row: a later lookup of [notify] gives the
    destinations it gave before without those of the chat, and [/list]
    finds nothing in the chat. *)
Theorem membership_loss_unregisters (request : WebhookRequest)
    (m : MyChatMember) (db : database) :
  membership_update request m ->
  status_is (new_chat_member m) "left"
  || status_is (new_chat_member m) "kicked" = true ->
  telegram request db
  = (WebhookRespond 200 NoReply,
     delete_chat (BigInt_toString (id (member_chat m))) db,
     [WJson; WLog; WRun (DeleteChat (BigInt_toString (id (member_chat m))))])
  /\ (forall r,
        In r (webhook_database (telegram request db))
        <-> In r db
            /\ row_chatId r <> BigInt_toString (id (member_chat m)))
  /\ (forall chainId dao,
        lookup chainId dao (webhook_database (telegram request db))
        = filter (fun dest =>
                    negb (jsstring_eqb (chatId dest)
                            (BigInt_toString (id (member_chat m)))))
            (lookup chainId dao db))
  /\ (forall thread,
        select_daos (BigInt_toString (id (member_chat m))) thread
          (webhook_database (telegram request db)) = []).
Proof.
  intros Hu Hl.
  assert (E : telegram request db
              = (WebhookRespond 200 NoReply,
                 delete_chat (BigInt_toString (id (member_chat m))) db,
                 [WJson; WLog;
                  WRun (DeleteChat (BigInt_toString (id (member_chat m))))])).
  { rewrite (telegram_membership _ _ _ Hu). unfold on_my_chat_member.
    cbv zeta. now rewrite Hl. }
  rewrite E. cbn [webhook_database fst snd]. repeat split.
  - unfold delete_chat in H. cbn in H. now apply filter_In in H.
  - unfold delete_chat in H. cbn in H. apply filter_In in H as [_ H].
    apply negb_true_iff in H. intros K. apply jsstring_eqb_eq in K.
    congruence.
  - intros [Hin Hc]. unfold delete_chat. cbn. apply filter_In.
    split; [exact Hin |]. apply negb_true_iff.
    destruct (jsstring_eqb _ _) eqn:K; [| reflexivity].
    now apply jsstring_eqb_eq in K.
  - intros chainId dao. apply lookup_delete_chat.
  - intros thread.
    destruct (select_daos _ thread _) as [| dao daos] eqn:K;
      [reflexivity |].
    assert (Hin : In dao (select_daos
                            (BigInt_toString (id (member_chat m))) thread
                            (delete_chat
                               (BigInt_toString (id (member_chat m))) db)))
      by (rewrite K; now left).
    apply in_select_daos in Hin as (r & Hin & _ & Hc & _).
    unfold delete_chat in Hin. cbn in Hin. apply filter_In in Hin as [_ Hin].
    apply negb_true_iff in Hin. rewrite Hc, jsstring_eqb_refl in Hin.
    discriminate.
Qed.

Lemma registers request msg text dao info db :
  message_update request msg text ->
  sender_allowed msg = true ->
  startsWith (lit "/add") text || startsWith (lit "/remove") text = true ->
  startsWith (lit "/remove@") text = false ->
  command_argument text = Some dao ->
  dao <> [] ->
  getDaoInfo 0 dao = Some info ->
  ~ In (registration_of msg info dao) db ->
  telegram request db
  = (WebhookRespond 200
       (SendMarkdown (id (chat msg)) (message_thread_id_of msg)
          (added_message info dao)),
     db ++ [registration_of msg info dao],
     WJson :: admin_check msg
       ++ [WDaoInfo dao;
           WRun (SelectExisting (info_chainId info) dao
                   (BigInt_toString (id (chat msg)))
                   (option_map BigInt_toString (message_thread_id_of msg)));
           WRun (Insert (info_chainId info) dao
                   (BigInt_toString (id (chat msg)))
                   (option_map BigInt_toString
                      (message_thread_id_of msg)))]).
Proof.
  intros Hu Ha Hc Hr Harg Hn Hi Hout.
  apply (telegram_command _ _ _ _ _ _ _ Hu Ha).
  rewrite (on_command_address _ _ _ _ Hc Harg Hn).
  now apply on_address_added.
Qed.

Lemma registered_already request msg text dao info db :
  message_update request msg text ->
  sender_allowed msg = true ->
  startsWith (lit "/add") text || startsWith (lit "/remove") text = true ->
  startsWith (lit "/remove@") text = false ->
  command_argument text = Some dao ->
  dao <> [] ->
  getDaoInfo 0 dao = Some info ->
  In (registration_of msg info dao) db ->
  telegram request db
  = (WebhookRespond 200
       (SendMarkdown (id (chat msg)) (message_thread_id_of msg)
          (already_message info dao)),
     db,
     WJson :: admin_check msg
       ++ [WDaoInfo dao;
           WRun (SelectExisting (info_chainId info) dao
                   (BigInt_toString (id (chat msg)))
                   (option_map BigInt_toString
                      (message_thread_id_of msg)))]).
Proof.
  intros Hu Ha Hc Hr Harg Hn Hi Hin.
  apply (telegram_command _ _ _ _ _ _ _ Hu Ha).
  rewrite (on_command_address _ _ _ _ Hc Harg Hn).
  now apply on_address_already.
Qed.

Lemma lookup_registration msg info dao :
  lookup (info_chainId info) dao [registration_of msg info dao]
  = [destination_of msg].
Proof.
  unfold lookup. cbn. now rewrite !jsstring_eqb_refl.
Qed.

(** X18. [/add] with the address of a DAO that the indexer knows, from
    a sender who may give commands: when the chat and thread do not track
    the DAO yet, one row is added for the chain that the indexer names,
    the answer confirms it in the chat and thread, the lookup of [notify]
    for that chain and DAO gains this chat and thread as one more
    destination (in whatever order the store lists them), [/list] shows
    the DAO, and the same command sent again changes nothing.  When they
    track it already, the table stays as it is. *)
Theorem add_registers (request : WebhookRequest) (msg : TelegramMessage)
    (text dao : jsstring) (info : DaoInfo) (db : database) :
  message_update request msg text ->
  sender_allowed msg = true ->
  startsWith (lit "/add") text = true ->
  command_argument text = Some dao ->
  dao <> [] ->
  getDaoInfo 0 dao = Some info ->
  (~ In (registration_of msg info dao) db ->
   webhook_response (telegram request db)
   = WebhookRespond 200
       (SendMarkdown (id (chat msg)) (message_thread_id_of msg)
          (added_message info dao))
   /\ webhook_database (telegram request db)
      = db ++ [registration_of msg info dao]
   /\ Permutation
        (lookup (info_chainId info) dao
           (webhook_database (telegram request db)))
        (destination_of msg :: lookup (info_chainId info) dao db)
   /\ In dao (select_daos (BigInt_toString (id (chat msg)))
                (option_map BigInt_toString (message_thread_id_of msg))
                (webhook_database (telegram request db)))
   /\ webhook_database
        (telegram request (webhook_database (telegram request db)))
      = webhook_database (telegram request db))
  /\ (In (registration_of msg info dao) db ->
      webhook_response (telegram request db)
      = WebhookRespond 200
          (SendMarkdown (id (chat msg)) (message_thread_id_of msg)
             (already_message info dao))
      /\ webhook_database (telegram request db) = db).
Proof.
  intros Hu Ha Hadd Harg Hn Hi.
  assert (Hc : startsWith (lit "/add") text
               || startsWith (lit "/remove") text = true)
    by now rewrite Hadd.
  pose proof (add_is_not_remove _ Hadd) as Hr.
  split.
  - intros Hout.
    rewrite (registers _ _ _ _ _ _ Hu Ha Hc Hr Harg Hn Hi Hout).
    cbn [webhook_response webhook_database fst snd].
    repeat split.
    + rewrite lookup_app, lookup_registration.
      apply Permutation_sym, Permutation_cons_append.
    + apply in_select_daos. exists (registration_of msg info dao).
      repeat split. apply in_or_app. right. now left.
    + rewrite (registered_already _ _ _ _ _ _ Hu Ha Hc Hr Harg Hn Hi);
        [reflexivity |].
      apply in_or_app. right. now left.
  - intros Hin.
    now rewrite (registered_already _ _ _ _ _ _ Hu Ha Hc Hr Harg Hn Hi Hin).
Qed.

(** X19. The deletion is reached only by a text that starts with
    [/remove@]: [/remove] followed directly by the address passes the
    test of the commands and is then handled as [/add].  When the chat
    and thread do not track the DAO, the command registers it and the
    answer confirms the registration. *)
Theorem remove_without_mention_registers (request : WebhookRequest)
    (msg : TelegramMessage) (text dao : jsstring) (info : DaoInfo)
    (db : database) :
  message_update request msg text ->
  sender_allowed msg = true ->
  startsWith (lit "/remove") text = true ->
  startsWith (lit "/remove@") text = false ->
  command_argument text = Some dao ->
  dao <> [] ->
  getDaoInfo 0 dao = Some info ->
  ~ In (registration_of msg info dao) db ->
  webhook_response (telegram request db)
  = WebhookRespond 200
      (SendMarkdown (id (chat msg)) (message_thread_id_of msg)
         (added_message info dao))
  /\ webhook_database (telegram request db)
     = db ++ [registration_of msg info dao].
Proof.
  intros Hu Ha Hrem Hr Harg Hn Hi Hout.
  assert (Hc : startsWith (lit "/add") text
               || startsWith (lit "/remove") text = true)
    by (rewrite Hrem; apply orb_true_r).
  now rewrite (registers _ _ _ _ _ _ Hu Ha Hc Hr Harg Hn Hi Hout).
Qed.

(** X20. [/remove@..] with the address of a DAO that the indexer knows,
    from a sender who may give commands.  When the chat and thread track
    the DAO on the chain that the indexer names, the rows of the DAO in
    this chat and thread are deleted on every chain, and no other row:
    afterwards no lookup of [notify] for the DAO gives this chat and
    thread, and [/list] does not show the DAO.  When they do not track it
    on that chain, the table stays as it is. *)
Theorem remove_unregisters (request : WebhookRequest)
    (msg : TelegramMessage) (text dao : jsstring) (info : DaoInfo)
    (db : database) :
  message_update request msg text ->
  sender_allowed msg = true ->
  startsWith (lit "/remove@") text = true ->
  command_argument text = Some dao ->
  dao <> [] ->
  getDaoInfo 0 dao = Some info ->
  (In (registration_of msg info dao) db ->
   webhook_response (telegram request db)
   = WebhookRespond 200
       (SendMarkdown (id (chat msg)) (message_thread_id_of msg)
          (removed_message info dao))
   /\ (forall r,
         In r (webhook_database (telegram request db))
         <-> In r db /\ registered_here msg dao r = false)
   /\ (forall chainId,
         ~ In (destination_of msg)
             (lookup chainId dao (webhook_database (telegram request db))))
   /\ ~ In dao (select_daos (BigInt_toString (id (chat msg)))
                  (option_map BigInt_toString (message_thread_id_of msg))
                  (webhook_database (telegram request db))))
  /\ (~ In (registration_of msg info dao) db ->
      webhook_response (telegram request db)
      = WebhookRespond 200
          (SendMarkdown (id (chat msg)) (message_thread_id_of msg)
             (not_tracking_message info dao))
      /\ webhook_database (telegram request db) = db).
Proof.
  intros Hu Ha Hr Harg Hn Hi.
  assert (Hrem : startsWith (lit "/remove") text = true)
    by (apply (startsWith_prefix (lit "/remove") (lit "@")); exact Hr).
  assert (Hc : startsWith (lit "/add") text
               || startsWith (lit "/remove") text = true)
    by (rewrite Hrem; apply orb_true_r).
  split.
  - intros Hin.
    assert (E : telegram request db
                = (WebhookRespond 200
                     (SendMarkdown (id (chat msg))
                        (message_thread_id_of msg)
                        (removed_message info dao)),
                   filter (fun r => negb (registered_here msg dao r)) db,
                   WJson :: admin_check msg
                     ++ [WDaoInfo dao;
                         WRun (SelectExisting (info_chainId info) dao
                                 (BigInt_toString (id (chat msg)))
                                 (option_map BigInt_toString
                                    (message_thread_id_of msg)));
                         WRun (DeleteRegistration dao
                                 (BigInt_toString (id (chat msg)))
                                 (option_map BigInt_toString
                                    (message_thread_id_of msg)))])).
    { apply (telegram_command _ _ _ _ _ _ _ Hu Ha).
      rewrite (on_command_address _ _ _ _ Hc Harg Hn).
      now apply on_address_removed. }
    rewrite E. cbn [webhook_response webhook_database fst snd].
    split; [reflexivity |]. split; [| split].
    + intros r. rewrite filter_In, negb_true_iff. tauto.
    + intros chainId K. apply in_lookup in K as (r & K & _ & Hd & Hc' & Ht).
      apply filter_In in K as [_ K]. apply negb_true_iff in K.
      assert (registered_here msg dao r = true); [| congruence].
      apply registered_here_spec. cbn in Hc', Ht. auto.
    + intros K. apply in_select_daos in K as (r & K & Hd & Hc' & Ht).
      apply filter_In in K as [_ K]. apply negb_true_iff in K.
      assert (registered_here msg dao r = true); [| congruence].
      apply registered_here_spec. auto.
  - intros Hout.
    assert (E : on_command msg text db
                = on_address msg text dao db)
      by now apply on_command_address.
    rewrite (on_address_not_tracking _ _ _ _ _ Hi Hr Hout) in E.
    now rewrite (telegram_command _ _ _ _ _ _ _ Hu Ha E).
Qed.

(** X21. In a chat that is not private, a message of a sender whom
    Telegram does not name as administrator or creator of the chat, or at
    a moment when the list of the administrators cannot be had, has no
    effect whatever its text: the answer is an empty 200, the table is
    neither read nor written and the indexer is not asked. *)
Theorem non_admin_ignored (request : WebhookRequest)
    (msg : TelegramMessage) (text : jsstring) (db : database) :
  message_update request msg text ->
  sender_allowed msg = false ->
  telegram request db
  = (WebhookRespond 200 NoReply, db,
     [WJson; WAdministrators (id (chat msg))]).
Proof.
  intros Hu Ha. apply (telegram_message _ _ _ _ _ _ _ Hu).
  now apply on_message_refused.
Qed.

End WebhookFacts.

Section Overlap.

Variable WEBHOOK_SECRET : jsstring.
Variable matches_my_chat_member : TelegramWebhookData -> bool.
Variable matches_message : TelegramWebhookData -> bool.
Variable getChatAdministrators : Z -> option AdministratorsReply.
Variable getDaoInfo : nat -> jsstring -> option DaoInfo.

Local Abbreviation telegram :=
  (telegram WEBHOOK_SECRET matches_my_chat_member matches_message
     getChatAdministrators getDaoInfo).
Local Abbreviation telegram_shared :=
  (telegram_shared WEBHOOK_SECRET matches_my_chat_member matches_message
     getChatAdministrators getDaoInfo).
Local Abbreviation sender_allowed := (sender_allowed getChatAdministrators).
Local Abbreviation message_update :=
  (message_update WEBHOOK_SECRET matches_my_chat_member matches_message).

(** X15. An update that runs alone, with no write of another request
    between its statements, never makes the table hold a row twice, also
    not a row without a thread, which the constraint of the schema does
    not protect.  The guarantee needs the update to run alone: when
    another request has written the row of an [/add] without a thread
    between the [SELECT] and the [INSERT] of this one (two [/add] of the
    same DAO in the same chat that overlap), the [INSERT] goes through
    and the table holds the row twice. *)
Theorem registrations_stay_unique (request : WebhookRequest)
    (db : database) :
  NoDup db ->
  NoDup (webhook_database (telegram request db))
  /\ forall listed between msg text dao info,
      message_update request msg text ->
      sender_allowed msg = true ->
      startsWith (lit "/add") text = true ->
      command_argument text = Some dao ->
      dao <> [] ->
      getDaoInfo 0 dao = Some info ->
      message_thread_id_of msg = None ->
      ~ In (registration_of msg info dao) db ->
      In (registration_of msg info dao) (between db) ->
      webhook_database (telegram_shared listed between request db)
      = between db ++ [registration_of msg info dao]
      /\ ~ NoDup (webhook_database
                    (telegram_shared listed between request db)).
Proof.
  intros Hn. split.
  - destruct (telegram_cases WEBHOOK_SECRET matches_my_chat_member
                matches_message getChatAdministrators getDaoInfo
                request db)
      as [[Hs E] | [(Hs & Hj & E) | (Hs & data & reply & db' & ev & Hj & E
                                      & _ & Hd)]];
      rewrite E; cbn [webhook_database fst snd]; try exact Hn.
    destruct Hd as [-> | [(m & _ & _ & ->) | (msg & text & _ & _ & Hd)]].
    + exact Hn.
    + unfold delete_chat. cbn. now apply NoDup_filter.
    + destruct Hd as [-> | [(_ & _ & dao & info & _ & Hex & ->)
                            | (_ & _ & dao & info & _ & _ & ->)]].
      * exact Hn.
      * apply NoDup_app; [exact Hn | repeat constructor; intros [] |].
        intros r Hin [<- | []]. exact (Hex Hin).
      * now apply NoDup_filter.
  - intros listed between msg text dao info Hu Ha Hadd Harg Hd Hi Ht Hout
      Hin.
    assert (Hc : startsWith (lit "/add") text
                 || startsWith (lit "/remove") text = true)
      by now rewrite Hadd.
    assert (Hv : violates_unique (registration_of msg info dao)
                   (between db) = false).
    { apply violates_unique_null. cbn. now rewrite Ht. }
    rewrite (registers_shared _ _ _ _ _ _ _ _ _ _ _ _ _ Hu Ha Hc
               (add_is_not_remove _ Hadd) Harg Hd Hi Hout Hv).
    cbn [webhook_database fst snd]. split; [reflexivity |].
    intros K. apply NoDup_remove_2 in K. rewrite app_nil_r in K.
    exact (K Hin).
Qed.

End Overlap.

Lemma match_address_of_page_witness :
  match_address
    (lit "(" ++ dao_page true false (lit "juno1abc") ++ lit "/proposals")
  = Some (lit "juno1abc").
Proof.
  apply (match_address_of_page true false (lit "(") (lit "juno1abc")
           (lit "/proposals"));
    [reflexivity | discriminate | reflexivity | reflexivity].
Defined.

(** The examples: the private chat 100 of the table of the examples, and
    a forum whose administrators cannot be had. *)
Lemma example_message_update text :
  lit text <> [] ->
  message_update example_secret has_my_chat_member has_message
    (update_with (private_message text)) (private_message text) (lit text).
Proof.
  intros H. split; [reflexivity |].
  eexists. repeat split; try reflexivity. exact H.
Qed.

Lemma example_forum_update text :
  lit text <> [] ->
  message_update example_secret has_my_chat_member has_message
    (update_with (forum_message text)) (forum_message text) (lit text).
Proof.
  intros H. split; [reflexivity |].
  eexists. repeat split; try reflexivity. exact H.
Qed.

Lemma example_membership_update :
  membership_update example_secret has_my_chat_member left_update
    example_left.
Proof. split; [reflexivity |]. eexists. repeat split. Qed.

Lemma example_db_unique : NoDup example_db.
Proof.
  repeat constructor; cbn [In]; intros H;
    repeat (destruct H as [H | H]; [discriminate H |]); exact H.
Qed.

Lemma registrations_stay_unique_witness :
  NoDup example_db
  /\ NoDup
       (webhook_database
          (telegram example_secret has_my_chat_member has_message
             no_administrators example_indexer
             (update_with
                (private_message "/add@dao_dao_notifier_bot dao1new"))
             example_db))
  /\ webhook_database
       (telegram_shared example_secret has_my_chat_member has_message
          no_administrators example_indexer in_table_order
          (fun db =>
             db ++ [registration_of
                      (private_message "/add@dao_dao_notifier_bot dao1new")
                      example_info (lit "dao1new")])
          (update_with
             (private_message "/add@dao_dao_notifier_bot dao1new"))
          example_db)
     = (example_db
          ++ [registration_of
                (private_message "/add@dao_dao_notifier_bot dao1new")
                example_info (lit "dao1new")])
         ++ [registration_of
               (private_message "/add@dao_dao_notifier_bot dao1new")
               example_info (lit "dao1new")].
Proof.
  destruct (registrations_stay_unique example_secret has_my_chat_member
              has_message no_administrators example_indexer
              (update_with
                 (private_message "/add@dao_dao_notifier_bot dao1new"))
              example_db example_db_unique) as [H1 H2].
  split; [exact example_db_unique |]. split; [exact H1 |].
  refine (proj1 (H2 in_table_order _
                   (private_message "/add@dao_dao_notifier_bot dao1new")
                   (lit "/add@dao_dao_notifier_bot dao1new")
                   (lit "dao1new") example_info
                   (example_message_update
                      "/add@dao_dao_notifier_bot dao1new"
                      ltac:(discriminate))
                   eq_refl eq_refl eq_refl ltac:(discriminate) eq_refl
                   eq_refl _ _)).
  - cbn [In example_db]. intros H.
    repeat (destruct H as [H | H]; [discriminate H |]). exact H.
  - apply in_or_app. right. left. reflexivity.
Defined.

Ltac not_in_example :=
  let H := fresh "H" in
  cbn [In example_db]; intros H;
  repeat (destruct H as [H | H]; [discriminate H |]); exact H.

Lemma add_registers_witness :
  ~ In (registration_of
          (private_message "/add@dao_dao_notifier_bot dao1new")
          example_info (lit "dao1new")) example_db
  /\ webhook_database
       (telegram example_secret has_my_chat_member has_message
          no_administrators example_indexer
          (update_with
             (private_message "/add@dao_dao_notifier_bot dao1new"))
          example_db)
     = example_db
         ++ [registration_of
               (private_message "/add@dao_dao_notifier_bot dao1new")
               example_info (lit "dao1new")].
Proof.
  assert (Hn : ~ In (registration_of
                       (private_message "/add@dao_dao_notifier_bot dao1new")
                       example_info (lit "dao1new")) example_db)
    by not_in_example.
  split; [exact Hn |].
  pose proof (add_registers example_secret has_my_chat_member has_message
                no_administrators example_indexer
                (update_with
                   (private_message "/add@dao_dao_notifier_bot dao1new"))
                (private_message "/add@dao_dao_notifier_bot dao1new")
                (lit "/add@dao_dao_notifier_bot dao1new") (lit "dao1new")
                example_info example_db
                (example_message_update "/add@dao_dao_notifier_bot dao1new" ltac:(discriminate))
                eq_refl eq_refl eq_refl ltac:(discriminate) eq_refl)
    as [H _].
  exact (proj1 (proj2 (H Hn))).
Defined.

Lemma remove_without_mention_registers_witness :
  startsWith (lit "/remove@") (lit "/remove dao1new") = false
  /\ webhook_database
       (telegram example_secret has_my_chat_member has_message
          no_administrators example_indexer
          (update_with (private_message "/remove dao1new")) example_db)
     = example_db
         ++ [registration_of (private_message "/remove dao1new")
               example_info (lit "dao1new")].
Proof.
  split; [reflexivity |].
  exact (proj2
           (remove_without_mention_registers example_secret
              has_my_chat_member has_message no_administrators
              example_indexer
              (update_with (private_message "/remove dao1new"))
              (private_message "/remove dao1new")
              (lit "/remove dao1new") (lit "dao1new")
              example_info example_db
              (example_message_update "/remove dao1new" ltac:(discriminate))
              eq_refl eq_refl eq_refl eq_refl ltac:(discriminate) eq_refl
              ltac:(not_in_example))).
Defined.

Lemma remove_unregisters_witness :
  In (registration_of
        (private_message "/remove@dao_dao_notifier_bot dao1abc")
        example_info (lit "dao1abc")) example_db
  /\ webhook_response
       (telegram example_secret has_my_chat_member has_message
          no_administrators example_indexer
          (update_with
             (private_message "/remove@dao_dao_notifier_bot dao1abc"))
          example_db)
     = WebhookRespond 200
         (SendMarkdown 100 None
            (removed_message example_info (lit "dao1abc"))).
Proof.
  assert (Hin : In (registration_of
                      (private_message
                         "/remove@dao_dao_notifier_bot dao1abc")
                      example_info (lit "dao1abc")) example_db)
    by (left; reflexivity).
  split; [exact Hin |].
  pose proof (remove_unregisters example_secret has_my_chat_member
                has_message no_administrators example_indexer
                (update_with
                   (private_message
                      "/remove@dao_dao_notifier_bot dao1abc"))
                (private_message "/remove@dao_dao_notifier_bot dao1abc")
                (lit "/remove@dao_dao_notifier_bot dao1abc")
                (lit "dao1abc") example_info example_db
                (example_message_update "/remove@dao_dao_notifier_bot dao1abc" ltac:(discriminate))
                eq_refl eq_refl eq_refl ltac:(discriminate) eq_refl)
    as [H _].
  exact (proj1 (H Hin)).
Defined.

Lemma non_admin_ignored_witness :
  sender_allowed no_administrators
    (forum_message "/add@dao_dao_notifier_bot dao1new") = false
  /\ telegram example_secret has_my_chat_member has_message
       no_administrators example_indexer
       (update_with (forum_message "/add@dao_dao_notifier_bot dao1new"))
       example_db
     = (WebhookRespond 200 NoReply, example_db,
        [WJson; WAdministrators (-1001234567890)]).
Proof.
  split; [reflexivity |].
  exact (non_admin_ignored example_secret has_my_chat_member has_message
           no_administrators example_indexer
           (update_with (forum_message "/add@dao_dao_notifier_bot dao1new"))
           (forum_message "/add@dao_dao_notifier_bot dao1new")
           (lit "/add@dao_dao_notifier_bot dao1new") example_db
           (example_forum_update "/add@dao_dao_notifier_bot dao1new" ltac:(discriminate)) eq_refl).
Defined.

Lemma membership_loss_unregisters_witness :
  status_is (new_chat_member example_left) "kicked" = true
  /\ forall thread,
      select_daos (lit "100") thread
        (webhook_database
           (telegram example_secret has_my_chat_member has_message
              no_administrators example_indexer left_update example_db))
      = [].
Proof.
  split; [reflexivity |].
  exact (proj2 (proj2 (proj2
           (membership_loss_unregisters example_secret has_my_chat_member
              has_message no_administrators example_indexer left_update
              example_left example_db example_membership_update
              eq_refl)))).
Defined.

Lemma registrations_leave_by_command_witness :
  exists r,
    In r example_db
    /\ ((exists m,
           membership_update example_secret has_my_chat_member left_update m
           /\ status_is (new_chat_member m) "left"
              || status_is (new_chat_member m) "kicked" = true
           /\ row_chatId r = BigInt_toString (id (member_chat m)))
        \/ (exists msg text dao info,
              message_update example_secret has_my_chat_member has_message
                left_update msg text
              /\ sender_allowed no_administrators msg = true
              /\ informational text = false
              /\ startsWith (lit "/remove@") text = true
              /\ example_indexer 0 dao = Some info
              /\ In (registration_of msg info dao) example_db
              /\ registered_here msg dao r = true)).
Proof.
  exists {| row_chainId := lit "osmosis-1"; row_dao := lit "dao1abc";
            row_chatId := lit "100"; row_messageThreadId := None |}.
  assert (Hin : In {| row_chainId := lit "osmosis-1";
                      row_dao := lit "dao1abc";
                      row_chatId := lit "100";
                      row_messageThreadId := None |} example_db)
    by (left; reflexivity).
  split; [exact Hin |].
  apply (registrations_leave_by_command example_secret has_my_chat_member
           has_message no_administrators example_indexer left_update
           example_db _ Hin).
  vm_compute. intros H.
  repeat (destruct H as [H | H]; [discriminate H |]); exact H.
Defined.

Lemma registrations_enter_by_command_witness :
  exists r msg text dao info,
    ~ In r example_db
    /\ message_update example_secret has_my_chat_member has_message
         (update_with (private_message "dao1new")) msg text
    /\ sender_allowed no_administrators msg = true
    /\ informational text = false
    /\ startsWith (lit "/remove@") text = false
    /\ example_indexer 0 dao = Some info
    /\ r = registration_of msg info dao
    /\ webhook_database
         (telegram example_secret has_my_chat_member has_message
            no_administrators example_indexer
            (update_with (private_message "dao1new")) example_db)
       = example_db ++ [r].
Proof.
  exists {| row_chainId := lit "osmosis-1"; row_dao := lit "dao1new";
            row_chatId := lit "100"; row_messageThreadId := None |}.
  assert (Hn : ~ In {| row_chainId := lit "osmosis-1";
                       row_dao := lit "dao1new";
                       row_chatId := lit "100";
                       row_messageThreadId := None |} example_db)
    by not_in_example.
  destruct (registrations_enter_by_command example_secret
              has_my_chat_member has_message no_administrators
              example_indexer (update_with (private_message "dao1new"))
              example_db _
              ltac:(vm_compute; do 3 right; left; reflexivity) Hn)
    as (msg & text & dao & info & H).
  exists msg, text, dao, info. split; [exact Hn | exact H].
Defined.

Lemma list_shows_registrations_witness :
  (forall daos : list jsstring, Permutation (rev daos) daos)
  /\ webhook_events
       (telegram_shared example_secret has_my_chat_member has_message
          no_administrators example_indexer (@rev jsstring) alone
          (update_with (private_message "/list@dao_dao_notifier_bot"))
          (example_db
             ++ [registration_of
                   (private_message "/list@dao_dao_notifier_bot")
                   example_info (lit "dao1new")]))
     = [WJson; WRun (SelectDaos (lit "100") None);
        WDaoInfo (lit "dao1new"); WDaoInfo (lit "dao1abc")].
Proof.
  assert (Hp : forall daos : list jsstring, Permutation (rev daos) daos)
    by (intros daos; apply Permutation_sym, Permutation_rev).
  split; [exact Hp |].
  exact (f_equal webhook_events
           (proj1
              (list_shows_registrations example_secret has_my_chat_member
                 has_message no_administrators example_indexer
                 (@rev jsstring) alone
                 (update_with
                    (private_message "/list@dao_dao_notifier_bot"))
                 (private_message "/list@dao_dao_notifier_bot")
                 (lit "/list@dao_dao_notifier_bot")
                 (example_db
                    ++ [registration_of
                          (private_message "/list@dao_dao_notifier_bot")
                          example_info (lit "dao1new")])
                 Hp
                 (example_message_update "/list@dao_dao_notifier_bot"
                    ltac:(discriminate))
                 eq_refl eq_refl))).
Defined.

Lemma insert_respects_unique_witness :
  In (WRun (Insert (lit "osmosis-1") (lit "dao1new")
              (lit "-1001234567890") (Some (lit "7"))))
    (webhook_events
       (telegram_shared example_secret has_my_chat_member has_message
          example_administrators example_indexer in_table_order
          (fun db =>
             db ++ [registration_of
                      (forum_message "/add@dao_dao_notifier_bot dao1new")
                      example_info (lit "dao1new")])
          (update_with (forum_message "/add@dao_dao_notifier_bot dao1new"))
          example_db))
  /\ webhook_database
       (telegram_shared example_secret has_my_chat_member has_message
          example_administrators example_indexer in_table_order
          (fun db =>
             db ++ [registration_of
                      (forum_message "/add@dao_dao_notifier_bot dao1new")
                      example_info (lit "dao1new")])
          (update_with (forum_message "/add@dao_dao_notifier_bot dao1new"))
          example_db)
     = example_db
         ++ [registration_of
               (forum_message "/add@dao_dao_notifier_bot dao1new")
               example_info (lit "dao1new")]
  /\ exists chat thread,
      webhook_response
        (telegram_shared example_secret has_my_chat_member has_message
           example_administrators example_indexer in_table_order
           (fun db =>
              db ++ [registration_of
                       (forum_message "/add@dao_dao_notifier_bot dao1new")
                       example_info (lit "dao1new")])
           (update_with (forum_message "/add@dao_dao_notifier_bot dao1new"))
           example_db)
      = WebhookRespond 200 (SendPlain chat thread UNEXPECTED).
Proof.
  assert (H : In (WRun (Insert (lit "osmosis-1") (lit "dao1new")
                          (lit "-1001234567890") (Some (lit "7"))))
                (webhook_events
                   (telegram_shared example_secret has_my_chat_member
                      has_message example_administrators example_indexer
                      in_table_order
                      (fun db =>
                         db ++ [registration_of
                                  (forum_message
                                     "/add@dao_dao_notifier_bot dao1new")
                                  example_info (lit "dao1new")])
                      (update_with
                         (forum_message
                            "/add@dao_dao_notifier_bot dao1new"))
                      example_db)))
    by (vm_compute; do 4 right; left; reflexivity).
  split; [exact H |].
  refine (proj2 (proj2
            (insert_respects_unique example_secret has_my_chat_member
               has_message example_administrators example_indexer
               in_table_order _ _ _ _ _ _ _ H)) _).
  apply in_or_app. right. left. reflexivity.
Defined.
